(** * Travel assistant: the conversation workflow

    A shallow embedding of the orchestration pipeline of the travel
    assistant backend ([scripts/langgraph_workflow.py]), of the language
    model client it calls ([scripts/deepseek_client.py]), of the request and
    response models ([scripts/models.py]) and of the conversation store
    ([scripts/database.py]).

    Python values that the code handles without a static type (the parsed
    completion payload, the entity map) are values of [json]. Exceptions are
    values of [exn]; code that can raise or that touches the store, the
    completion service or a search service runs in the monad [M], a state
    monad over [World] with an exception result. *)

From Stdlib Require Import ZArith String Ascii List Floats Sorted.
From stdpp Require Import gmap strings list fin_maps.

Set Warnings "-inexact-float,-register-all".

Local Open Scope string_scope.
Local Open Scope Z_scope.

(** ** Python strings *)

Module Py.

(** A string is a Python [str] in UTF-8, so that a character takes one to
    four bytes. The white space of [str.isspace], of [str.strip] and of the
    pattern [\s] is the same set of characters. On one byte: tab, line feed,
    vertical tab, form feed, carriage return, the four separators 28..31
    and the space. *)
Definition is_space (c : ascii) : bool :=
  let n := nat_of_ascii c in
  ((9 <=? n)%nat && (n <=? 13)%nat) || ((28 <=? n)%nat && (n <=? 32)%nat).

(** On two bytes: U+0085 (C2 85) and U+00A0 (C2 A0). *)
Definition is_space2 (a b : ascii) : bool :=
  let n := nat_of_ascii a in
  let m := nat_of_ascii b in
  (n =? 194)%nat && ((m =? 133)%nat || (m =? 160)%nat).

(** On three bytes: U+1680 (E1 9A 80), U+2000 to U+200A (E2 80 80 to
    E2 80 8A), U+2028, U+2029 and U+202F (E2 80 A8, A9 and AF), U+205F
    (E2 81 9F) and U+3000 (E3 80 80). *)
Definition is_space3 (a b c : ascii) : bool :=
  let n := nat_of_ascii a in
  let m := nat_of_ascii b in
  let k := nat_of_ascii c in
  ((n =? 225)%nat && (m =? 154)%nat && (k =? 128)%nat)
  || ((n =? 226)%nat && (m =? 128)%nat
      && (((128 <=? k)%nat && (k <=? 138)%nat)
          || (k =? 168)%nat || (k =? 169)%nat || (k =? 175)%nat))
  || ((n =? 226)%nat && (m =? 129)%nat && (k =? 159)%nat)
  || ((n =? 227)%nat && (m =? 128)%nat && (k =? 128)%nat).

(** What follows the white-space character [s] starts with, when it starts
    with one. *)
Definition skip_space (s : string) : option string :=
  match s with
  | String a s1 =>
      if is_space a then Some s1
      else
        match s1 with
        | String b s2 =>
            if is_space2 a b then Some s2
            else
              match s2 with
              | String c s3 => if is_space3 a b c then Some s3 else None
              | EmptyString => None
              end
        | EmptyString => None
        end
  | EmptyString => None
  end.

(** [s.lstrip()]: [s] without the white-space characters it starts with. *)
Fixpoint lstrip (s : string) : string :=
  match s with
  | EmptyString => EmptyString
  | String a s1 =>
      if is_space a then lstrip s1
      else
        match s1 with
        | String b s2 =>
            if is_space2 a b then lstrip s2
            else
              match s2 with
              | String c s3 => if is_space3 a b c then lstrip s3 else s
              | EmptyString => s
              end
        | EmptyString => s
        end
  end.

(** [s.rstrip()]: [s] without its longest end made of white space. *)
Fixpoint rstrip (s : string) : string :=
  match s with
  | EmptyString => EmptyString
  | String c s' =>
      if String.eqb (lstrip s) "" then "" else String c (rstrip s')
  end.

(** [s.strip()] *)
Definition strip (s : string) : string := rstrip (lstrip s).

(** [not s.strip()] *)
Definition blank (s : string) : bool := String.eqb (strip s) "".

(** [s] without the prefix [p], when [s] starts with [p]. *)
Fixpoint strip_prefix (p s : string) : option string :=
  match p, s with
  | EmptyString, _ => Some s
  | String a p', String b s' =>
      if Ascii.eqb a b then strip_prefix p' s' else None
  | String _ _, EmptyString => None
  end.

(** What follows the leftmost occurrence of [p] in [s]. *)
Fixpoint find_after (p s : string) : option string :=
  match strip_prefix p s with
  | Some rest => Some rest
  | None =>
      match s with
      | EmptyString => None
      | String _ s' => find_after p s'
      end
  end.

(** [sep.join(l)] *)
Fixpoint join (sep : string) (l : list string) : string :=
  match l with
  | [] => ""
  | [x] => x
  | x :: l' => x +:+ sep +:+ join sep l'
  end.

(** [l[-3:]] *)
Definition last3 {A} (l : list A) : list A := drop (length l - 3) l.

Definition newline : string := String (ascii_of_nat 10) "".

(** The no-break space U+00A0 and the ideographic space U+3000. *)
Definition nbsp : string :=
  String (ascii_of_nat 194) (String (ascii_of_nat 160) "").

Definition ideographic_space : string :=
  String (ascii_of_nat 227)
    (String (ascii_of_nat 128) (String (ascii_of_nat 128) "")).

End Py.

(** ** Loosely typed values and exceptions *)

(** The values [json.loads] produces; [JObj] is a Python [dict] with string
    keys, [JInt] and [JFloat] are Python's [int] and [float]. *)
Inductive json : Type :=
  | JNull
  | JBool (b : bool)
  | JInt (z : Z)
  | JFloat (f : float)
  | JStr (s : string)
  | JArr (l : list json)
  | JObj (m : gmap string json).

Inductive exn_kind :=
  | KeyError | ValueError | TypeError | AttributeError | OverflowError
  | JSONDecodeError | ValidationError | Exception.

(** A raised exception: its class and the text [str(e)] gives. The texts of
    the exceptions raised by Python itself and by pydantic are not
    reproduced; a short description stands for them. *)
Record exn := Raise { exn_kind_of : exn_kind; exn_msg : string }.

Definition str_exn (e : exn) : string := exn_msg e.

(** ** The monad of the workflow: state and exceptions *)

Definition M (St A : Type) : Type := St -> (exn + A) * St.

Definition ret {St A} (a : A) : M St A := fun s => (inr a, s).

Definition bind {St A B} (m : M St A) (k : A -> M St B) : M St B :=
  fun s =>
    match m s with
    | (inl e, s') => (inl e, s')
    | (inr a, s') => k a s'
    end.

Definition raise {St A} (e : exn) : M St A := fun s => (inl e, s).

(** [try: m except Exception as e: h e]. What [m] did to the state before it
    raised stays done. *)
Definition try_except {St A} (m : M St A) (h : exn -> M St A) : M St A :=
  fun s =>
    match m s with
    | (inl e, s') => h e s'
    | (inr a, s') => (inr a, s')
    end.

(** A computation that may raise and does not touch the state. *)
Definition lift {St A} (r : exn + A) : M St A := fun s => (r, s).

Notation "'do' x <- m ; k" := (bind m (fun x => k))
  (at level 10, x name, m at level 100, k at level 200).
Notation "'run' m ; k" := (bind m (fun _ => k))
  (at level 10, m at level 100, k at level 200).

(** ** Python's numeric conversions *)

(** The integer part of a float, towards zero; none for nan and the
    infinities. *)
Definition float_trunc (f : float) : option Z :=
  match Prim2SF f with
  | S754_zero _ => Some 0
  | S754_finite s m e =>
      let a :=
        if 0 <=? e then Z.shiftl (Zpos m) e else Z.shiftr (Zpos m) (- e) in
      Some (if s then - a else a)
  | S754_infinity _ | S754_nan => None
  end.

(** [float(z)] for an [int]: the nearest float, [OverflowError] beyond the
    range. *)
Definition float_of_int (z : Z) : exn + float :=
  let f := SF2Prim (binary_normalize prec emax z 0 false) in
  if PrimFloat.eqb (PrimFloat.abs f) infinity
  then inl (Raise OverflowError "int too large to convert to float")
  else inr f.

(** Results of code that can raise and has no other effect. *)
Definition res_bind {A B} (r : exn + A) (k : A -> exn + B) : exn + B :=
  match r with
  | inl e => inl e
  | inr a => k a
  end.

Notation "'let?' x := r 'in' k" := (res_bind r (fun x => k))
  (at level 10, x name, r at level 100, k at level 200).

(** ** The models of [models.py] *)

Inductive IntentType :=
  | SEARCH_FLIGHT | SEARCH_HOTEL | BOOK_TRIP | GENERAL_INQUIRY | GREETING.

(** [intent.value] *)
Definition IntentType_value (i : IntentType) : string :=
  match i with
  | SEARCH_FLIGHT => "search_flight"
  | SEARCH_HOTEL => "search_hotel"
  | BOOK_TRIP => "book_trip"
  | GENERAL_INQUIRY => "general_inquiry"
  | GREETING => "greeting"
  end.

(** [IntentType(v)]: the member whose value is [v], [ValueError] when there
    is none. *)
Definition IntentType_call (v : json) : exn + IntentType :=
  match v with
  | JStr s =>
      if String.eqb s "search_flight" then inr SEARCH_FLIGHT
      else if String.eqb s "search_hotel" then inr SEARCH_HOTEL
      else if String.eqb s "book_trip" then inr BOOK_TRIP
      else if String.eqb s "general_inquiry" then inr GENERAL_INQUIRY
      else if String.eqb s "greeting" then inr GREETING
      else inl (Raise ValueError "not a valid IntentType")
  | _ => inl (Raise ValueError "not a valid IntentType")
  end.

Record FlightSearchRequest := {
  fs_origin : string;
  fs_destination : string;
  fs_departure_date : string;
  fs_return_date : option string;
  fs_passengers : Z;
  fs_class_type : string;
}.

Record HotelSearchRequest := {
  hs_location : string;
  hs_check_in : string;
  hs_check_out : string;
  hs_guests : Z;
  hs_rooms : Z;
}.

Record ExtractedEntities := {
  ee_intent : IntentType;
  ee_confidence : float;
  ee_entities : gmap string json;
}.

Record FlightResult := {
  flight_id : string;
  airline : string;
  flight_number : string;
  fr_origin : string;
  fr_destination : string;
  departure_time : string;
  arrival_time : string;
  duration : string;
  fr_price : float;
  fr_currency : string;
  available_seats : Z;
}.

Record HotelResult := {
  hotel_id : string;
  hr_name : string;
  hr_location : string;
  rating : float;
  price_per_night : float;
  hr_currency : string;
  amenities : list string;
  available_rooms : Z;
}.

Record BookingResult := {
  booking_id : string;
  booking_type : string;
  status : string;
  confirmation_number : string;
  total_price : float;
  br_currency : string;
  booking_details : gmap string json;
}.

Record UIElement := {
  ui_type : string;
  ui_text : string;
  ui_action : string;
  ui_data : option (gmap string json);
}.

(** One entry of [api_results]: the [dict()] of a result model. The entry
    keeps the model it was made from, which is the model that
    [AssistantResponse] validates it back into. *)
Inductive api_result :=
  | FlightDict (r : FlightResult)
  | HotelDict (r : HotelResult)
  | BookingDict (r : BookingResult).

Record AssistantResponse := {
  message : string;
  intent : option IntentType;
  entities : option (gmap string json);
  results : option (list api_result);
  ui_elements : option (list UIElement);
  session_id : string;
  timestamp : nat;
}.

(** [database.MessageCreate] *)
Record MessageCreate := {
  mc_session_id : string;
  mc_user_id : option string;
  mc_message_type : string;
  mc_content : string;
  mc_metadata : option (gmap string json);
}.

(** *** Field validation (pydantic 2, as [config.py] imports
    [pydantic_settings]) *)

Definition validation_error (field : string) : exn :=
  Raise ValidationError ("validation error for field " +:+ field).

(** A [str] field takes a string and nothing else. *)
Definition validate_str (field : string) (v : json) : exn + string :=
  match v with
  | JStr s => inr s
  | _ => inl (validation_error field)
  end.

(** An [Optional[str]] field. *)
Definition validate_opt_str (field : string) (v : json) : exn + option string :=
  match v with
  | JNull => inr None
  | JStr s => inr (Some s)
  | _ => inl (validation_error field)
  end.

(** A [Dict[str, Any]] field. *)
Definition validate_dict (field : string) (v : json) : exn + gmap string json :=
  match v with
  | JObj m => inr m
  | _ => inl (validation_error field)
  end.

(** An [Optional[Dict[str, Any]]] field. *)
Definition validate_opt_dict (field : string) (v : json)
  : exn + option (gmap string json) :=
  match v with
  | JNull => inr None
  | JObj m => inr (Some m)
  | _ => inl (validation_error field)
  end.

(** An [int] field with [ge] and [le] bounds, given a Python [int]. *)
Definition validate_int_range (field : string) (lo hi : Z) (n : Z) : exn + Z :=
  if (lo <=? n) && (n <=? hi) then inr n else inl (validation_error field).

(** [d.get(k, default)] and [d.get(k)] *)
Definition dict_get (d : gmap string json) (k : string) (dflt : json) : json :=
  default dflt (d !! k).

Definition dict_get_none (d : gmap string json) (k : string) : json :=
  dict_get d k JNull.

(** [FlightSearchRequest(origin=.., destination=.., departure_date=..,
    return_date=.., passengers=.., class_type=..)] *)
Definition FlightSearchRequest_new
    (origin destination departure_date return_date : json)
    (passengers : Z) (class_type : json) : exn + FlightSearchRequest :=
  let? o := validate_str "origin" origin in
  let? d := validate_str "destination" destination in
  let? dd := validate_str "departure_date" departure_date in
  let? rd := validate_opt_str "return_date" return_date in
  let? p := validate_int_range "passengers" 1 9 passengers in
  let? c := validate_str "class_type" class_type in
  inr {| fs_origin := o; fs_destination := d; fs_departure_date := dd;
         fs_return_date := rd; fs_passengers := p; fs_class_type := c |}.

(** [HotelSearchRequest(location=.., check_in=.., check_out=.., guests=..,
    rooms=..)] *)
Definition HotelSearchRequest_new
    (location check_in check_out : json) (guests rooms : Z)
  : exn + HotelSearchRequest :=
  let? l := validate_str "location" location in
  let? ci := validate_str "check_in" check_in in
  let? co := validate_str "check_out" check_out in
  let? g := validate_int_range "guests" 1 10 guests in
  let? r := validate_int_range "rooms" 1 5 rooms in
  inr {| hs_location := l; hs_check_in := ci; hs_check_out := co;
         hs_guests := g; hs_rooms := r |}.

(** [MessageCreate(session_id=.., user_id=.., message_type=.., content=..,
    metadata=..)]; only [content] is given a loosely typed value. *)
Definition MessageCreate_new (sid : string) (uid : option string)
    (mtype : string) (content : json) (metadata : gmap string json)
  : exn + MessageCreate :=
  let? c := validate_str "content" content in
  inr {| mc_session_id := sid; mc_user_id := uid; mc_message_type := mtype;
         mc_content := c; mc_metadata := Some metadata |}.

(** [UIElement] called on the unpacked [element], which has to be a mapping;
    [type], [text] and [action] are required strings, [data] an optional
    dict; other keys are ignored. *)
Definition UIElement_new (element : json) : exn + UIElement :=
  match element with
  | JObj m =>
      let required (k : string) : exn + string :=
        match m !! k with
        | Some v => validate_str k v
        | None => inl (validation_error k)
        end in
      let? ty := required "type" in
      let? tx := required "text" in
      let? ac := required "action" in
      let? da := validate_opt_dict "data" (dict_get_none m "data") in
      inr {| ui_type := ty; ui_text := tx; ui_action := ac; ui_data := da |}
  | _ => inl (Raise TypeError "argument must be a mapping")
  end.

(** [elem.dict()] *)
Definition UIElement_dict (u : UIElement) : json :=
  JObj (<["type" := JStr (ui_type u)]>
        (<["text" := JStr (ui_text u)]>
         (<["action" := JStr (ui_action u)]>
          {["data" := match ui_data u with
                      | Some d => JObj d
                      | None => JNull
                      end]}))).

Definition FlightResult_dict (r : FlightResult) : json :=
  JObj (list_to_map
    [("flight_id", JStr (flight_id r)); ("airline", JStr (airline r));
     ("flight_number", JStr (flight_number r)); ("origin", JStr (fr_origin r));
     ("destination", JStr (fr_destination r));
     ("departure_time", JStr (departure_time r));
     ("arrival_time", JStr (arrival_time r)); ("duration", JStr (duration r));
     ("price", JFloat (fr_price r)); ("currency", JStr (fr_currency r));
     ("available_seats", JInt (available_seats r))]).

Definition HotelResult_dict (r : HotelResult) : json :=
  JObj (list_to_map
    [("hotel_id", JStr (hotel_id r)); ("name", JStr (hr_name r));
     ("location", JStr (hr_location r)); ("rating", JFloat (rating r));
     ("price_per_night", JFloat (price_per_night r));
     ("currency", JStr (hr_currency r));
     ("amenities", JArr (map JStr (amenities r)));
     ("available_rooms", JInt (available_rooms r))]).

Definition BookingResult_dict (r : BookingResult) : json :=
  JObj (list_to_map
    [("booking_id", JStr (booking_id r));
     ("booking_type", JStr (booking_type r)); ("status", JStr (status r));
     ("confirmation_number", JStr (confirmation_number r));
     ("total_price", JFloat (total_price r));
     ("currency", JStr (br_currency r));
     ("booking_details", JObj (booking_details r))]).

Definition api_result_dict (r : api_result) : json :=
  match r with
  | FlightDict f => FlightResult_dict f
  | HotelDict h => HotelResult_dict h
  | BookingDict b => BookingResult_dict b
  end.

(** ** The conversation store of [database.py] *)

Record ConversationMessage := {
  cm_id : nat;
  cm_session_id : string;
  cm_user_id : option string;
  cm_message_type : string;
  cm_content : string;
  cm_extra_metadata : option (gmap string json);
  cm_timestamp : nat;
}.

Record ConversationSession := {
  cs_id : nat;
  cs_session_id : string;
  cs_user_id : option string;
  cs_created_at : nat;
  cs_last_activity : nat;
  cs_context : option (gmap string json);
}.

(** A call to one of the search and booking services of
    [external_apis.py], with the arguments it was given. *)
Inductive api_call :=
  | CallSearchFlights (request : FlightSearchRequest)
  | CallSearchHotels (request : HotelSearchRequest)
  | CallCreateBooking (booking_type item_id : json)
      (details : gmap string json).

(** A chat message sent to the completion service: role and content. *)
Definition chat_message : Type := string * string.

(** Everything outside one run of the workflow: the two tables of the
    store (rows in insertion order), the number of times [datetime.utcnow]
    has been read, and what has been asked of the collaborators so far. *)
Record World := {
  messages : list ConversationMessage;
  sessions : list ConversationSession;
  clock : nat;
  llm_log : list (list chat_message * float);
  api_log : list api_call;
  db_ops : nat;
}.

Definition set_messages (l : list ConversationMessage) (w : World) : World :=
  {| messages := l; sessions := sessions w; clock := clock w;
     llm_log := llm_log w; api_log := api_log w; db_ops := db_ops w |}.

Definition set_sessions (l : list ConversationSession) (w : World) : World :=
  {| messages := messages w; sessions := l; clock := clock w;
     llm_log := llm_log w; api_log := api_log w; db_ops := db_ops w |}.

Definition set_clock (n : nat) (w : World) : World :=
  {| messages := messages w; sessions := sessions w; clock := n;
     llm_log := llm_log w; api_log := api_log w; db_ops := db_ops w |}.

Definition set_llm_log (l : list (list chat_message * float)) (w : World)
  : World :=
  {| messages := messages w; sessions := sessions w; clock := clock w;
     llm_log := l; api_log := api_log w; db_ops := db_ops w |}.

Definition set_api_log (l : list api_call) (w : World) : World :=
  {| messages := messages w; sessions := sessions w; clock := clock w;
     llm_log := llm_log w; api_log := l; db_ops := db_ops w |}.

Definition set_db_ops (n : nat) (w : World) : World :=
  {| messages := messages w; sessions := sessions w; clock := clock w;
     llm_log := llm_log w; api_log := api_log w; db_ops := n |}.

(** What the workflow does not decide: the library routines whose code is
    not reproduced here, the two fixed system prompts of the client, and the
    outcome of every call to a collaborator. The n-th completion request
    (counted from 0 over the life of the process) is answered by
    [llm_content n]: the content of the first choice, or the exception that
    the transport, the status check or the envelope raised. The n-th call
    to a search or booking service is answered likewise, and the n-th
    operation on the store raises [e] when [db_fault n = Some e]. The n-th
    reading of the clock gives the time [utcnow_at n], in the unit of the
    clock from [datetime.min] on; nothing is assumed of two readings, the
    later one can give the same time, or an earlier one. *)
Record Env := {
  json_loads : string -> exn + json;
  json_dumps : json -> string;
  int_of_str : string -> option Z;
  float_of_str : string -> option float;
  (** whether a float field takes a Python [bool], as 0.0 or 1.0; releases
      of pydantic 2 differ on it *)
  bool_as_float : bool;
  extract_system_prompt : string;
  generate_system_prompt : string;
  llm_content : nat -> exn + string;
  flights_found : nat -> exn + list FlightResult;
  hotels_found : nat -> exn + list HotelResult;
  booking_made : nat -> exn + BookingResult;
  db_fault : nat -> option exn;
  utcnow_at : nat -> nat;
}.

(** The state of one run, [WorkflowState]. [response_message] holds what the
    completion payload had under its message key, of whatever type. *)
Record WorkflowState := {
  ws_session_id : string;
  ws_user_id : option string;
  ws_user_input : string;
  ws_conversation_history : list string;
  ws_intent : option IntentType;
  ws_entities : gmap string json;
  ws_confidence : float;
  ws_api_results : option (list api_result);
  ws_response_message : json;
  ws_ui_elements : list UIElement;
  ws_error : option string;
}.

Definition set_user_input (x : string) (s : WorkflowState) : WorkflowState :=
  {| ws_session_id := ws_session_id s; ws_user_id := ws_user_id s;
     ws_user_input := x;
     ws_conversation_history := ws_conversation_history s;
     ws_intent := ws_intent s; ws_entities := ws_entities s;
     ws_confidence := ws_confidence s; ws_api_results := ws_api_results s;
     ws_response_message := ws_response_message s;
     ws_ui_elements := ws_ui_elements s; ws_error := ws_error s |}.

Definition set_conversation_history (x : list string) (s : WorkflowState)
  : WorkflowState :=
  {| ws_session_id := ws_session_id s; ws_user_id := ws_user_id s;
     ws_user_input := ws_user_input s;
     ws_conversation_history := x;
     ws_intent := ws_intent s; ws_entities := ws_entities s;
     ws_confidence := ws_confidence s; ws_api_results := ws_api_results s;
     ws_response_message := ws_response_message s;
     ws_ui_elements := ws_ui_elements s; ws_error := ws_error s |}.

Definition set_intent (x : option IntentType) (s : WorkflowState)
  : WorkflowState :=
  {| ws_session_id := ws_session_id s; ws_user_id := ws_user_id s;
     ws_user_input := ws_user_input s;
     ws_conversation_history := ws_conversation_history s;
     ws_intent := x; ws_entities := ws_entities s;
     ws_confidence := ws_confidence s; ws_api_results := ws_api_results s;
     ws_response_message := ws_response_message s;
     ws_ui_elements := ws_ui_elements s; ws_error := ws_error s |}.

Definition set_entities (x : gmap string json) (s : WorkflowState)
  : WorkflowState :=
  {| ws_session_id := ws_session_id s; ws_user_id := ws_user_id s;
     ws_user_input := ws_user_input s;
     ws_conversation_history := ws_conversation_history s;
     ws_intent := ws_intent s; ws_entities := x;
     ws_confidence := ws_confidence s; ws_api_results := ws_api_results s;
     ws_response_message := ws_response_message s;
     ws_ui_elements := ws_ui_elements s; ws_error := ws_error s |}.

Definition set_confidence (x : float) (s : WorkflowState) : WorkflowState :=
  {| ws_session_id := ws_session_id s; ws_user_id := ws_user_id s;
     ws_user_input := ws_user_input s;
     ws_conversation_history := ws_conversation_history s;
     ws_intent := ws_intent s; ws_entities := ws_entities s;
     ws_confidence := x; ws_api_results := ws_api_results s;
     ws_response_message := ws_response_message s;
     ws_ui_elements := ws_ui_elements s; ws_error := ws_error s |}.

Definition set_api_results (x : option (list api_result)) (s : WorkflowState)
  : WorkflowState :=
  {| ws_session_id := ws_session_id s; ws_user_id := ws_user_id s;
     ws_user_input := ws_user_input s;
     ws_conversation_history := ws_conversation_history s;
     ws_intent := ws_intent s; ws_entities := ws_entities s;
     ws_confidence := ws_confidence s; ws_api_results := x;
     ws_response_message := ws_response_message s;
     ws_ui_elements := ws_ui_elements s; ws_error := ws_error s |}.

Definition set_response_message (x : json) (s : WorkflowState)
  : WorkflowState :=
  {| ws_session_id := ws_session_id s; ws_user_id := ws_user_id s;
     ws_user_input := ws_user_input s;
     ws_conversation_history := ws_conversation_history s;
     ws_intent := ws_intent s; ws_entities := ws_entities s;
     ws_confidence := ws_confidence s; ws_api_results := ws_api_results s;
     ws_response_message := x;
     ws_ui_elements := ws_ui_elements s; ws_error := ws_error s |}.

Definition set_ui_elements (x : list UIElement) (s : WorkflowState)
  : WorkflowState :=
  {| ws_session_id := ws_session_id s; ws_user_id := ws_user_id s;
     ws_user_input := ws_user_input s;
     ws_conversation_history := ws_conversation_history s;
     ws_intent := ws_intent s; ws_entities := ws_entities s;
     ws_confidence := ws_confidence s; ws_api_results := ws_api_results s;
     ws_response_message := ws_response_message s;
     ws_ui_elements := x; ws_error := ws_error s |}.

Definition set_error (x : option string) (s : WorkflowState) : WorkflowState :=
  {| ws_session_id := ws_session_id s; ws_user_id := ws_user_id s;
     ws_user_input := ws_user_input s;
     ws_conversation_history := ws_conversation_history s;
     ws_intent := ws_intent s; ws_entities := ws_entities s;
     ws_confidence := ws_confidence s; ws_api_results := ws_api_results s;
     ws_response_message := ws_response_message s;
     ws_ui_elements := ws_ui_elements s; ws_error := x |}.

(** The two fixed replies of the workflow and the one of the client. *)
Definition workflow_apology : string :=
  "I apologize, but I'm having trouble processing your request right now.".

Definition client_apology : string :=
  "I apologize, but I'm having trouble processing your request right now. Please try again.".

Definition run_apology : string :=
  "I apologize, but I encountered an error processing your request. Please try again.".

(** The nodes of the graph and the labels of its conditional edge. *)
Inductive node :=
  | search_flights_node | search_hotels_node | create_booking_node
  | handle_general_node.

(** The mapping given to [add_conditional_edges]. *)
Definition conditional_edges (label : string) : option node :=
  if String.eqb label "search_flight" then Some search_flights_node
  else if String.eqb label "search_hotel" then Some search_hotels_node
  else if String.eqb label "book_trip" then Some create_booking_node
  else if String.eqb label "general" then Some handle_general_node
  else None.

(** ** [DatabaseManager] *)

Module DatabaseManager.
Section Store.
Context (env : Env).

(** [datetime.utcnow()] *)
Definition utcnow : M World nat :=
  fun w => (inr (utcnow_at env (clock w)), set_clock (S (clock w)) w).

(** One operation on the store: it is counted, and it either raises what
    the environment says, leaving the tables as they were, or runs. *)
Definition db_op {A} (body : M World A) : M World A :=
  fun w =>
    let n := db_ops w in
    let w1 := set_db_ops (S n) w in
    match db_fault env n with
    | Some e => (inl e, w1)
    | None => body w1
    end.

Inductive Session := SessionLocal.

Definition get_db : M World Session := db_op (ret SessionLocal).

Definition close (db : Session) : M World unit := db_op (ret tt).

(** The primary key given to a new row. *)
Definition next_id {A} (id : A -> nat) (rows : list A) : nat :=
  S (foldr (fun r m => Nat.max (id r) m) 0%nat rows).

(** [create_message]: add, commit, refresh. *)
Definition create_message (db : Session) (message : MessageCreate)
  : M World ConversationMessage :=
  db_op
    (do now <- utcnow;
     fun w =>
       let db_message :=
         {| cm_id := next_id cm_id (messages w);
            cm_session_id := mc_session_id message;
            cm_user_id := mc_user_id message;
            cm_message_type := mc_message_type message;
            cm_content := mc_content message;
            cm_extra_metadata := mc_metadata message;
            cm_timestamp := now |} in
       (inr db_message, set_messages (messages w ++ [db_message]) w)).

(** [ORDER BY timestamp DESC]. SQL leaves open the order of rows of equal
    timestamp; here they come in the order of insertion, and no property
    below depends on it. *)
Fixpoint insert_desc (r : ConversationMessage) (l : list ConversationMessage)
  : list ConversationMessage :=
  match l with
  | [] => [r]
  | x :: l' =>
      if (cm_timestamp x <=? cm_timestamp r)%nat then r :: l
      else x :: insert_desc r l'
  end.

Definition order_by_timestamp_desc (l : list ConversationMessage)
  : list ConversationMessage :=
  foldr insert_desc [] l.

(** [get_conversation_history]; a limit of [None] or 0 does not limit. *)
Definition get_conversation_history (db : Session) (sid : string)
    (limit : option nat) : M World (list ConversationMessage) :=
  db_op
    (fun w =>
       let query :=
         order_by_timestamp_desc
           (filter (fun r => cm_session_id r = sid) (messages w)) in
       let rows :=
         match limit with
         | Some (S n) => take (S n) query
         | Some O | None => query
         end in
       (inr rows, w)).

(** The session rows with the first one of key [sid] replaced by [s']. *)
Fixpoint replace_session (sid : string) (s' : ConversationSession)
    (l : list ConversationSession) : list ConversationSession :=
  match l with
  | [] => []
  | x :: l' =>
      if String.eqb (cs_session_id x) sid then s' :: l'
      else x :: replace_session sid s' l'
  end.

(** A dict that is not [None] and not empty. *)
Definition truthy_dict (d : option (gmap string json)) : bool :=
  match d with
  | Some m => negb (bool_decide (m = ∅))
  | None => false
  end.

(** [create_or_update_session] *)
Definition create_or_update_session (db : Session) (sid : string)
    (uid : option string) (context : option (gmap string json))
  : M World ConversationSession :=
  db_op
    (fun w =>
       match List.find (fun s => String.eqb (cs_session_id s) sid)
               (sessions w) with
       | Some session =>
           (do now <- utcnow;
            fun w' =>
              let session' :=
                {| cs_id := cs_id session;
                   cs_session_id := cs_session_id session;
                   cs_user_id := cs_user_id session;
                   cs_created_at := cs_created_at session;
                   cs_last_activity := now;
                   cs_context :=
                     if truthy_dict context then context
                     else cs_context session |} in
              (inr session',
               set_sessions (replace_session sid session' (sessions w')) w')) w
       | None =>
           (do created <- utcnow;
            do active <- utcnow;
            fun w' =>
              let session :=
                {| cs_id := next_id cs_id (sessions w');
                   cs_session_id := sid;
                   cs_user_id := uid;
                   cs_created_at := created;
                   cs_last_activity := active;
                   cs_context := context |} in
              (inr session, set_sessions (sessions w' ++ [session]) w')) w
       end).

End Store.
End DatabaseManager.

(** ** The search and booking services of [external_apis.py]

    Each call is recorded with its arguments; what it returns, or the
    exception it raises, comes from the environment. *)

Module MockExternalAPIs.
Section Services.
Context (env : Env).

Definition api_call_with {A} (c : api_call) (answer : nat -> exn + A)
  : M World A :=
  fun w =>
    (answer (length (api_log w)), set_api_log (api_log w ++ [c]) w).

Definition search_flights (request : FlightSearchRequest)
  : M World (list FlightResult) :=
  api_call_with (CallSearchFlights request) (flights_found env).

Definition search_hotels (request : HotelSearchRequest)
  : M World (list HotelResult) :=
  api_call_with (CallSearchHotels request) (hotels_found env).

Definition create_booking (booking_type item_id : json)
    (booking_details : gmap string json) : M World BookingResult :=
  api_call_with (CallCreateBooking booking_type item_id booking_details)
    (booking_made env).

End Services.
End MockExternalAPIs.

(** ** [DeepSeekClient] *)

Module DeepSeekClient.

(** The lazy group of the pattern, up to optional white space and the
    closing fence: the shortest prefix after which the rest is white space
    followed by three backquotes. *)
Fixpoint lazy_until_fence (s : string) : option string :=
  match Py.strip_prefix "```" (Py.lstrip s) with
  | Some _ => Some ""
  | None =>
      match s with
      | EmptyString => None
      | String c s' => option_map (String c) (lazy_until_fence s')
      end
  end.

(** [_extract_json_from_markdown]: the content of the first block fenced
    with three backquotes and the word json, stripped, or the whole text
    when there is no such block. The search is the regular expression's:
    the opening fence, white space, the lazy group, white space, the closing
    fence, the dot matching line ends too. *)
Definition _extract_json_from_markdown (text : string) : string :=
  match Py.find_after "```json" text with
  | Some rest =>
      match lazy_until_fence (Py.lstrip rest) with
      | Some group => Py.strip group
      | None => text
      end
  | None => text
  end.

Section Client.
Context (env : Env).

(** [_make_request]: the request is recorded; the content that comes back
    is refused when it is empty or blank. *)
Definition _make_request (messages : list chat_message) (temperature : float)
  : M World string :=
  fun w =>
    let n := length (llm_log w) in
    let w' := set_llm_log (llm_log w ++ [(messages, temperature)]) w in
    match llm_content env n with
    | inl e => (inl e, w')
    | inr message_content =>
        if Py.blank message_content
        then (inl (Raise Exception
                     "Empty or missing message content from DeepSeek API"), w')
        else (inr message_content, w')
    end.

(** A float field (not strict): a float, an int, a numeric string and,
    depending on the release, a bool. *)
Definition validate_float (field : string) (v : json) : exn + float :=
  match v with
  | JFloat f => inr f
  | JInt z => float_of_int z
  | JStr s =>
      match float_of_str env s with
      | Some f => inr f
      | None => inl (validation_error field)
      end
  | JBool b =>
      if bool_as_float env then inr (if b then 1%float else 0%float)
      else inl (validation_error field)
  | JNull | JArr _ | JObj _ => inl (validation_error field)
  end.

(** The bounds [ge] and [le] of a float field: a value that is not at most
    [le], or not at least [ge], is refused; nan, which compares with
    nothing, is refused. *)
Definition validate_float_range (field : string) (ge le : float) (f : float)
  : exn + float :=
  if negb (PrimFloat.leb f le) then inl (validation_error field)
  else if negb (PrimFloat.leb ge f) then inl (validation_error field)
  else inr f.

(** [ExtractedEntities(intent=.., confidence=.., entities=..)] *)
Definition ExtractedEntities_new (intent : IntentType) (confidence : json)
    (entities : json) : exn + ExtractedEntities :=
  let? f := validate_float "confidence" confidence in
  let? c := validate_float_range "confidence" 0%float 1%float f in
  let? e := validate_dict "entities" entities in
  inr {| ee_intent := intent; ee_confidence := c; ee_entities := e |}.

(** [parsed[key]] *)
Definition getitem (parsed : json) (key : string) : exn + json :=
  match parsed with
  | JObj m =>
      match m !! key with
      | Some v => inr v
      | None => inl (Raise KeyError key)
      end
  | _ => inl (Raise TypeError "value is not subscriptable by a string")
  end.

Definition extract_messages (user_input : string)
    (conversation_history : list string) : list chat_message :=
  ([("system", extract_system_prompt env)]
   ++ match conversation_history with
      | [] => []
      | _ :: _ =>
          [("user",
            "Previous context: "
            +:+ Py.join Py.newline (Py.last3 conversation_history))]
      end
   ++ [("user",
        "Extract intent and entities from: '" +:+ user_input +:+ "'")])%list.

(** The fallback of the extraction: general inquiry, 0.5, no entities. *)
Definition extraction_fallback : exn + ExtractedEntities :=
  ExtractedEntities_new GENERAL_INQUIRY (JFloat 0.5%float) (JObj ∅).

(** [extract_intent_and_entities] *)
Definition extract_intent_and_entities (user_input : string)
    (conversation_history : list string) : M World ExtractedEntities :=
  let messages := extract_messages user_input conversation_history in
  try_except
    (do response <- _make_request messages 0.3%float;
     if Py.blank response
     then raise (Raise Exception "Empty response content from DeepSeek")
     else
       let json_string := _extract_json_from_markdown response in
       do parsed <- lift (json_loads env json_string);
       do intent_value <- lift (getitem parsed "intent");
       do intent <- lift (IntentType_call intent_value);
       match parsed with
       | JObj m =>
           lift (ExtractedEntities_new intent
                   (dict_get m "confidence" (JFloat 0%float))
                   (dict_get m "entities" (JObj ∅)))
       | _ => raise (Raise AttributeError "value has no attribute get")
       end)
    (fun _ => lift extraction_fallback).

(** What [generate_response] returns: the dict with the keys message and
    ui_elements. *)
Record response_data := {
  rd_message : json;
  rd_ui_elements : list UIElement;
}.

(** [UIElement] built from every element of the list, in order; the first
    failure ends the loop. *)
Fixpoint build_ui_elements (l : list json) : exn + list UIElement :=
  match l with
  | [] => inr []
  | element :: l' =>
      let? u := UIElement_new element in
      let? us := build_ui_elements l' in
      inr (u :: us)
  end.

Definition generate_messages (user_input : string) (intent_value : string)
    (entities : gmap string json) (api_results : option (list api_result))
    (conversation_history : list string) : list chat_message :=
  let context_parts : list string :=
    (["User input: " +:+ user_input;
      "Detected intent: " +:+ intent_value;
      "Extracted entities: " +:+ json_dumps env (JObj entities)]
     ++ match api_results with
        | Some (r :: rs) =>
            ["API results: "
             +:+ json_dumps env (JArr (map api_result_dict (r :: rs)))]
        | Some [] | None => []
        end
     ++ match conversation_history with
        | [] => []
        | _ :: _ =>
            ["Recent conversation: "
             +:+ Py.join " | " (Py.last3 conversation_history)]
        end)%list in
  [("system", generate_system_prompt env);
   ("user", Py.join Py.newline context_parts)].

(** [generate_response]. The prompt is built before the [try]: an [intent]
    of [None] has no [value] and raises there. A payload that is not a dict
    raises at the membership test, at the subscript or at [get], whichever
    comes first for its type. *)
Definition generate_response (user_input : string) (intent : option IntentType)
    (entities : gmap string json) (api_results : option (list api_result))
    (conversation_history : list string) : M World response_data :=
  match intent with
  | None => raise (Raise AttributeError "NoneType has no attribute value")
  | Some i =>
      let messages :=
        generate_messages user_input (IntentType_value i) entities api_results
          conversation_history in
      try_except
        (do response <- _make_request messages 0.8%float;
         if Py.blank response
         then raise (Raise Exception "Empty response content from DeepSeek")
         else
           let json_string := _extract_json_from_markdown response in
           do parsed <- lift (json_loads env json_string);
           match parsed with
           | JObj m =>
               do ui_elements <-
                 lift (match m !! "ui_elements" with
                       | Some (JArr l) => build_ui_elements l
                       | _ => inr []
                       end);
               ret {| rd_message := dict_get m "message" (JStr "");
                      rd_ui_elements := ui_elements |}
           | _ => raise (Raise TypeError "the payload is not a dict")
           end)
        (fun _ =>
           ret {| rd_message := JStr client_apology; rd_ui_elements := [] |})
  end.

End Client.
End DeepSeekClient.

(** ** [TravelAssistantWorkflow] *)

(** [int(v)] *)
Definition py_int (env : Env) (v : json) : exn + Z :=
  match v with
  | JInt z => inr z
  | JBool b => inr (if b then 1 else 0)
  | JFloat f =>
      match float_trunc f with
      | Some z => inr z
      | None => inl (Raise ValueError "cannot convert float to integer")
      end
  | JStr s =>
      match int_of_str env s with
      | Some z => inr z
      | None => inl (Raise ValueError "invalid literal for int()")
      end
  | JNull | JArr _ | JObj _ =>
      inl (Raise TypeError "int() argument must be a string or a number")
  end.

Module TravelAssistantWorkflow.
Section Workflow.
Context (env : Env).

(** [preprocess_input] *)
Definition preprocess_input (state : WorkflowState) : M World WorkflowState :=
  let cleaned_input := Py.strip (ws_user_input state) in
  do state' <-
    try_except
      (do db <- DatabaseManager.get_db env;
       do history <-
         DatabaseManager.get_conversation_history env db (ws_session_id state)
           (Some 10%nat);
       let conversation_history :=
         map (fun msg => cm_message_type msg +:+ ": " +:+ cm_content msg)
           (rev history) in
       let state1 := set_conversation_history conversation_history state in
       run DatabaseManager.close env db;
       ret state1)
      (fun _ => ret (set_conversation_history [] state));
  ret (set_user_input cleaned_input state').

(** [extract_intent_and_entities] *)
Definition extract_intent_and_entities (state : WorkflowState)
  : M World WorkflowState :=
  try_except
    (do extracted <-
       DeepSeekClient.extract_intent_and_entities env (ws_user_input state)
         (ws_conversation_history state);
     ret (set_confidence (ee_confidence extracted)
            (set_entities (ee_entities extracted)
               (set_intent (Some (ee_intent extracted)) state))))
    (fun e =>
       ret (set_error (Some (str_exn e))
              (set_confidence 0.5%float
                 (set_entities ∅
                    (set_intent (Some GENERAL_INQUIRY) state))))).

(** [route_condition] *)
Definition route_condition (state : WorkflowState) : string :=
  match ws_intent state with
  | Some SEARCH_FLIGHT => "search_flight"
  | Some SEARCH_HOTEL => "search_hotel"
  | Some BOOK_TRIP => "book_trip"
  | Some GENERAL_INQUIRY | Some GREETING | None => "general"
  end.

(** [route_request] *)
Definition route_request (state : WorkflowState) : M World WorkflowState :=
  ret state.

(** The [except] branch shared by the three dispatch nodes. *)
Definition dispatch_failed (state : WorkflowState) (e : exn)
  : M World WorkflowState :=
  ret (set_api_results (Some []) (set_error (Some (str_exn e)) state)).

(** The request [search_flights] builds from the entity map. *)
Definition flight_request_of (entities : gmap string json)
  : exn + FlightSearchRequest :=
  let? passengers := py_int env (dict_get entities "passengers" (JInt 1)) in
  FlightSearchRequest_new
    (dict_get entities "origin" (JStr ""))
    (dict_get entities "destination" (JStr ""))
    (dict_get entities "departure_date" (JStr ""))
    (dict_get_none entities "return_date")
    passengers
    (dict_get entities "class_type" (JStr "economy")).

(** [search_flights] *)
Definition search_flights (state : WorkflowState) : M World WorkflowState :=
  try_except
    (let entities := ws_entities state in
     do flight_request <- lift (flight_request_of entities);
     do flights <- MockExternalAPIs.search_flights env flight_request;
     ret (set_api_results (Some (map FlightDict flights)) state))
    (dispatch_failed state).

(** The request [search_hotels] builds from the entity map. *)
Definition hotel_request_of (entities : gmap string json)
  : exn + HotelSearchRequest :=
  let? guests := py_int env (dict_get entities "guests" (JInt 1)) in
  let? rooms := py_int env (dict_get entities "rooms" (JInt 1)) in
  HotelSearchRequest_new
    (dict_get entities "location" (JStr ""))
    (dict_get entities "check_in" (JStr ""))
    (dict_get entities "check_out" (JStr ""))
    guests rooms.

(** [search_hotels] *)
Definition search_hotels (state : WorkflowState) : M World WorkflowState :=
  try_except
    (let entities := ws_entities state in
     do hotel_request <- lift (hotel_request_of entities);
     do hotels <- MockExternalAPIs.search_hotels env hotel_request;
     ret (set_api_results (Some (map HotelDict hotels)) state))
    (dispatch_failed state).

(** [create_booking] *)
Definition create_booking (state : WorkflowState) : M World WorkflowState :=
  try_except
    (let entities := ws_entities state in
     let booking_type := dict_get entities "booking_type" (JStr "flight") in
     let item_id := dict_get entities "booking_id" (JStr "") in
     do booking <-
       MockExternalAPIs.create_booking env booking_type item_id entities;
     ret (set_api_results (Some [BookingDict booking]) state))
    (dispatch_failed state).

(** [handle_general_inquiry] *)
Definition handle_general_inquiry (state : WorkflowState)
  : M World WorkflowState :=
  ret (set_api_results (Some []) state).

(** [generate_response] *)
Definition generate_response (state : WorkflowState) : M World WorkflowState :=
  try_except
    (do response_data <-
       DeepSeekClient.generate_response env (ws_user_input state)
         (ws_intent state) (ws_entities state) (ws_api_results state)
         (ws_conversation_history state);
     ret (set_ui_elements (DeepSeekClient.rd_ui_elements response_data)
            (set_response_message (DeepSeekClient.rd_message response_data)
               state)))
    (fun e =>
       ret (set_error (Some (str_exn e))
              (set_ui_elements []
                 (set_response_message (JStr workflow_apology) state)))).

(** The metadata stored with the user entry and with the assistant entry. *)
Definition user_metadata (state : WorkflowState) : gmap string json :=
  <["intent" := match ws_intent state with
                | Some i => JStr (IntentType_value i)
                | None => JNull
                end]>
  (<["entities" := JObj (ws_entities state)]>
   {["confidence" := JFloat (ws_confidence state)]}).

Definition assistant_metadata (state : WorkflowState) : gmap string json :=
  <["ui_elements" := JArr (map UIElement_dict (ws_ui_elements state))]>
  {["api_results_count" :=
      JInt (match ws_api_results state with
            | Some l => Z.of_nat (length l)
            | None => 0
            end)]}.

(** The body of the [try] of [store_conversation]. *)
Definition store_body (state : WorkflowState) : M World unit :=
  do db <- DatabaseManager.get_db env;
  do user_message <-
    lift (MessageCreate_new (ws_session_id state) (ws_user_id state) "user"
            (JStr (ws_user_input state)) (user_metadata state));
  run DatabaseManager.create_message env db user_message;
  do assistant_message <-
    lift (MessageCreate_new (ws_session_id state) (ws_user_id state) "assistant"
            (ws_response_message state) (assistant_metadata state));
  run DatabaseManager.create_message env db assistant_message;
  run DatabaseManager.create_or_update_session env db (ws_session_id state)
        (ws_user_id state) None;
  DatabaseManager.close env db.

(** [store_conversation] *)
Definition store_conversation (state : WorkflowState) : M World WorkflowState :=
  try_except
    (run store_body state; ret state)
    (fun e => ret (set_error (Some (str_exn e)) state)).

Definition run_node (n : node) : WorkflowState -> M World WorkflowState :=
  match n with
  | search_flights_node => search_flights
  | search_hotels_node => search_hotels
  | create_booking_node => create_booking
  | handle_general_node => handle_general_inquiry
  end.

(** The node the conditional edge leads to; a label outside the mapping is
    an error of the graph. *)
Definition dispatch (state : WorkflowState) : M World WorkflowState :=
  match conditional_edges (route_condition state) with
  | Some n => run_node n state
  | None => raise (Raise KeyError (route_condition state))
  end.

(** [self.graph.ainvoke]: the nodes in the order of the edges of
    [_build_graph], cut where the conditional edge leaves [route_request]
    and where [store_conversation] starts. *)
Definition graph_until_route (initial_state : WorkflowState)
  : M World WorkflowState :=
  do s1 <- preprocess_input initial_state;
  do s2 <- extract_intent_and_entities s1;
  route_request s2.

Definition graph_until_store (initial_state : WorkflowState)
  : M World WorkflowState :=
  do s3 <- graph_until_route initial_state;
  do s4 <- dispatch s3;
  generate_response s4.

Definition graph_ainvoke (initial_state : WorkflowState)
  : M World WorkflowState :=
  do s5 <- graph_until_store initial_state;
  store_conversation s5.

(** [AssistantResponse(message=.., intent=.., entities=.., results=..,
    ui_elements=.., session_id=..)]; the timestamp is the field's default. *)
Definition AssistantResponse_new (msg : json) (i : option IntentType)
    (e : option (gmap string json)) (r : option (list api_result))
    (u : option (list UIElement)) (sid : string) : M World AssistantResponse :=
  do now <- DatabaseManager.utcnow env;
  do m <- lift (validate_str "message" msg);
  ret {| message := m; intent := i; entities := e; results := r;
         ui_elements := u; session_id := sid; timestamp := now |}.

Definition initial_state (user_input session_id : string)
    (user_id : option string) : WorkflowState :=
  {| ws_session_id := session_id; ws_user_id := user_id;
     ws_user_input := user_input; ws_conversation_history := [];
     ws_intent := None; ws_entities := ∅; ws_confidence := 0%float;
     ws_api_results := None; ws_response_message := JStr "";
     ws_ui_elements := []; ws_error := None |}.

(** [run_workflow] *)
Definition run_workflow (user_input session_id : string)
    (user_id : option string) : M World AssistantResponse :=
  try_except
    (do final_state <-
       graph_ainvoke (initial_state user_input session_id user_id);
     AssistantResponse_new (ws_response_message final_state)
       (ws_intent final_state) (Some (ws_entities final_state))
       (ws_api_results final_state) (Some (ws_ui_elements final_state))
       session_id)
    (fun _ =>
       AssistantResponse_new (JStr run_apology) None None None None session_id).

End Workflow.
End TravelAssistantWorkflow.

(** ** Concrete environments

    Environments in which the workflow can be run: [json.loads] is given by
    the finite table of the payloads that occur, and the collaborators by
    the list of their answers. *)

Module Scenario.

Definition dq : string := String (ascii_of_nat 34) "".

(** [s] between double quotes. *)
Definition quoted (s : string) : string := dq +:+ s +:+ dq.

Definition loads_table (table : list (string * json)) (s : string)
  : exn + json :=
  match List.find (fun p => String.eqb (fst p) s) table with
  | Some p => inr (snd p)
  | None => inl (Raise JSONDecodeError "Expecting value")
  end.

Definition service_down : exn := Raise Exception "service unavailable".

(** The n-th answer of a list, the service being down beyond its end. *)
Definition nth_answer {A} (l : list (exn + A)) (n : nat) : exn + A :=
  nth n l (inl service_down).

Definition make_env (table : list (string * json)) (llm : list (exn + string))
    (flights : list (exn + list FlightResult)) (faults : list nat) : Env :=
  {| json_loads := loads_table table;
     json_dumps := fun _ => "";
     int_of_str := fun _ => None;
     float_of_str := fun _ => None;
     bool_as_float := false;
     extract_system_prompt := "";
     generate_system_prompt := "";
     llm_content := nth_answer llm;
     flights_found := nth_answer flights;
     hotels_found := nth_answer [];
     booking_made := nth_answer [];
     db_fault := fun n =>
       if existsb (Nat.eqb n) faults then Some service_down else None;
     utcnow_at := fun n => n |}.

Definition empty_world : World :=
  {| messages := []; sessions := []; clock := 0%nat; llm_log := [];
     api_log := []; db_ops := 0%nat |}.

(** The payload with an intent and nothing else, and the payload with a
    message and nothing else. *)
Definition intent_text (i : string) : string :=
  "{" +:+ quoted "intent" +:+ ": " +:+ quoted i +:+ "}".

Definition message_text (m : string) : string :=
  "{" +:+ quoted "message" +:+ ": " +:+ quoted m +:+ "}".

Definition table : list (string * json) :=
  [("{}", JObj ∅);
   (intent_text "search_flight", JObj {["intent" := JStr "search_flight"]});
   (intent_text "greeting", JObj {["intent" := JStr "greeting"]});
   (message_text "Hello!", JObj {["message" := JStr "Hello!"]})].

(** The completion service answers both requests of a turn; the reply has a
    message. *)
Definition env_ok : Env :=
  make_env table [inr (intent_text "greeting"); inr (message_text "Hello!")]
    [] [].

(** The completion service is down for the extraction and answers the
    generation request with an empty object. *)
Definition env_empty_object : Env :=
  make_env table [inl service_down; inr "{}"] [] [].

(** The completion service answers its first request with an empty
    object. *)
Definition env_reply_empty_object : Env :=
  make_env table [inr "{}"] [] [].

(** A flight search whose service is down, the reply being an empty
    object. *)
Definition env_flights_down : Env :=
  make_env table [inr (intent_text "search_flight"); inr "{}"]
    [inl service_down] [].

(** As [env_ok], the sixth operation on the store failing: the insertion of
    the assistant entry (after the three operations of [preprocess_input],
    [get_db] and the insertion of the user entry). *)
Definition env_assistant_insert_fails : Env :=
  make_env table [inr (intent_text "greeting"); inr (message_text "Hello!")] []
    [5%nat].




(** A payload in a fence, edged with a no-break space and an ideographic
    space. *)
Definition fenced_greeting : string :=
  "```json" +:+ Py.nbsp +:+ intent_text "greeting" +:+ Py.ideographic_space
  +:+ "```".

Definition env_fenced_greeting : Env :=
  make_env table [inr fenced_greeting; inr "{}"] [] [].

(** A payload with an intent of the enumeration and a confidence that is not
    a number. *)
Definition not_a_number_text : string :=
  "{" +:+ quoted "intent" +:+ ": " +:+ quoted "search_flight" +:+ ", "
  +:+ quoted "confidence" +:+ ": NaN}".

Definition env_not_a_number : Env :=
  make_env
    [(not_a_number_text,
      JObj (<["intent" := JStr "search_flight"]>
            {["confidence" := JFloat nan]}))]
    [inr not_a_number_text; inr "{}"] [] [].

(** [env] under a clock that every reading finds at the time [t]. *)
Definition with_frozen_clock (t : nat) (env : Env) : Env :=
  {| json_loads := json_loads env; json_dumps := json_dumps env;
     int_of_str := int_of_str env; float_of_str := float_of_str env;
     bool_as_float := bool_as_float env;
     extract_system_prompt := extract_system_prompt env;
     generate_system_prompt := generate_system_prompt env;
     llm_content := llm_content env; flights_found := flights_found env;
     hotels_found := hotels_found env; booking_made := booking_made env;
     db_fault := db_fault env; utcnow_at := fun _ => t |}.

End Scenario.

(** ** The conditions the properties are stated under *)

(** [post m w Q]: run from [w], [m] returns normally, with a value and a
    world that satisfy [Q]. *)
Definition post {A} (m : M World A) (w : World) (Q : A -> World -> Prop)
  : Prop :=
  match m w with
  | (inr a, w') => Q a w'
  | (inl _, _) => False
  end.

(** The store holds in [w'] what it held in [w]. *)
Definition same_store (w w' : World) : Prop :=
  messages w' = messages w /\ sessions w' = sessions w.

(** What a node leaves alone in the turn state: the identifiers. *)
Definition same_ids (st st' : WorkflowState) : Prop :=
  ws_session_id st' = ws_session_id st /\ ws_user_id st' = ws_user_id st.

(** The world after a completion request. *)
Definition asked (messages : list chat_message) (temperature : float)
    (w : World) : World :=
  set_llm_log (llm_log w ++ [(messages, temperature)]) w.


(** The ways the generation request number [n] can fail: transport, blank
    content, a payload that does not parse, a payload that is not an object,
    and a list of UI elements one of which is refused. *)
Inductive generation_fails (env : Env) (n : nat) : Prop :=
  | generation_transport_error e :
      llm_content env n = inl e -> generation_fails env n
  | generation_blank_content text :
      llm_content env n = inr text -> Py.blank text = true ->
      generation_fails env n
  | generation_parse_failure text e :
      llm_content env n = inr text ->
      json_loads env (DeepSeekClient._extract_json_from_markdown text)
      = inl e ->
      generation_fails env n
  | generation_not_an_object text parsed :
      llm_content env n = inr text ->
      json_loads env (DeepSeekClient._extract_json_from_markdown text)
      = inr parsed ->
      (forall m, parsed <> JObj m) ->
      generation_fails env n
  | generation_bad_ui_element text m l e :
      llm_content env n = inr text ->
      json_loads env (DeepSeekClient._extract_json_from_markdown text)
      = inr (JObj m) ->
      m !! "ui_elements" = Some (JArr l) ->
      DeepSeekClient.build_ui_elements l = inl e ->
      generation_fails env n.

(** The completion request number [n] is answered with a content that is
    not blank and whose payload parses to an object; [msg] is the message of
    this object, the empty string when it has none. *)
Definition payload_message (env : Env) (n : nat) (msg : string) : Prop :=
  exists text m,
    llm_content env n = inr text /\ Py.blank text = false /\
    json_loads env (DeepSeekClient._extract_json_from_markdown text)
    = inr (JObj m) /\
    dict_get m "message" (JStr "") = JStr msg.



(** At the routing point, with turn state [state] in world [w]: the
    collaborator of the branch taken is called and raises [e]. *)
Inductive collaborator_fails (env : Env) (state : WorkflowState) (w : World)
    (e : exn) : api_call -> Prop :=
  | flights_fail r :
      ws_intent state = Some SEARCH_FLIGHT ->
      TravelAssistantWorkflow.flight_request_of env (ws_entities state)
      = inr r ->
      flights_found env (length (api_log w)) = inl e ->
      collaborator_fails env state w e (CallSearchFlights r)
  | hotels_fail r :
      ws_intent state = Some SEARCH_HOTEL ->
      TravelAssistantWorkflow.hotel_request_of env (ws_entities state)
      = inr r ->
      hotels_found env (length (api_log w)) = inl e ->
      collaborator_fails env state w e (CallSearchHotels r)
  | booking_fails :
      ws_intent state = Some BOOK_TRIP ->
      booking_made env (length (api_log w)) = inl e ->
      collaborator_fails env state w e
        (CallCreateBooking
           (dict_get (ws_entities state) "booking_type" (JStr "flight"))
           (dict_get (ws_entities state) "booking_id" (JStr ""))
           (ws_entities state)).

(** The session row of key [sid], if there is one. *)
Definition find_session (sid : string) (l : list ConversationSession)
  : option ConversationSession :=
  List.find (fun s => String.eqb (cs_session_id s) sid) l.

(** The log entry [r] belongs to session [sid] and has role [role]. *)
Definition entry_of (sid role : string) (r : ConversationMessage) : Prop :=
  cm_session_id r = sid /\ cm_message_type r = role.

(** What every dispatch branch leaves alone, and that it returns. *)
Definition dispatch_frame (st st' : WorkflowState) (w w' : World) : Prop :=
  same_store w w' /\ llm_log w' = llm_log w /\ db_ops w' = db_ops w /\
  same_ids st st' /\
  ws_user_input st' = ws_user_input st /\
  ws_conversation_history st' = ws_conversation_history st /\
  ws_intent st' = ws_intent st /\ ws_entities st' = ws_entities st /\
  ws_confidence st' = ws_confidence st /\
  (exists l, ws_api_results st' = Some l) /\
  (ws_error st <> None -> ws_error st' <> None).

(** What the generation node and the store node leave alone in the turn
    state. *)
Definition generate_frame (st st' : WorkflowState) : Prop :=
  same_ids st st' /\
  ws_user_input st' = ws_user_input st /\
  ws_conversation_history st' = ws_conversation_history st /\
  ws_intent st' = ws_intent st /\ ws_entities st' = ws_entities st /\
  ws_confidence st' = ws_confidence st /\
  ws_api_results st' = ws_api_results st /\
  (ws_error st <> None -> ws_error st' <> None).

(** The store step wrote the whole turn of session [sid]: the user entry and
    then the assistant entry at the end of the log, the entries before them
    as they were, and the session row, new or refreshed. *)
Definition turn_recorded (sid : string) (w w' : World) : Prop :=
  (exists u a,
      messages w' = (messages w ++ [u; a])%list /\
      entry_of sid "user" u /\ entry_of sid "assistant" a) /\
  (exists s, find_session sid (sessions w') = Some s) /\
  length (sessions w')
  = (length (sessions w)
     + match find_session sid (sessions w) with
       | Some _ => 0
       | None => 1
       end)%nat.

(** The store step stopped on the way: the log has no new entry, or the
    user entry alone, or both entries; the entries before them are as they
    were. *)
Definition turn_partly_recorded (sid : string) (w w' : World) : Prop :=
  messages w' = messages w \/
  (exists u, messages w' = (messages w ++ [u])%list /\ entry_of sid "user" u) \/
  (exists u a,
      messages w' = (messages w ++ [u; a])%list /\
      entry_of sid "user" u /\ entry_of sid "assistant" a).

(** The world [w'] differs from [w] in the clock and in the count of store
    operations at most. *)
Definition untouched (w w' : World) : Prop :=
  messages w' = messages w /\ sessions w' = sessions w /\
  llm_log w' = llm_log w /\ api_log w' = api_log w.

(** The string field [field] of a request is the value the entity map has
    under [key], unchanged, or [dflt] when the map has none. *)
Definition passed_or (entities : gmap string json) (key dflt field : string)
  : Prop :=
  match entities !! key with
  | Some v => v = JStr field
  | None => field = dflt
  end.

(** The count [field] of a request is what [int] makes of the value under
    [key], or 1 when the map has none. *)
Definition count_passed_or_one (env : Env) (entities : gmap string json)
    (key : string) (field : Z) : Prop :=
  match entities !! key with
  | Some v => py_int env v = inr field
  | None => field = 1
  end.

(** ** Conditions of the further properties *)

(** Every character of [s] is white space. *)
Definition all_space (s : string) : bool := String.eqb (Py.lstrip s) "".

(** A byte that continues a character of several bytes, and the texts that
    do not start with one. *)
Definition continuation (c : ascii) : bool :=
  let n := nat_of_ascii c in
  (128 <=? n)%nat && (n <=? 191)%nat.

Definition starts_character (s : string) : bool :=
  match s with
  | EmptyString => true
  | String c _ => negb (continuation c)
  end.

(** The backquote, and the texts without one. *)
Definition backquote : ascii := ascii_of_nat 96.

Fixpoint no_backquote (s : string) : bool :=
  match s with
  | EmptyString => true
  | String c s' => negb (Ascii.eqb c backquote) && no_backquote s'
  end.

(** ** The store seen as a whole *)

(** The entries of a log carry strictly increasing timestamps: they were
    written at times that differ, the later entry at the later time. The
    clock does not promise it; it is a condition on the log. *)
Definition time_ordered (l : list ConversationMessage) : Prop :=
  StronglySorted (fun a b => (cm_timestamp a < cm_timestamp b)%nat) l.

(** The same, two entries being allowed the same time. *)
Definition time_sorted (l : list ConversationMessage) : Prop :=
  StronglySorted (fun a b => (cm_timestamp a <= cm_timestamp b)%nat) l.

(** What the store keeps true: the primary keys of both tables are unique,
    and there is one row for a session identifier at most. *)
Definition store_consistent (w : World) : Prop :=
  NoDup (map cm_id (messages w)) /\
  NoDup (map cs_id (sessions w)) /\
  NoDup (map cs_session_id (sessions w)).

(** [m] keeps [I] true, whether it returns or raises. *)
Definition preserves (I : World -> Prop) {A} (m : M World A) : Prop :=
  forall w, I w -> I (snd (m w)).

(** The entries of session [sid] in a log. *)
Definition entries_of (sid : string) (l : list ConversationMessage)
  : list ConversationMessage :=
  filter (fun r => cm_session_id r = sid) l.

(** [a] is not older than [b]. *)
Definition not_older (a b : ConversationMessage) : Prop :=
  (cm_timestamp b <= cm_timestamp a)%nat.

(** A line of the conversation history, as [preprocess_input] writes it. *)
Definition history_line (msg : ConversationMessage) : string :=
  cm_message_type msg +:+ ": " +:+ cm_content msg.

(** The last [n] elements of a list. *)
Definition last_n {A} (n : nat) (l : list A) : list A :=
  drop (length l - n) l.

(** The log entry [r] of session [sid] and user [uid], with its role and
    its content. *)
Definition entry_with (sid : string) (uid : option string)
    (role content : string) (r : ConversationMessage) : Prop :=
  cm_session_id r = sid /\ cm_user_id r = uid /\
  cm_message_type r = role /\ cm_content r = content.

(** What a turn adds to the log: nothing, the user entry, or the user entry
    and the assistant entry. *)
Definition turn_entries (sid : string) (uid : option string)
    (said : string) (answered : json) (added : list ConversationMessage)
  : Prop :=
  match added with
  | [] => True
  | [u] => entry_with sid uid "user" said u
  | [u; a] =>
      entry_with sid uid "user" said u /\
      exists reply,
        answered = JStr reply /\ entry_with sid uid "assistant" reply a
  | _ => False
  end.

(** ** Housekeeping of the store *)

Module Housekeeping.
Section Cleanup.
Context (env : Env).

(** The length of an hour in the unit of the clock, and the last time a
    [datetime] can hold, the first one being 0. *)
Context (hour : nat).
Context (datetime_max : nat).

(** [datetime.utcnow() - timedelta(hours=hours)]: [OverflowError] when the
    result is not a time a [datetime] can hold. A [timedelta] holds more
    than the whole range of [datetime], so that the hours it refuses are
    refused here too. *)
Definition hours_before (now : nat) (hours : Z) : exn + Z :=
  let t := Z.of_nat now - hours * Z.of_nat hour in
  if (t <? 0) || (Z.of_nat datetime_max <? t)
  then inl (Raise OverflowError "date value out of range")
  else inr t.

(** [DatabaseManager.cleanup_old_sessions]: the cutoff is the time of the
    call less the hours given; the entries and the session rows older than
    the cutoff are deleted under one commit. *)
Definition cleanup_old_sessions (db : DatabaseManager.Session) (hours : Z)
  : M World unit :=
  do now <- DatabaseManager.utcnow env;
  do cutoff_time <- lift (hours_before now hours);
  DatabaseManager.db_op env
    (fun w =>
       (inr tt,
        set_sessions
          (filter (fun s => ~ Z.of_nat (cs_last_activity s) < cutoff_time)
             (sessions w))
          (set_messages
             (filter (fun r => ~ Z.of_nat (cm_timestamp r) < cutoff_time)
                (messages w))
             w))).

(** The background task [cleanup_old_sessions] of [api_routes.py]. *)
Definition cleanup_task : M World unit :=
  try_except
    (do db <- DatabaseManager.get_db env;
     run cleanup_old_sessions db 24;
     DatabaseManager.close env db)
    (fun _ => ret tt).

End Cleanup.
End Housekeeping.

(** The world after one turn of session s1 in which every collaborator
    answers. *)
Definition world_after_hello : World :=
  snd (TravelAssistantWorkflow.run_workflow Scenario.env_ok " hi " "s1" None
         Scenario.empty_world).

(** ** The chat endpoint of [api_routes.py] *)

Record TravelRequest := {
  tr_message : string;
  tr_session_id : string;
  tr_user_id : option string;
}.

(** [fastapi.HTTPException] *)
Record HTTPException := {
  status_code : nat;
  detail : string;
}.

(** [chat_with_assistant]: the workflow is run, and anything it raises
    becomes an internal server error. *)
Definition chat_with_assistant (env : Env) (request : TravelRequest) (w : World)
  : (HTTPException + AssistantResponse) * World :=
  match
    TravelAssistantWorkflow.run_workflow env (tr_message request)
      (tr_session_id request) (tr_user_id request) w
  with
  | (inr response, w') => (inr response, w')
  | (inl _, w') =>
      (inl {| status_code := 500; detail := "Internal server error" |}, w')
  end.

(** At the routing point, with turn state [state] in world [w]: the
    collaborator of the branch taken is called and returns; [found] is what
    the branch makes of its result. *)
Inductive collaborator_answers (env : Env) (state : WorkflowState) (w : World)
    (found : list api_result) : api_call -> Prop :=
  | flights_answer r flights :
      ws_intent state = Some SEARCH_FLIGHT ->
      TravelAssistantWorkflow.flight_request_of env (ws_entities state)
      = inr r ->
      flights_found env (length (api_log w)) = inr flights ->
      found = map FlightDict flights ->
      collaborator_answers env state w found (CallSearchFlights r)
  | hotels_answer r hotels :
      ws_intent state = Some SEARCH_HOTEL ->
      TravelAssistantWorkflow.hotel_request_of env (ws_entities state)
      = inr r ->
      hotels_found env (length (api_log w)) = inr hotels ->
      found = map HotelDict hotels ->
      collaborator_answers env state w found (CallSearchHotels r)
  | booking_answer booking :
      ws_intent state = Some BOOK_TRIP ->
      booking_made env (length (api_log w)) = inr booking ->
      found = [BookingDict booking] ->
      collaborator_answers env state w found
        (CallCreateBooking
           (dict_get (ws_entities state) "booking_type" (JStr "flight"))
           (dict_get (ws_entities state) "booking_id" (JStr ""))
           (ws_entities state)).

(** A flight search that finds one flight, the reply being an empty
    object. *)
Definition one_flight : FlightResult :=
  {| flight_id := "flight_1_1000"; airline := "Delta"; flight_number := "DE100";
     fr_origin := ""; fr_destination := ""; departure_time := "06:00";
     arrival_time := "08:00"; duration := "2h 0m"; fr_price := 200%float;
     fr_currency := "USD"; available_seats := 5 |}.

Definition env_one_flight : Env :=
  Scenario.make_env Scenario.table
    [inr (Scenario.intent_text "search_flight"); inr "{}"]
    [inr [one_flight]] [].

(** The UI elements [us] are what [UIElement] makes of the elements of [l],
    one for one. *)
Definition elements_built (l : list json) (us : list UIElement) : Prop :=
  Forall2 (fun element u => UIElement_new element = inr u) l us.

(** ** [tripxplo.py] and its routes *)

Module TripXplo.

Definition API_BASE : string := "https://api.tripxplo.com/v1/api".

(** A request sent with [requests]: the method, the URL, the token put
    after [Bearer] in the [Authorization] header, the query parameters and
    the JSON body. *)
Record request := {
  req_method : string;
  req_url : string;
  req_token : option json;
  req_params : option (gmap string json);
  req_json : option json;
}.

(** The state of the module: the global [_token_cache], [JNull] standing
    for [None], and the requests sent so far. *)
Record State := {
  _token_cache : json;
  sent : list request;
}.

(** The truth value of a decoded value. *)
Definition truthy (v : json) : bool :=
  match v with
  | JNull => false
  | JBool b => b
  | JInt z => negb (z =? 0)
  | JFloat f => negb (PrimFloat.eqb f 0%float)
  | JStr s => negb (String.eqb s "")
  | JArr l => negb (Nat.eqb (length l) 0)
  | JObj m => negb (Nat.eqb (size m) 0)
  end.

(** [len(v)]: what matters below is whether it raises; the length of a
    string is counted in bytes. *)
Definition py_len (v : json) : exn + nat :=
  match v with
  | JStr s => inr (String.length s)
  | JArr l => inr (length l)
  | JObj m => inr (size m)
  | JNull | JBool _ | JInt _ | JFloat _ =>
      inl (Raise TypeError "object has no len()")
  end.

(** [v.get(k, dflt)] on a decoded value, which has to be a dict. *)
Definition py_get (v : json) (k : string) (dflt : json) : exn + json :=
  match v with
  | JObj m => inr (dict_get m k dflt)
  | _ => inl (Raise AttributeError "value has no attribute get")
  end.

Definition opt_str (s : option string) : json :=
  match s with
  | Some s => JStr s
  | None => JNull
  end.

Section Client.
(** [EMAIL] and [PASSWORD] come from the environment. The n-th request of
    the process is answered by [http n]: what [raise_for_status] or [json]
    raises, or the decoded body. *)
Context (EMAIL PASSWORD : option string).
Context (http : nat -> exn + json).

(** A request, up to the decoded body. *)
Definition send (r : request) : M State json :=
  fun s =>
    (http (length (sent s)),
     {| _token_cache := _token_cache s; sent := sent s ++ [r] |}).

Definition set_token_cache (v : json) : M State unit :=
  fun s => (inr tt, {| _token_cache := v; sent := sent s |}).

Definition login_request : request :=
  {| req_method := "PUT";
     req_url := API_BASE +:+ "/admin/auth/login";
     req_token := None;
     req_params := None;
     req_json :=
       Some (JObj (<["email" := opt_str EMAIL]>
                   {["password" := opt_str PASSWORD]})) |}.

(** [get_token] *)
Definition get_token : M State json :=
  fun s =>
    if truthy (_token_cache s) then (inr (_token_cache s), s)
    else
      try_except
        (do data <- send login_request;
         do access <- lift (py_get data "accessToken" JNull);
         do token <-
           (if truthy access then ret access
            else lift (py_get data "jwt" JNull));
         if negb (truthy token)
         then raise (Raise ValueError
                       "No accessToken or jwt found in login response")
         else
           run set_token_cache token;
           fun s' => (inr (_token_cache s'), s'))
        (fun e => run set_token_cache JNull; raise e)
        s.

Definition authorized (method url : string) (token : json)
    (params : option (gmap string json)) (body : option json) : request :=
  {| req_method := method; req_url := url; req_token := Some token;
     req_params := params; req_json := body |}.

Definition search_params (search : string) (params : gmap string json)
  : gmap string json :=
  if String.eqb search "" then params else <["search" := JStr search]> params.

(** [get_packages] *)
Definition get_packages (search : string) (limit offset : Z) : M State json :=
  do token <- get_token;
  let params :=
    search_params search
      (<["limit" := JInt limit]> {["offset" := JInt offset]}) in
  try_except
    (do body <-
       send (authorized "GET" (API_BASE +:+ "/admin/package") token
               (Some params) None);
     do result <- lift (py_get body "result" (JObj ∅));
     do packages <- lift (py_get result "docs" (JArr []));
     do _ <- lift (py_len packages);
     ret packages)
    (fun _ => ret (JArr [])).

(** [get_package_details] *)
Definition get_package_details (package_id : string) : M State json :=
  do token <- get_token;
  try_except
    (do body <-
       send (authorized "GET" (API_BASE +:+ "/admin/package/" +:+ package_id)
               token None None);
     lift (py_get body "result" (JObj ∅)))
    (fun _ => ret (JObj ∅)).

(** [get_package_pricing] *)
Definition get_package_pricing (package_id : string)
    (params : gmap string json) : M State json :=
  do token <- get_token;
  try_except
    (do body <-
       send (authorized "POST"
               (API_BASE +:+ "/admin/package/" +:+ package_id +:+ "/pricing")
               token None (Some (JObj params)));
     lift (py_get body "result" (JObj ∅)))
    (fun _ => ret (JObj ∅)).

(** The body shared by [get_available_hotels], [get_available_vehicles] and
    [get_available_activities], which differ by the key they read. *)
Definition get_available (key : string) (package_id : string)
  : M State json :=
  try_except
    (do package_data <- get_package_details package_id;
     do items <- lift (py_get package_data key (JArr []));
     do _ <- lift (py_len items);
     ret items)
    (fun _ => ret (JArr [])).

Definition get_available_hotels : string -> M State json :=
  get_available "hotel".

Definition get_available_vehicles : string -> M State json :=
  get_available "availableVehicle".

Definition get_available_activities : string -> M State json :=
  get_available "activity".

(** [get_interests] *)
Definition get_interests : M State json :=
  do token <- get_token;
  try_except
    (do body <-
       send (authorized "GET" (API_BASE +:+ "/admin/package/interest/get")
               token None None);
     do interests <- lift (py_get body "result" (JArr []));
     do _ <- lift (py_len interests);
     ret interests)
    (fun _ => ret (JArr [])).

(** [search_destinations] *)
Definition search_destinations (search : string) : M State json :=
  do token <- get_token;
  let params := search_params search ∅ in
  try_except
    (do body <-
       send (authorized "GET"
               (API_BASE +:+ "/admin/package/destination/search") token
               (Some params) None);
     do destinations <- lift (py_get body "result" (JArr []));
     do _ <- lift (py_len destinations);
     ret destinations)
    (fun _ => ret (JArr [])).

(** A route of [api_routes.py] over a function of this module: the value
    under the key of the answer, or an internal server error with the
    detail of the route. *)
Definition route (detail : string) (m : M State json)
  : State -> (HTTPException + json) * State :=
  fun s =>
    match m s with
    | (inr v, s') => (inr v, s')
    | (inl _, s') => (inl {| status_code := 500; detail := detail |}, s')
    end.

Definition list_packages (search : string) (limit offset : Z) :=
  route "Failed to fetch packages" (get_packages search limit offset).

Definition package_details (package_id : string) :=
  route "Failed to fetch package details" (get_package_details package_id).

Definition package_pricing (package_id : string) (params : gmap string json) :=
  route "Failed to fetch package pricing"
    (get_package_pricing package_id params).

Definition package_hotels (package_id : string) :=
  route "Failed to fetch hotels" (get_available_hotels package_id).

Definition package_vehicles (package_id : string) :=
  route "Failed to fetch vehicles" (get_available_vehicles package_id).

Definition package_activities (package_id : string) :=
  route "Failed to fetch activities" (get_available_activities package_id).

Definition interests_route :=
  route "Failed to fetch interests" get_interests.

Definition destinations_route (search : string) :=
  route "Failed to search destinations" (search_destinations search).

End Client.

(** The module as loaded: no token, nothing sent. *)
Definition initial : State := {| _token_cache := JNull; sent := [] |}.

(** Something [len] accepts. *)
Definition sized (v : json) : Prop := exists n, py_len v = inr n.

(** From [s] to [s'] the requests [rs] were sent, and nothing else. *)
Definition sent_since (s s' : State) (rs : list request) : Prop :=
  sent s' = (sent s ++ rs)%list.

End TripXplo.

(** Unfolds the dispatch branches down to the monad. *)
Ltac unfold_branches :=
  unfold TravelAssistantWorkflow.search_flights,
    TravelAssistantWorkflow.search_hotels,
    TravelAssistantWorkflow.create_booking,
    TravelAssistantWorkflow.handle_general_inquiry,
    TravelAssistantWorkflow.dispatch_failed,
    MockExternalAPIs.search_flights, MockExternalAPIs.search_hotels,
    MockExternalAPIs.create_booking, MockExternalAPIs.api_call_with,
    try_except, bind, lift, ret.

(** * Properties *)

Section Facts.
Context (env : Env).

Lemma post_inv {A} (m : M World A) w (Q : A -> World -> Prop) :
  post m w Q -> exists a w', m w = (inr a, w') /\ Q a w'.
Proof.
  unfold post. destruct (m w) as [[e|a] w1]; [tauto|]. eauto.
Qed.

(** *** The fenced payload *)

Example extract_fenced_block :
  DeepSeekClient._extract_json_from_markdown
    ("Here it is: ```json" +:+ Py.newline +:+ "  {a: 1}  " +:+ Py.newline
     +:+ "``` and more ```json {b} ```")
  = "{a: 1}".
Proof. reflexivity. Qed.

Example extract_empty_fence :
  DeepSeekClient._extract_json_from_markdown ("```json" +:+ Py.newline +:+ "```")
  = "".
Proof. reflexivity. Qed.

Example extract_without_fence :
  DeepSeekClient._extract_json_from_markdown "  {a: 1} " = "  {a: 1} ".
Proof. reflexivity. Qed.

Example extract_unclosed_fence :
  DeepSeekClient._extract_json_from_markdown "```json {a: 1}" = "```json {a: 1}".
Proof. reflexivity. Qed.

Example extract_fence_edged_with_no_break_space :
  DeepSeekClient._extract_json_from_markdown
    ("```json" +:+ Py.nbsp +:+ "{}" +:+ Py.ideographic_space +:+ "```")
  = "{}".
Proof. reflexivity. Qed.

Example strip_no_break_space :
  Py.strip (Py.nbsp +:+ " hi" +:+ Py.ideographic_space +:+ Py.newline) = "hi" /\
  Py.blank (Py.nbsp +:+ Py.ideographic_space) = true.
Proof. split; reflexivity. Qed.

Example nan_is_refused :
  DeepSeekClient.validate_float_range "confidence" 0%float 1%float nan
  = inl (validation_error "confidence") /\
  DeepSeekClient.validate_float_range "confidence" 0%float 1%float 1%float
  = inr 1%float.
Proof. split; reflexivity. Qed.

Example int_of_floats :
  float_trunc 2.7%float = Some 2 /\ float_trunc (-2.7)%float = Some (-2) /\
  float_trunc 0.3%float = Some 0 /\ float_trunc nan = None /\
  float_trunc infinity = None.
Proof. repeat split; reflexivity. Qed.

(** *** The steps before routing *)

Lemma preprocess_input_post st w :
  post (TravelAssistantWorkflow.preprocess_input env st) w
    (fun st' w' =>
       same_store w w' /\ llm_log w' = llm_log w /\ api_log w' = api_log w /\
       same_ids st st' /\ ws_user_input st' = Py.strip (ws_user_input st) /\
       ws_error st' = ws_error st).
Proof.
  unfold TravelAssistantWorkflow.preprocess_input, post, bind, try_except,
    DatabaseManager.get_db, DatabaseManager.get_conversation_history,
    DatabaseManager.close, DatabaseManager.db_op, ret, same_store, same_ids.
  simpl.
  destruct (db_fault env (db_ops w)); simpl; [tauto|].
  destruct (db_fault env (S (db_ops w))); simpl; [tauto|].
  destruct (db_fault env (S (S (db_ops w)))); simpl; tauto.
Qed.

Lemma extraction_fallback_value :
  DeepSeekClient.extraction_fallback env
  = inr {| ee_intent := GENERAL_INQUIRY; ee_confidence := 0.5%float;
           ee_entities := ∅ |}.
Proof. reflexivity. Qed.

(** [IntentType] is called with success on the values of its members only. *)
Lemma IntentType_call_inr v i :
  IntentType_call v = inr i -> v = JStr (IntentType_value i).
Proof.
  destruct v as [| | | |s| |]; simpl; try (intros [=]; fail).
  repeat match goal with
         | |- context [String.eqb s ?k] =>
             destruct (String.eqb_spec s k) as [->|_];
             [intros [= <-]; reflexivity|]
         end.
  intros [=].
Qed.

Lemma make_request_world messages t w :
  snd (DeepSeekClient._make_request env messages t w) = asked messages t w.
Proof.
  unfold DeepSeekClient._make_request.
  destruct (llm_content env _); [reflexivity|].
  destruct (Py.blank _); reflexivity.
Qed.

(** The extraction of the client returns, whatever the completion service
    does, and asks it one thing. *)
(** The extraction of the client returns, whatever the completion service
    does, and asks it one thing. *)
Lemma client_extract_total input hist w :
  exists ee,
    DeepSeekClient.extract_intent_and_entities env input hist w
    = (inr ee,
       asked (DeepSeekClient.extract_messages env input hist) 0.3%float w).
Proof.
  unfold DeepSeekClient.extract_intent_and_entities, try_except, bind.
  pose proof (make_request_world
                (DeepSeekClient.extract_messages env input hist) 0.3%float w)
    as Hw.
  destruct (DeepSeekClient._make_request env _ _ w) as [[e|response] w1];
    simpl in Hw; subst w1.
  { rewrite extraction_fallback_value. eexists; reflexivity. }
  destruct (Py.blank response).
  { unfold raise. rewrite extraction_fallback_value. eexists; reflexivity. }
  unfold lift at 1.
  destruct (json_loads env _) as [e|parsed].
  { rewrite extraction_fallback_value. eexists; reflexivity. }
  unfold lift at 1.
  destruct (DeepSeekClient.getitem parsed "intent") as [e|iv].
  { rewrite extraction_fallback_value. eexists; reflexivity. }
  unfold lift at 1.
  destruct (IntentType_call iv) as [e|i].
  { rewrite extraction_fallback_value. eexists; reflexivity. }
  destruct parsed; unfold raise, lift;
    try (rewrite extraction_fallback_value; eexists; reflexivity).
  destruct (DeepSeekClient.ExtractedEntities_new env i _ _) as [e|ee].
  { rewrite extraction_fallback_value. eexists; reflexivity. }
  eexists; reflexivity.
Qed.


(** The extraction node: it returns, with the result of the client in the
    turn state. *)
Lemma extract_node_post st w :
  post (TravelAssistantWorkflow.extract_intent_and_entities env st) w
    (fun st' w' =>
       exists ee,
         DeepSeekClient.extract_intent_and_entities env (ws_user_input st)
           (ws_conversation_history st) w = (inr ee, w') /\
         st' = set_confidence (ee_confidence ee)
                 (set_entities (ee_entities ee)
                    (set_intent (Some (ee_intent ee)) st)) /\
         same_store w w' /\ api_log w' = api_log w /\
         w' = asked (DeepSeekClient.extract_messages env (ws_user_input st)
                       (ws_conversation_history st)) 0.3%float w).
Proof.
  unfold TravelAssistantWorkflow.extract_intent_and_entities, post, try_except,
    bind.
  destruct (client_extract_total (ws_user_input st)
              (ws_conversation_history st) w) as [ee ->].
  simpl. exists ee. unfold same_store. simpl. tauto.
Qed.

(** *** The dispatch branches *)


Lemma validate_int_range_inr field lo hi n m :
  validate_int_range field lo hi n = inr m -> m = n /\ lo <= n <= hi.
Proof.
  unfold validate_int_range.
  destruct ((lo <=? n) && (n <=? hi)) eqn:E; [|intros [=]].
  apply andb_true_iff in E as [E1 E2]. apply Z.leb_le in E1, E2.
  intros [= <-]. lia.
Qed.




Lemma run_node_post n st w :
  post (TravelAssistantWorkflow.run_node env n st) w
    (fun st' w' => dispatch_frame st st' w w').
Proof.
  unfold post, dispatch_frame, same_store, same_ids.
  destruct n; simpl; unfold_branches.
  - destruct (TravelAssistantWorkflow.flight_request_of env _); simpl;
      [|destruct (flights_found env _); simpl]; intuition (eauto; discriminate).
  - destruct (TravelAssistantWorkflow.hotel_request_of env _); simpl;
      [|destruct (hotels_found env _); simpl]; intuition (eauto; discriminate).
  - destruct (booking_made env _); simpl; intuition (eauto; discriminate).
  - simpl; intuition eauto.
Qed.

(** The label of the condition is always a key of the mapping. *)
Lemma conditional_edges_route st :
  conditional_edges (TravelAssistantWorkflow.route_condition st)
  = Some match ws_intent st with
         | Some SEARCH_FLIGHT => search_flights_node
         | Some SEARCH_HOTEL => search_hotels_node
         | Some BOOK_TRIP => create_booking_node
         | _ => handle_general_node
         end.
Proof.
  unfold TravelAssistantWorkflow.route_condition.
  destruct (ws_intent st) as [[]|]; reflexivity.
Qed.

Lemma dispatch_post st w :
  post (TravelAssistantWorkflow.dispatch env st) w
    (fun st' w' => dispatch_frame st st' w w').
Proof.
  unfold TravelAssistantWorkflow.dispatch. rewrite conditional_edges_route.
  apply run_node_post.
Qed.

(** *** The generation of the reply *)

(** The generation of the client returns, whatever the completion service
    does, once it has an intent to name in the prompt. *)
Lemma client_generate_total input i ents res hist w :
  exists rd,
    DeepSeekClient.generate_response env input (Some i) ents res hist w
    = (inr rd,
       asked (DeepSeekClient.generate_messages env input (IntentType_value i)
                ents res hist) 0.8%float w).
Proof.
  unfold DeepSeekClient.generate_response, try_except, bind.
  pose proof (make_request_world
                (DeepSeekClient.generate_messages env input (IntentType_value i)
                   ents res hist) 0.8%float w) as Hw.
  destruct (DeepSeekClient._make_request env _ _ w) as [[e|response] w1];
    simpl in Hw; subst w1.
  { eexists; reflexivity. }
  destruct (Py.blank response).
  { unfold raise, ret. eexists; reflexivity. }
  unfold lift at 1.
  destruct (json_loads env _) as [e|parsed].
  { eexists; reflexivity. }
  destruct parsed; unfold raise, ret; try (eexists; reflexivity).
  unfold lift.
  destruct (match m !! "ui_elements" with
            | Some (JArr l) => DeepSeekClient.build_ui_elements l
            | _ => inr []
            end); eexists; reflexivity.
Qed.

(** Every failure of the generation request gives the apology of the
    client and no UI element. *)
Lemma client_generate_fallback input i ents res hist w :
  generation_fails env (length (llm_log w)) ->
  fst (DeepSeekClient.generate_response env input (Some i) ents res hist w)
  = inr {| DeepSeekClient.rd_message := JStr client_apology;
           DeepSeekClient.rd_ui_elements := [] |}.
Proof.
  intros Hfail.
  unfold DeepSeekClient.generate_response, try_except, bind,
    DeepSeekClient._make_request.
  destruct Hfail as [e He | text He Hb | text e He Hp | text parsed He Hp Ho
                    | text m l e He Hp Hl Hu];
    rewrite He; try reflexivity.
  - rewrite Hb. reflexivity.
  - destruct (Py.blank text) eqn:Hb; [reflexivity|].
    cbv beta iota. rewrite Hb, Hp. reflexivity.
  - destruct (Py.blank text) eqn:Hb; [reflexivity|].
    cbv beta iota. rewrite Hb, Hp. unfold lift at 1.
    destruct parsed; try reflexivity. destruct (Ho m). reflexivity.
  - destruct (Py.blank text) eqn:Hb; [reflexivity|].
    cbv beta iota. rewrite Hb, Hp. unfold lift. rewrite Hl, Hu. reflexivity.
Qed.

(** A payload that is an object with acceptable UI elements is returned as
    it is: its message, or the empty string when it has none. *)
Lemma client_generate_parsed input i ents res hist w text m us :
  llm_content env (length (llm_log w)) = inr text ->
  Py.blank text = false ->
  json_loads env (DeepSeekClient._extract_json_from_markdown text)
  = inr (JObj m) ->
  match m !! "ui_elements" with
  | Some (JArr l) => DeepSeekClient.build_ui_elements l
  | _ => inr []
  end = inr us ->
  fst (DeepSeekClient.generate_response env input (Some i) ents res hist w)
  = inr {| DeepSeekClient.rd_message := dict_get m "message" (JStr "");
           DeepSeekClient.rd_ui_elements := us |}.
Proof.
  intros He Hb Hp Hu.
  unfold DeepSeekClient.generate_response, try_except, bind,
    DeepSeekClient._make_request.
  rewrite He, Hb. cbv beta iota. rewrite Hb, Hp. unfold lift.
  rewrite Hu. reflexivity.
Qed.

(** What the generation of the client returns: its apology with no UI
    element, or what it read in a payload that is an object. *)
Lemma client_generate_cases input i ents res hist w :
  exists rd,
    fst (DeepSeekClient.generate_response env input (Some i) ents res hist w)
    = inr rd /\
    (rd = {| DeepSeekClient.rd_message := JStr client_apology;
             DeepSeekClient.rd_ui_elements := [] |} \/
     exists text m,
       llm_content env (length (llm_log w)) = inr text /\
       Py.blank text = false /\
       json_loads env (DeepSeekClient._extract_json_from_markdown text)
       = inr (JObj m) /\
       DeepSeekClient.rd_message rd = dict_get m "message" (JStr "") /\
       match m !! "ui_elements" with
       | Some (JArr l) => DeepSeekClient.build_ui_elements l
       | _ => inr []
       end = inr (DeepSeekClient.rd_ui_elements rd)).
Proof.
  unfold DeepSeekClient.generate_response, try_except, bind,
    DeepSeekClient._make_request.
  destruct (llm_content env _) as [e|text] eqn:He.
  { eexists. simpl. eauto. }
  destruct (Py.blank text) eqn:Hb.
  { eexists. simpl. eauto. }
  cbv beta iota. rewrite Hb. unfold lift at 1.
  destruct (json_loads env _) as [e|parsed] eqn:Hp.
  { eexists. simpl. eauto. }
  destruct parsed as [| | | | | |m]; unfold raise, ret;
    try (eexists; simpl; eauto; fail).
  unfold lift.
  destruct (match m !! "ui_elements" with
            | Some (JArr l) => DeepSeekClient.build_ui_elements l
            | _ => inr []
            end) as [e|us] eqn:Hu.
  { eexists. simpl. eauto. }
  eexists. simpl. split; [reflexivity|]. right. exists text, m. auto 10.
Qed.

(** The generation node returns for every turn state. *)
Lemma generate_node_post st w :
  post (TravelAssistantWorkflow.generate_response env st) w
    (fun st' w' =>
       same_store w w' /\ api_log w' = api_log w /\ db_ops w' = db_ops w /\
       generate_frame st st').
Proof.
  unfold TravelAssistantWorkflow.generate_response, post, try_except, bind,
    generate_frame, same_store, same_ids.
  destruct (ws_intent st) as [i|] eqn:Hi.
  - destruct (client_generate_total (ws_user_input st) i (ws_entities st)
                (ws_api_results st) (ws_conversation_history st) w) as [rd ->].
    simpl. rewrite Hi. tauto.
  - simpl. rewrite Hi. intuition discriminate.
Qed.

(** With an intent in the turn state, the node stores what the client
    returned. *)
Lemma generate_node_client st w i :
  ws_intent st = Some i ->
  exists rd w',
    DeepSeekClient.generate_response env (ws_user_input st) (Some i)
      (ws_entities st) (ws_api_results st) (ws_conversation_history st) w
    = (inr rd, w') /\
    TravelAssistantWorkflow.generate_response env st w
    = (inr (set_ui_elements (DeepSeekClient.rd_ui_elements rd)
              (set_response_message (DeepSeekClient.rd_message rd) st)), w').
Proof.
  intros Hi.
  unfold TravelAssistantWorkflow.generate_response, try_except, bind.
  rewrite Hi.
  destruct (client_generate_total (ws_user_input st) i (ws_entities st)
              (ws_api_results st) (ws_conversation_history st) w) as [rd Hrd].
  rewrite Hrd. eauto.
Qed.

(** *** The store *)

Lemma find_session_sid sid l s :
  find_session sid l = Some s -> cs_session_id s = sid.
Proof.
  unfold find_session. intros H. apply find_some in H as [_ H].
  apply String.eqb_eq in H. exact H.
Qed.

Lemma find_session_replace sid s' l s :
  find_session sid l = Some s -> cs_session_id s' = sid ->
  find_session sid (DatabaseManager.replace_session sid s' l) = Some s'.
Proof.
  unfold find_session. intros H Hs'. induction l as [|x l IH]; simpl in *.
  - discriminate.
  - destruct (String.eqb (cs_session_id x) sid) eqn:E; simpl.
    + rewrite Hs', String.eqb_refl. reflexivity.
    + rewrite E. auto.
Qed.

Lemma length_replace_session sid s' l :
  length (DatabaseManager.replace_session sid s' l) = length l.
Proof.
  induction l as [|x l IH]; simpl; [reflexivity|].
  destruct (String.eqb (cs_session_id x) sid); simpl; congruence.
Qed.

Lemma find_session_new sid l s :
  find_session sid l = None -> cs_session_id s = sid ->
  find_session sid (l ++ [s])%list = Some s.
Proof.
  unfold find_session. intros H Hs. induction l as [|x l IH]; simpl in *.
  - rewrite Hs, String.eqb_refl. reflexivity.
  - destruct (String.eqb (cs_session_id x) sid); [discriminate|]. auto.
Qed.

Lemma get_db_inv w r w1 :
  DatabaseManager.get_db env w = (r, w1) -> untouched w w1.
Proof.
  unfold DatabaseManager.get_db, DatabaseManager.db_op, ret, untouched.
  destruct (db_fault env (db_ops w)); intros [= <- <-]; simpl; tauto.
Qed.

Lemma close_inv db w r w1 :
  DatabaseManager.close env db w = (r, w1) -> untouched w w1.
Proof.
  unfold DatabaseManager.close, DatabaseManager.db_op, ret, untouched.
  destruct (db_fault env (db_ops w)); intros [= <- <-]; simpl; tauto.
Qed.

(** An insertion either fails and changes nothing, or adds its row at the
    end of the log. *)
Lemma create_message_inv db m w r w1 :
  DatabaseManager.create_message env db m w = (r, w1) ->
  sessions w1 = sessions w /\ llm_log w1 = llm_log w /\
  api_log w1 = api_log w /\
  match r with
  | inl _ => messages w1 = messages w
  | inr row =>
      messages w1 = (messages w ++ [row])%list /\
      entry_of (mc_session_id m) (mc_message_type m) row
  end.
Proof.
  unfold DatabaseManager.create_message, DatabaseManager.db_op,
    DatabaseManager.utcnow, bind, entry_of.
  destruct (db_fault env (db_ops w)); intros [= <- <-]; simpl; tauto.
Qed.

(** The upsert either fails and changes nothing, or leaves exactly one more
    row when the session is new and as many when it is known. *)
Lemma create_or_update_session_inv db sid uid ctx w r w1 :
  DatabaseManager.create_or_update_session env db sid uid ctx w = (r, w1) ->
  messages w1 = messages w /\ llm_log w1 = llm_log w /\
  api_log w1 = api_log w /\
  match r with
  | inl _ => sessions w1 = sessions w
  | inr _ =>
      (exists s, find_session sid (sessions w1) = Some s) /\
      length (sessions w1)
      = (length (sessions w)
         + match find_session sid (sessions w) with
           | Some _ => 0
           | None => 1
           end)%nat
  end.
Proof.
  unfold DatabaseManager.create_or_update_session, DatabaseManager.db_op,
    DatabaseManager.utcnow, bind.
  destruct (db_fault env (db_ops w)); [intros [= <- <-]; simpl; tauto|].
  simpl. fold (find_session sid (sessions w)).
  destruct (find_session sid (sessions w)) as [s|] eqn:Hf;
    intros [= <- <-]; simpl; repeat split.
  - eexists. eapply find_session_replace; [exact Hf|].
    simpl. eapply find_session_sid; exact Hf.
  - rewrite length_replace_session. lia.
  - eexists. apply find_session_new; [exact Hf|reflexivity].
  - rewrite length_app. simpl. lia.
Qed.

(** The body of the store step: when it returns, the turn is recorded; when
    it raises, what was committed before stays. *)
Lemma store_body_spec st w :
  let r := TravelAssistantWorkflow.store_body env st w in
  llm_log (snd r) = llm_log w /\ api_log (snd r) = api_log w /\
  match fst r with
  | inr _ => turn_recorded (ws_session_id st) w (snd r)
  | inl _ => turn_partly_recorded (ws_session_id st) w (snd r)
  end.
Proof.
  unfold TravelAssistantWorkflow.store_body, bind, lift, MessageCreate_new,
    res_bind, turn_recorded, turn_partly_recorded.
  destruct (DatabaseManager.get_db env w) as [[e|db] w1] eqn:H1;
    apply get_db_inv in H1; destruct H1 as (Hm1 & Hs1 & Hl1 & Ha1); simpl.
  { rewrite ?Hl1, ?Ha1, ?Hm1. eauto 10. }
  destruct (DatabaseManager.create_message env db _ w1) as [[e|u] w2] eqn:H2;
    apply create_message_inv in H2; destruct H2 as (Hs2 & Hl2 & Ha2 & Hm2);
    simpl in *.
  { rewrite ?Hl2, ?Ha2, ?Hm2, ?Hl1, ?Ha1, ?Hm1. eauto 10. }
  destruct Hm2 as [Hm2 Hu].
  destruct (validate_str "content" (ws_response_message st)) as [e|c]; simpl.
  { rewrite ?Hl2, ?Ha2, ?Hm2, ?Hl1, ?Ha1, ?Hm1. eauto 10. }
  destruct (DatabaseManager.create_message env db _ w2) as [[e|a] w3] eqn:H3;
    apply create_message_inv in H3; destruct H3 as (Hs3 & Hl3 & Ha3 & Hm3);
    simpl in *.
  { rewrite ?Hl3, ?Ha3, ?Hm3, ?Hl2, ?Ha2, ?Hm2, ?Hl1, ?Ha1, ?Hm1. eauto 10. }
  destruct Hm3 as [Hm3 Hass].
  assert (Hlog : messages w3 = (messages w ++ [u; a])%list).
  { rewrite ?Hm3, ?Hm2, ?Hm1, <- app_assoc. reflexivity. }
  destruct (DatabaseManager.create_or_update_session env db _ _ _ w3)
    as [[e|s] w4] eqn:H4;
    apply create_or_update_session_inv in H4;
    destruct H4 as (Hm4 & Hl4 & Ha4 & Hs4); simpl in *.
  { rewrite ?Hl4, ?Ha4, ?Hm4, ?Hl3, ?Ha3, ?Hl2, ?Ha2, ?Hl1, ?Ha1, ?Hlog.
    eauto 10. }
  destruct Hs4 as [Hfind Hlen].
  destruct (DatabaseManager.close env db w4) as [[e|[]] w5] eqn:H5;
    apply close_inv in H5; destruct H5 as (Hm5 & Hs5 & Hl5 & Ha5); simpl.
  { rewrite ?Hl5, ?Ha5, ?Hm5, ?Hm4, ?Hl4, ?Ha4, ?Hl3, ?Ha3, ?Hl2, ?Ha2, ?Hl1,
      ?Ha1, ?Hlog.
    eauto 10. }
  rewrite ?Hl5, ?Ha5, ?Hm5, ?Hs5, ?Hm4, ?Hl4, ?Ha4, ?Hl3, ?Ha3, ?Hl2, ?Ha2,
    ?Hl1, ?Ha1, ?Hlog.
  rewrite ?Hlen, ?Hs3, ?Hs2, ?Hs1. eauto 10.
Qed.

(** The store node returns for every turn state, and its world is the one
    its body leaves. *)
Lemma store_node_post st w :
  post (TravelAssistantWorkflow.store_conversation env st) w
    (fun st' w' =>
       w' = snd (TravelAssistantWorkflow.store_body env st w) /\
       generate_frame st st' /\
       ws_response_message st' = ws_response_message st /\
       ws_ui_elements st' = ws_ui_elements st).
Proof.
  unfold TravelAssistantWorkflow.store_conversation, post, try_except, bind,
    ret, generate_frame, same_ids.
  destruct (TravelAssistantWorkflow.store_body env st w) as [[e|[]] w1]; simpl;
    intuition discriminate.
Qed.

(** *** The graph *)

(** The run up to the routing point returns; the extraction is the only
    thing it asks of a collaborator outside the store. *)
Lemma graph_until_route_inv input sid uid w :
  exists s1 w1 ee w3,
    TravelAssistantWorkflow.preprocess_input env
      (TravelAssistantWorkflow.initial_state input sid uid) w = (inr s1, w1) /\
    llm_log w1 = llm_log w /\
    DeepSeekClient.extract_intent_and_entities env (ws_user_input s1)
      (ws_conversation_history s1) w1 = (inr ee, w3) /\
    TravelAssistantWorkflow.graph_until_route env
      (TravelAssistantWorkflow.initial_state input sid uid) w
    = (inr (set_confidence (ee_confidence ee)
              (set_entities (ee_entities ee)
                 (set_intent (Some (ee_intent ee)) s1))), w3) /\
    same_store w w3 /\ api_log w3 = api_log w /\
    ws_session_id s1 = sid /\ ws_user_id s1 = uid /\ ws_error s1 = None.
Proof.
  unfold TravelAssistantWorkflow.graph_until_route,
    TravelAssistantWorkflow.route_request, bind, ret.
  destruct (post_inv _ _ _
              (preprocess_input_post
                 (TravelAssistantWorkflow.initial_state input sid uid) w))
    as (s1 & w1 & -> & (Hm1 & Hs1) & Hl1 & Ha1 & (Hsid & Huid) & _ & Herr).
  destruct (post_inv _ _ _ (extract_node_post s1 w1))
    as (s2 & w2 & -> & ee & Hee & -> & (Hm2 & Hs2) & Ha2 & _).
  exists s1, w1, ee, w2. unfold same_store.
  rewrite Hm2, Hs2, Ha2, Hm1, Hs1, Ha1. simpl in *. tauto.
Qed.

(** From the routing point on, every node returns. *)
Lemma graph_until_store_inv input sid uid w :
  exists s3 w3 s4 w4 s5 w5,
    TravelAssistantWorkflow.graph_until_route env
      (TravelAssistantWorkflow.initial_state input sid uid) w = (inr s3, w3) /\
    TravelAssistantWorkflow.dispatch env s3 w3 = (inr s4, w4) /\
    TravelAssistantWorkflow.generate_response env s4 w4 = (inr s5, w5) /\
    TravelAssistantWorkflow.graph_until_store env
      (TravelAssistantWorkflow.initial_state input sid uid) w = (inr s5, w5) /\
    dispatch_frame s3 s4 w3 w4 /\ generate_frame s4 s5 /\
    same_store w w5 /\ ws_session_id s5 = sid /\ ws_user_id s5 = uid.
Proof.
  unfold TravelAssistantWorkflow.graph_until_store, bind.
  destruct (graph_until_route_inv input sid uid w)
    as (s1 & w1 & ee & w3 & _ & _ & _ & Hr & (Hm3 & Hs3) & _ & Hsid & Huid & _).
  rewrite Hr.
  destruct (post_inv _ _ _ (dispatch_post
              (set_confidence (ee_confidence ee)
                 (set_entities (ee_entities ee)
                    (set_intent (Some (ee_intent ee)) s1))) w3))
    as (s4 & w4 & Hdis & Hd).
  rewrite Hdis.
  destruct (post_inv _ _ _ (generate_node_post s4 w4))
    as (s5 & w5 & Hgen & (Hm5 & Hs5) & _ & _ & Hg).
  pose proof Hd as ((Hm4 & Hs4) & _ & _ & (Hi4 & Hu4) & _).
  pose proof Hg as ((Hi5 & Hu5) & _).
  exists (set_confidence (ee_confidence ee)
            (set_entities (ee_entities ee)
               (set_intent (Some (ee_intent ee)) s1))), w3, s4, w4, s5, w5.
  unfold same_store. simpl in Hi4, Hu4.
  rewrite Hm5, Hs5, Hm4, Hs4, Hi5, Hu5, Hi4, Hu4. tauto.
Qed.

(** The whole graph returns: the turn is never aborted. *)
Lemma graph_ainvoke_inv input sid uid w :
  exists s5 w5 s6,
    TravelAssistantWorkflow.graph_until_store env
      (TravelAssistantWorkflow.initial_state input sid uid) w = (inr s5, w5) /\
    TravelAssistantWorkflow.graph_ainvoke env
      (TravelAssistantWorkflow.initial_state input sid uid) w
    = (inr s6, snd (TravelAssistantWorkflow.store_body env s5 w5)) /\
    same_store w w5 /\ ws_session_id s5 = sid /\ ws_user_id s5 = uid /\
    generate_frame s5 s6 /\
    ws_response_message s6 = ws_response_message s5 /\
    ws_ui_elements s6 = ws_ui_elements s5.
Proof.
  unfold TravelAssistantWorkflow.graph_ainvoke, bind.
  destruct (graph_until_store_inv input sid uid w)
    as (s3 & w3 & s4 & w4 & s5 & w5 & _ & _ & _ & -> & _ & _ & Hst & Hsid
        & Huid).
  destruct (post_inv _ _ _ (store_node_post s5 w5))
    as (s6 & w6 & -> & -> & Hf & Hm & Hu).
  exists s5, w5, s6. tauto.
Qed.

(** The reply of [run_workflow]: built from the final turn state when its
    message is a string, the fixed reply otherwise; in both cases with the
    session identifier of the call. *)
Lemma run_workflow_inv input sid uid w :
  exists s6 w6 resp w',
    TravelAssistantWorkflow.graph_ainvoke env
      (TravelAssistantWorkflow.initial_state input sid uid) w = (inr s6, w6) /\
    TravelAssistantWorkflow.run_workflow env input sid uid w = (inr resp, w') /\
    untouched w6 w' /\
    session_id resp = sid /\
    match ws_response_message s6 with
    | JStr m =>
        message resp = m /\ intent resp = ws_intent s6 /\
        entities resp = Some (ws_entities s6) /\
        results resp = ws_api_results s6 /\
        ui_elements resp = Some (ws_ui_elements s6)
    | _ =>
        message resp = run_apology /\ intent resp = None /\
        entities resp = None /\ results resp = None /\ ui_elements resp = None
    end.
Proof.
  unfold TravelAssistantWorkflow.run_workflow, try_except, bind,
    TravelAssistantWorkflow.AssistantResponse_new, DatabaseManager.utcnow,
    lift, ret, untouched.
  destruct (graph_ainvoke_inv input sid uid w) as (s5 & w5 & s6 & _ & -> & _).
  exists s6, (snd (TravelAssistantWorkflow.store_body env s5 w5)).
  destruct (ws_response_message s6); simpl; do 2 eexists; simpl;
    repeat split; reflexivity.
Qed.

(** The turn seen from its caller: the turn state when the store step
    starts, the reply, and what the store step did to the log and to the
    session rows. *)
Lemma run_workflow_store input sid uid w :
  exists s5 w5 resp w',
    TravelAssistantWorkflow.graph_until_store env
      (TravelAssistantWorkflow.initial_state input sid uid) w = (inr s5, w5) /\
    TravelAssistantWorkflow.run_workflow env input sid uid w = (inr resp, w') /\
    session_id resp = sid /\
    (message resp = "" -> ws_response_message s5 = JStr "") /\
    (results resp = ws_api_results s5 \/ message resp = run_apology) /\
    match fst (TravelAssistantWorkflow.store_body env s5 w5) with
    | inr _ => turn_recorded sid w w'
    | inl _ => turn_partly_recorded sid w w'
    end.
Proof.
  destruct (graph_ainvoke_inv input sid uid w)
    as (s5 & w5 & s6 & H5 & H6 & (Hm5 & Hs5) & Hsid & _ & Hf & Hmsg & _).
  destruct (run_workflow_inv input sid uid w)
    as (s6' & w6 & resp & w' & H6' & Hrun & (Hm & Hs & _) & Hrsid & Hresp).
  rewrite H6 in H6'. injection H6' as <- <-.
  exists s5, w5, resp, w'. repeat split; try assumption.
  - rewrite Hmsg in Hresp.
    destruct (ws_response_message s5); destruct Hresp as [-> _];
      try (unfold run_apology; discriminate).
    intros ->. reflexivity.
  - destruct Hf as (_ & _ & _ & _ & _ & _ & Hres & _).
    destruct (ws_response_message s6); try tauto.
    left. destruct Hresp as (_ & _ & _ & -> & _). exact Hres.
  - pose proof (store_body_spec s5 w5) as (_ & _ & Hstore).
    rewrite Hsid in Hstore.
    unfold turn_recorded, turn_partly_recorded in *.
    rewrite Hm, Hs. rewrite Hm5, Hs5 in Hstore. exact Hstore.
Qed.

(** The generation request is the second request of the turn. What the
    caller reads as message is the apology of the client when that request
    failed, and otherwise the apology of the workflow or the message of the
    payload; both apologies being texts, the message is empty only when the
    payload has an empty message or none. *)
Lemma run_workflow_message input sid uid w :
  exists resp w',
    TravelAssistantWorkflow.run_workflow env input sid uid w = (inr resp, w') /\
    session_id resp = sid /\
    (generation_fails env (S (length (llm_log w))) ->
     message resp = client_apology) /\
    (message resp = client_apology \/ message resp = run_apology \/
     payload_message env (S (length (llm_log w))) (message resp)) /\
    (message resp = "" -> payload_message env (S (length (llm_log w))) "").
Proof.
  destruct (graph_until_route_inv input sid uid w)
    as (s1 & w1 & ee & w3 & _ & Hl1 & Hee & Hroute & _).
  destruct (client_extract_total (ws_user_input s1)
              (ws_conversation_history s1) w1) as [ee' Hee'].
  rewrite Hee in Hee'. injection Hee' as _ Hw3.
  destruct (graph_until_store_inv input sid uid w)
    as (s3 & w3' & s4 & w4 & s5 & w5 & Hroute' & _ & Hgen & H5 & Hd & _).
  rewrite Hroute in Hroute'. injection Hroute' as <- <-.
  destruct Hd as (_ & Hl4 & _ & _ & _ & _ & Hint4 & _). simpl in Hint4.
  assert (Hn : length (llm_log w4) = S (length (llm_log w))).
  { rewrite Hl4, Hw3. simpl. rewrite length_app, Hl1. simpl. lia. }
  destruct (generate_node_client s4 w4 (ee_intent ee) Hint4)
    as (rd & w5' & Hc & Hnode).
  rewrite Hgen in Hnode. injection Hnode as Hs5 _.
  destruct (client_generate_cases (ws_user_input s4) (ee_intent ee)
              (ws_entities s4) (ws_api_results s4)
              (ws_conversation_history s4) w4) as (rd' & Hrd' & Hcases).
  rewrite Hc in Hrd'. simpl in Hrd'. injection Hrd' as <-.
  rewrite Hn in Hcases.
  destruct (graph_ainvoke_inv input sid uid w)
    as (s5' & w5'' & s6 & H5' & H6 & _ & _ & _ & _ & Hmsg & _).
  rewrite H5 in H5'. injection H5' as <- <-.
  destruct (run_workflow_inv input sid uid w)
    as (s6' & w6 & resp & w' & H6' & Hrun & _ & Hsid & Hresp).
  rewrite H6 in H6'. injection H6' as <- <-.
  assert (Hleft : ws_response_message s6 = DeepSeekClient.rd_message rd).
  { rewrite Hmsg, Hs5. reflexivity. }
  rewrite Hleft in Hresp.
  assert (Hthree : message resp = client_apology \/ message resp = run_apology \/
                   payload_message env (S (length (llm_log w))) (message resp)).
  { destruct Hcases as [-> | (text & m & He & Hb & Hp & Hm & _)].
    - left. simpl in Hresp. tauto.
    - rewrite Hm in Hresp.
      destruct (dict_get m "message" (JStr "")) as [| | | |msg| |] eqn:Hget;
        try (right; left; tauto).
      right. right. exists text, m. destruct Hresp as [-> _]. auto. }
  exists resp, w'. split; [exact Hrun|]. split; [exact Hsid|].
  split; [|split; [exact Hthree|]].
  - intros Hfail. rewrite <- Hn in Hfail.
    pose proof (client_generate_fallback (ws_user_input s4) (ee_intent ee)
                  (ws_entities s4) (ws_api_results s4)
                  (ws_conversation_history s4) w4 Hfail) as Hfb.
    rewrite Hc in Hfb. simpl in Hfb. injection Hfb as ->.
    simpl in Hresp. tauto.
  - intros Hempty. rewrite Hempty in Hthree.
    destruct Hthree as [H | [H | H]];
      [unfold client_apology in H; discriminate
      |unfold run_apology in H; discriminate|exact H].
Qed.

(** When the collaborator of the branch taken raises, the branch has called
    it once and records the failure. *)
Lemma dispatch_collaborator_fails st w e c :
  collaborator_fails env st w e c ->
  TravelAssistantWorkflow.dispatch env st w
  = (inr (set_api_results (Some []) (set_error (Some (str_exn e)) st)),
     set_api_log (api_log w ++ [c])%list w).
Proof.
  intros H. unfold TravelAssistantWorkflow.dispatch.
  rewrite conditional_edges_route.
  destruct H as [r Hi Hr He | r Hi Hr He | Hi He]; rewrite Hi; simpl;
    unfold_branches; rewrite ?Hr, He; reflexivity.
Qed.

(** *** The claims *)

(** C6. Routing is total and deterministic: the label [route_condition]
    returns is always a key of the conditional edge, so routing never
    errors; search_flight leads to the flight branch, search_hotel to the
    hotel branch, book_trip to the booking branch, and every other intent,
    general_inquiry, greeting and no intent at all, to the general branch. *)
Theorem route_condition_total st :
  (exists n,
      conditional_edges (TravelAssistantWorkflow.route_condition st) = Some n) /\
  conditional_edges
    (TravelAssistantWorkflow.route_condition
       (set_intent (Some SEARCH_FLIGHT) st))
  = Some search_flights_node /\
  conditional_edges
    (TravelAssistantWorkflow.route_condition
       (set_intent (Some SEARCH_HOTEL) st))
  = Some search_hotels_node /\
  conditional_edges
    (TravelAssistantWorkflow.route_condition (set_intent (Some BOOK_TRIP) st))
  = Some create_booking_node /\
  conditional_edges
    (TravelAssistantWorkflow.route_condition
       (set_intent (Some GENERAL_INQUIRY) st))
  = Some handle_general_node /\
  conditional_edges
    (TravelAssistantWorkflow.route_condition (set_intent (Some GREETING) st))
  = Some handle_general_node /\
  conditional_edges
    (TravelAssistantWorkflow.route_condition (set_intent None st))
  = Some handle_general_node /\
  forall w, exists st' w',
    TravelAssistantWorkflow.dispatch env st w = (inr st', w').
Proof.
  split; [rewrite conditional_edges_route; eauto|].
  repeat (split; [reflexivity|]).
  intros w.
  destruct (post_inv _ _ _ (dispatch_post st w)) as (st' & w' & H & _).
  eauto.
Qed.




(** C1 (amended). For every input with a non-empty session identifier,
    [run_workflow] returns a reply, whatever the collaborators did, that
    carries the session identifier of the call. Its message is the apology
    of the client whenever the generation request, the second request of
    the turn, failed; in every case it is one of the two apologies, which
    are not empty, or the message of the payload of that request. So the
    message is empty only when the completion service answered the
    generation request with an object whose message is empty or missing. *)
Theorem run_workflow_echoes_session_id input sid uid w :
  sid <> "" ->
  exists resp w',
    TravelAssistantWorkflow.run_workflow env input sid uid w = (inr resp, w') /\
    session_id resp = sid /\
    (generation_fails env (S (length (llm_log w))) ->
     message resp = client_apology) /\
    (message resp = client_apology \/ message resp = run_apology \/
     payload_message env (S (length (llm_log w))) (message resp)) /\
    (message resp = "" -> payload_message env (S (length (llm_log w))) "").
Proof.
  intros _. apply run_workflow_message.
Qed.

(** C2 (amended). An empty session identifier is not refused: the call
    returns a reply that carries the empty identifier, and the store step
    runs as for any other session, writing the turn under the empty
    identifier when it runs to its end. *)
Theorem empty_session_id_is_accepted input uid w :
  exists s5 w5 resp w',
    TravelAssistantWorkflow.graph_until_store env
      (TravelAssistantWorkflow.initial_state input "" uid) w = (inr s5, w5) /\
    TravelAssistantWorkflow.run_workflow env input "" uid w = (inr resp, w') /\
    session_id resp = "" /\
    match fst (TravelAssistantWorkflow.store_body env s5 w5) with
    | inr _ => turn_recorded "" w w'
    | inl _ => turn_partly_recorded "" w w'
    end.
Proof.
  destruct (run_workflow_store input "" uid w)
    as (s5 & w5 & resp & w' & H5 & Hrun & Hsid & _ & _ & Hstore).
  exists s5, w5, resp, w'. tauto.
Qed.

(** C3 (amended). A turn whose store step runs to its end adds exactly two
    entries to the log, the user entry and then the assistant entry, and
    leaves one session row for the session, new or refreshed. A store step
    that fails on the way keeps what it had committed: no entry, the user
    entry alone, or both entries. In every case the entries that were in the
    log before the turn are still there, unchanged and in the same order. *)
Theorem store_step_outcomes input sid uid w :
  exists s5 w5 resp w',
    TravelAssistantWorkflow.graph_until_store env
      (TravelAssistantWorkflow.initial_state input sid uid) w = (inr s5, w5) /\
    TravelAssistantWorkflow.run_workflow env input sid uid w = (inr resp, w') /\
    (exists added, messages w' = (messages w ++ added)%list) /\
    match fst (TravelAssistantWorkflow.store_body env s5 w5) with
    | inr _ => turn_recorded sid w w'
    | inl _ => turn_partly_recorded sid w w'
    end.
Proof.
  destruct (run_workflow_store input sid uid w)
    as (s5 & w5 & resp & w' & H5 & Hrun & _ & _ & _ & Hstore).
  exists s5, w5, resp, w'. repeat split; try assumption.
  destruct (fst (TravelAssistantWorkflow.store_body env s5 w5)).
  - destruct Hstore as [-> | [(u & -> & _) | (u1 & u2 & -> & _)]]; eauto.
    exists []. rewrite app_nil_r. reflexivity.
  - destruct Hstore as ((u1 & u2 & -> & _) & _). eauto.
Qed.

(** C4 (amended). The generation node never raises, whatever the turn
    state, and the generation of the client never raises once it has an
    intent. A transport failure, a blank content, a payload that does not
    parse or is not an object, and a UI element that is refused give the
    fixed apology and no UI element. An object without a message is not a
    failure: its message is the empty string, with the UI elements of the
    payload. *)
Theorem generation_failure_gives_apology st w :
  (exists st' w',
      TravelAssistantWorkflow.generate_response env st w = (inr st', w')) /\
  forall i,
    ws_intent st = Some i ->
    exists rd w',
      DeepSeekClient.generate_response env (ws_user_input st) (Some i)
        (ws_entities st) (ws_api_results st) (ws_conversation_history st) w
      = (inr rd, w') /\
      TravelAssistantWorkflow.generate_response env st w
      = (inr (set_ui_elements (DeepSeekClient.rd_ui_elements rd)
                (set_response_message (DeepSeekClient.rd_message rd) st)), w') /\
      (generation_fails env (length (llm_log w)) ->
       rd = {| DeepSeekClient.rd_message := JStr client_apology;
               DeepSeekClient.rd_ui_elements := [] |}) /\
      (forall text m us,
          llm_content env (length (llm_log w)) = inr text ->
          Py.blank text = false ->
          json_loads env (DeepSeekClient._extract_json_from_markdown text)
          = inr (JObj m) ->
          match m !! "ui_elements" with
          | Some (JArr l) => DeepSeekClient.build_ui_elements l
          | _ => inr []
          end = inr us ->
          rd = {| DeepSeekClient.rd_message := dict_get m "message" (JStr "");
                  DeepSeekClient.rd_ui_elements := us |}).
Proof.
  split.
  { destruct (post_inv _ _ _ (generate_node_post st w)) as (st' & w' & H & _).
    eauto. }
  intros i Hi.
  destruct (generate_node_client st w i Hi) as (rd & w' & Hc & Hn).
  exists rd, w'. repeat split; try assumption.
  - intros Hfail.
    pose proof (client_generate_fallback (ws_user_input st) i (ws_entities st)
                  (ws_api_results st) (ws_conversation_history st) w Hfail)
      as H.
    rewrite Hc in H. simpl in H. congruence.
  - intros text m us He Hb Hp Hu.
    pose proof (client_generate_parsed (ws_user_input st) i (ws_entities st)
                  (ws_api_results st) (ws_conversation_history st) w text m us
                  He Hb Hp Hu) as H.
    rewrite Hc in H. simpl in H. congruence.
Qed.

(** C7 (amended). When the collaborator of the branch taken raises, the
    branch catches it: the collaborator was called once, the results are the
    empty list and the error is what the collaborator raised. The turn goes
    on: the generation step runs, the results are still empty and the error
    still set when the store step starts, and the caller gets a reply with
    the session identifier. Its message is the apology of the client
    whenever the generation request failed; in every case it is one of the
    two apologies, which are not empty, or the message of the payload of
    that request, so that it is empty only when the completion service
    answered the generation request with an object whose message is empty
    or missing. *)
Theorem collaborator_failure_is_absorbed input sid uid w s3 w3 e c :
  TravelAssistantWorkflow.graph_until_route env
    (TravelAssistantWorkflow.initial_state input sid uid) w = (inr s3, w3) ->
  collaborator_fails env s3 w3 e c ->
  TravelAssistantWorkflow.dispatch env s3 w3
  = (inr (set_api_results (Some []) (set_error (Some (str_exn e)) s3)),
     set_api_log (api_log w3 ++ [c])%list w3) /\
  exists s5 w5 resp w',
    TravelAssistantWorkflow.graph_until_store env
      (TravelAssistantWorkflow.initial_state input sid uid) w = (inr s5, w5) /\
    ws_api_results s5 = Some [] /\ ws_error s5 <> None /\
    TravelAssistantWorkflow.run_workflow env input sid uid w = (inr resp, w') /\
    session_id resp = sid /\
    (results resp = Some [] \/ message resp = run_apology) /\
    (generation_fails env (S (length (llm_log w))) ->
     message resp = client_apology) /\
    (message resp = client_apology \/ message resp = run_apology \/
     payload_message env (S (length (llm_log w))) (message resp)) /\
    (message resp = "" -> payload_message env (S (length (llm_log w))) "").
Proof.
  intros Hroute Hfail.
  pose proof (dispatch_collaborator_fails _ _ _ _ Hfail) as Hdis.
  split; [exact Hdis|].
  destruct (run_workflow_store input sid uid w)
    as (s5 & w5 & resp & w' & H5 & Hrun & Hsid & _ & Hres & _).
  destruct (run_workflow_message input sid uid w)
    as (resp' & w'' & Hrun' & _ & Hgf & Hthree & Hempty).
  rewrite Hrun in Hrun'. injection Hrun' as <- <-.
  destruct (graph_until_store_inv input sid uid w)
    as (s3' & w3' & s4 & w4 & s5' & w5' & Hroute' & Hdis' & _ & H5' & _ & Hg
        & _).
  rewrite Hroute in Hroute'. injection Hroute' as <- <-.
  rewrite Hdis in Hdis'. injection Hdis' as <- <-.
  rewrite H5 in H5'. injection H5' as <- <-.
  destruct Hg as (_ & _ & _ & _ & _ & _ & Hres5 & Herr5).
  simpl in Hres5, Herr5.
  exists s5, w5, resp, w'. rewrite Hres5 in Hres.
  repeat split; try assumption. apply Herr5. discriminate.
Qed.

Lemma validate_str_inr field v s : validate_str field v = inr s -> v = JStr s.
Proof. destruct v; simpl; intros [=]; congruence. Qed.

Lemma passed_or_get entities key dflt field :
  dict_get entities key (JStr dflt) = JStr field ->
  passed_or entities key dflt field.
Proof.
  unfold dict_get, passed_or. destruct (entities !! key); simpl; congruence.
Qed.

Lemma count_passed_or_one_get entities key field :
  py_int env (dict_get entities key (JInt 1)) = inr field ->
  count_passed_or_one env entities key field.
Proof.
  unfold dict_get, count_passed_or_one.
  destruct (entities !! key); simpl; congruence.
Qed.

(** C8 (amended). A request that a dispatch branch builds has, for every
    field the entity map lacks, the default: 1 passenger, 1 guest, 1 room,
    the class economy, and the empty string for origin, destination,
    location, departure date, check-in and check-out; the return date has no
    empty-string default, it is absent when the map has none. A field the
    map has is passed as it is, a count through [int]. With no entity at all
    both requests are built, from the defaults alone; the branch calls its
    collaborator with the request built, and the booking branch with the
    type flight and the empty identifier as defaults. *)
Theorem dispatch_request_defaults entities :
  (forall r,
      TravelAssistantWorkflow.flight_request_of env entities = inr r ->
      passed_or entities "origin" "" (fs_origin r) /\
      passed_or entities "destination" "" (fs_destination r) /\
      passed_or entities "departure_date" "" (fs_departure_date r) /\
      passed_or entities "class_type" "economy" (fs_class_type r) /\
      count_passed_or_one env entities "passengers" (fs_passengers r) /\
      1 <= fs_passengers r <= 9 /\
      fs_return_date r = match entities !! "return_date" with
                         | Some (JStr s) => Some s
                         | _ => None
                         end) /\
  (forall r,
      TravelAssistantWorkflow.hotel_request_of env entities = inr r ->
      passed_or entities "location" "" (hs_location r) /\
      passed_or entities "check_in" "" (hs_check_in r) /\
      passed_or entities "check_out" "" (hs_check_out r) /\
      count_passed_or_one env entities "guests" (hs_guests r) /\
      count_passed_or_one env entities "rooms" (hs_rooms r) /\
      1 <= hs_guests r <= 10 /\ 1 <= hs_rooms r <= 5) /\
  TravelAssistantWorkflow.flight_request_of env ∅
  = inr {| fs_origin := ""; fs_destination := ""; fs_departure_date := "";
           fs_return_date := None; fs_passengers := 1;
           fs_class_type := "economy" |} /\
  TravelAssistantWorkflow.hotel_request_of env ∅
  = inr {| hs_location := ""; hs_check_in := ""; hs_check_out := "";
           hs_guests := 1; hs_rooms := 1 |} /\
  (forall st w,
      ws_entities st = entities ->
      (forall r,
          TravelAssistantWorkflow.flight_request_of env entities = inr r ->
          api_log (snd (TravelAssistantWorkflow.search_flights env st w))
          = (api_log w ++ [CallSearchFlights r])%list) /\
      (forall r,
          TravelAssistantWorkflow.hotel_request_of env entities = inr r ->
          api_log (snd (TravelAssistantWorkflow.search_hotels env st w))
          = (api_log w ++ [CallSearchHotels r])%list) /\
      api_log (snd (TravelAssistantWorkflow.create_booking env st w))
      = (api_log w
         ++ [CallCreateBooking
               (dict_get entities "booking_type" (JStr "flight"))
               (dict_get entities "booking_id" (JStr "")) entities])%list).
Proof.
  split; [|split; [|split; [reflexivity|split; [reflexivity|]]]].
  - intros r.
    unfold TravelAssistantWorkflow.flight_request_of, FlightSearchRequest_new,
      res_bind.
    destruct (py_int env _) as [e|p] eqn:Hp; [intros [=]|].
    destruct (validate_str "origin" _) as [e|o] eqn:Ho; [intros [=]|].
    destruct (validate_str "destination" _) as [e|d] eqn:Hd; [intros [=]|].
    destruct (validate_str "departure_date" _) as [e|dd] eqn:Hdd; [intros [=]|].
    destruct (validate_opt_str "return_date" _) as [e|rd] eqn:Hrd;
      [intros [=]|].
    destruct (validate_int_range "passengers" 1 9 p) as [e|p'] eqn:Hr;
      [intros [=]|].
    destruct (validate_str "class_type" _) as [e|c] eqn:Hc; [intros [=]|].
    intros [= <-]. simpl.
    apply validate_str_inr in Ho, Hd, Hdd, Hc.
    apply validate_int_range_inr in Hr as [-> Hr].
    repeat split; try (apply passed_or_get; assumption);
      try (apply count_passed_or_one_get; assumption); try lia.
    unfold dict_get_none, dict_get in Hrd.
    destruct (entities !! "return_date") as [[]|]; simpl in Hrd;
      congruence.
  - intros r.
    unfold TravelAssistantWorkflow.hotel_request_of, HotelSearchRequest_new,
      res_bind.
    destruct (py_int env (dict_get entities "guests" _)) as [e|g] eqn:Hg;
      [intros [=]|].
    destruct (py_int env (dict_get entities "rooms" _)) as [e|ro] eqn:Hro;
      [intros [=]|].
    destruct (validate_str "location" _) as [e|l] eqn:Hl; [intros [=]|].
    destruct (validate_str "check_in" _) as [e|ci] eqn:Hci; [intros [=]|].
    destruct (validate_str "check_out" _) as [e|co] eqn:Hco; [intros [=]|].
    destruct (validate_int_range "guests" 1 10 g) as [e|g'] eqn:Hgr;
      [intros [=]|].
    destruct (validate_int_range "rooms" 1 5 ro) as [e|ro'] eqn:Hrr;
      [intros [=]|].
    intros [= <-]. simpl.
    apply validate_str_inr in Hl, Hci, Hco.
    apply validate_int_range_inr in Hgr as [-> Hgr].
    apply validate_int_range_inr in Hrr as [-> Hrr].
    repeat split; try (apply passed_or_get; assumption);
      try (apply count_passed_or_one_get; assumption); lia.
  - intros st w Hent. subst entities. split; [|split].
    + intros r Hr. unfold_branches. rewrite Hr.
      destruct (flights_found env _); reflexivity.
    + intros r Hr. unfold_branches. rewrite Hr.
      destruct (hotels_found env _); reflexivity.
    + unfold_branches. destruct (booking_made env _); reflexivity.
Qed.

End Facts.

(** * The claims at concrete turns *)

Section Instances.
Import Scenario.

(** C1 as stated fails: session s1, the completion service down for the
    extraction and answering the generation request with an empty object.
    The reply carries the session identifier and an empty message. *)
Lemma run_workflow_empty_message :
  "s1" <> "" /\
  exists resp w',
    TravelAssistantWorkflow.run_workflow env_empty_object "hello" "s1" None
      empty_world = (inr resp, w') /\
    session_id resp = "s1" /\ message resp = "".
Proof.
  split; [discriminate|].
  eexists _, _. split; [vm_compute; reflexivity|]. split; reflexivity.
Qed.

Lemma run_workflow_echoes_session_id_witness :
  "s1" <> "" /\
  exists resp w',
    TravelAssistantWorkflow.run_workflow env_empty_object "hello" "s1" None
      empty_world = (inr resp, w') /\
    session_id resp = "s1" /\
    (generation_fails env_empty_object 1 -> message resp = client_apology) /\
    (message resp = client_apology \/ message resp = run_apology \/
     payload_message env_empty_object 1 (message resp)) /\
    (message resp = "" -> payload_message env_empty_object 1 "").
Proof.
  split; [discriminate|].
  apply (run_workflow_echoes_session_id env_empty_object "hello" "s1" None
           empty_world).
  discriminate.
Defined.

(** C2 as stated fails: with the empty session identifier the call is not
    refused; it returns the reply of the turn and writes both entries and
    the session row under the empty identifier. *)
Lemma empty_session_id_writes :
  exists resp w',
    TravelAssistantWorkflow.run_workflow env_ok " hi " "" None empty_world
    = (inr resp, w') /\
    session_id resp = "" /\ message resp = "Hello!" /\
    map (fun r => (cm_session_id r, cm_message_type r, cm_content r))
      (messages w')
    = [("", "user", "hi"); ("", "assistant", "Hello!")] /\
    map cs_session_id (sessions w') = [""].
Proof.
  eexists _, _. split; [vm_compute; reflexivity|]. repeat split; reflexivity.
Qed.

(** C3 as stated fails: the insertion of the assistant entry fails, and the
    user entry, committed before, is the only new entry of the log. *)
Lemma assistant_insert_failure_leaves_user_entry :
  db_fault env_assistant_insert_fails 5%nat = Some service_down /\
  exists resp w',
    TravelAssistantWorkflow.run_workflow env_assistant_insert_fails "hi" "s3"
      None empty_world = (inr resp, w') /\
    message resp = "Hello!" /\
    map (fun r => (cm_session_id r, cm_message_type r, cm_content r))
      (messages w')
    = [("s3", "user", "hi")] /\
    sessions w' = [].
Proof.
  split; [reflexivity|].
  eexists _, _. split; [vm_compute; reflexivity|]. repeat split; reflexivity.
Qed.

(** C4 as stated fails: the payload is an object without a message, and the
    client returns the empty string, not the apology. *)
Lemma missing_message_is_not_the_apology :
  llm_content env_reply_empty_object (length (llm_log empty_world))
  = inr "{}" /\
  json_loads env_reply_empty_object
    (DeepSeekClient._extract_json_from_markdown "{}") = inr (JObj ∅) /\
  exists w',
    DeepSeekClient.generate_response env_reply_empty_object "hello"
      (Some GENERAL_INQUIRY) ∅ (Some []) [] empty_world
    = (inr {| DeepSeekClient.rd_message := JStr "";
              DeepSeekClient.rd_ui_elements := [] |}, w') /\
    JStr "" <> JStr client_apology.
Proof.
  split; [reflexivity|]. split; [reflexivity|].
  eexists. split; [vm_compute; reflexivity|]. discriminate.
Qed.

Lemma generation_failure_gives_apology_witness :
  exists w',
    TravelAssistantWorkflow.generate_response env_empty_object
      (set_intent (Some GREETING)
         (TravelAssistantWorkflow.initial_state "hello" "s1" None))
      empty_world
    = (inr (set_ui_elements []
              (set_response_message (JStr client_apology)
                 (set_intent (Some GREETING)
                    (TravelAssistantWorkflow.initial_state "hello" "s1"
                       None)))),
       w').
Proof.
  destruct (proj2 (generation_failure_gives_apology env_empty_object
                     (set_intent (Some GREETING)
                        (TravelAssistantWorkflow.initial_state "hello" "s1"
                           None))
                     empty_world) GREETING eq_refl)
    as (rd & w' & _ & Hnode & Hfail & _).
  exists w'. rewrite Hnode.
  rewrite (Hfail (generation_transport_error env_empty_object 0
                    service_down eq_refl)).
  reflexivity.
Defined.


(** C7 as stated fails: the flight service is down and the reply of the
    completion service is an empty object. The branch ends with no result,
    and the message of the reply is empty. *)
Lemma flights_down_empty_message :
  flights_found env_flights_down 0%nat = inl service_down /\
  exists resp w',
    TravelAssistantWorkflow.run_workflow env_flights_down "a flight" "s1" None
      empty_world = (inr resp, w') /\
    intent resp = Some SEARCH_FLIGHT /\
    length (api_log w') = 1%nat /\
    results resp = Some [] /\ message resp = "".
Proof.
  split; [reflexivity|].
  eexists _, _. split; [vm_compute; reflexivity|]. repeat split; reflexivity.
Qed.

Lemma collaborator_failure_is_absorbed_witness :
  let c :=
    CallSearchFlights
      {| fs_origin := ""; fs_destination := ""; fs_departure_date := "";
         fs_return_date := None; fs_passengers := 1;
         fs_class_type := "economy" |} in
  exists s3 w3,
    TravelAssistantWorkflow.graph_until_route env_flights_down
      (TravelAssistantWorkflow.initial_state "a flight" "s1" None) empty_world
    = (inr s3, w3) /\
    collaborator_fails env_flights_down s3 w3 service_down c /\
    TravelAssistantWorkflow.dispatch env_flights_down s3 w3
    = (inr (set_api_results (Some [])
              (set_error (Some (str_exn service_down)) s3)),
       set_api_log (api_log w3 ++ [c])%list w3).
Proof.
  intros c.
  match eval vm_compute in
        (TravelAssistantWorkflow.graph_until_route env_flights_down
           (TravelAssistantWorkflow.initial_state "a flight" "s1" None)
           empty_world) with
  | (inr ?s3, ?w3) =>
      exists s3, w3;
      assert (Hroute :
        TravelAssistantWorkflow.graph_until_route env_flights_down
          (TravelAssistantWorkflow.initial_state "a flight" "s1" None)
          empty_world = (inr s3, w3)) by (vm_compute; reflexivity);
      assert (Hfail : collaborator_fails env_flights_down s3 w3 service_down c)
        by (apply flights_fail; vm_compute; reflexivity)
  end.
  split; [exact Hroute|]. split; [exact Hfail|].
  exact (proj1 (collaborator_failure_is_absorbed env_flights_down "a flight"
                  "s1" None empty_world _ _ _ _ Hroute Hfail)).
Defined.

(** C8 as stated fails for the return date: with no entity the flight
    request is built, and its return date is absent, not the empty string.
    It fails for a count that is not an integer too: two and a half
    passengers are passed as two. *)
Lemma flight_request_return_date_default :
  exists r r',
    TravelAssistantWorkflow.flight_request_of env_ok ∅ = inr r /\
    fs_departure_date r = "" /\
    fs_return_date r = None /\ fs_return_date r <> Some "" /\
    TravelAssistantWorkflow.flight_request_of env_ok
      {["passengers" := JFloat 2.5%float]} = inr r' /\
    fs_passengers r' = 2.
Proof.
  eexists _, _. split; [reflexivity|]. simpl.
  do 3 (split; [reflexivity || discriminate|]).
  split; [vm_compute; reflexivity|]. reflexivity.
Qed.

Lemma dispatch_request_defaults_witness :
  exists r,
    TravelAssistantWorkflow.flight_request_of env_ok
      {["origin" := JStr "NYC"]} = inr r /\
    passed_or {["origin" := JStr "NYC"]} "origin" "" (fs_origin r) /\
    passed_or {["origin" := JStr "NYC"]} "destination" "" (fs_destination r) /\
    fs_origin r = "NYC" /\ fs_destination r = "".
Proof.
  eexists.
  assert (H : TravelAssistantWorkflow.flight_request_of env_ok
                {["origin" := JStr "NYC"]} = inr _)
    by (vm_compute; reflexivity).
  split; [exact H|].
  destruct (proj1 (dispatch_request_defaults env_ok {["origin" := JStr "NYC"]})
              _ H) as (Ho & Hd & _).
  split; [exact Ho|]. split; [exact Hd|]. split; reflexivity.
Defined.



(** A fence edged with white space beyond ASCII is read as any other. *)
Example extraction_reads_fence_edged_with_no_break_space :
  fst (DeepSeekClient.extract_intent_and_entities env_fenced_greeting "hello"
         [] empty_world)
  = inr {| ee_intent := GREETING; ee_confidence := 0%float;
           ee_entities := ∅ |}.
Proof. vm_compute. reflexivity. Qed.

(** A confidence that is not a number is out of range. *)
Example not_a_number_falls_back :
  fst (DeepSeekClient.extract_intent_and_entities env_not_a_number "a flight"
         [] empty_world)
  = inr {| ee_intent := GENERAL_INQUIRY; ee_confidence := 0.5%float;
           ee_entities := ∅ |}.
Proof. vm_compute. reflexivity. Qed.

(** Under a clock that does not move, the two entries of a turn carry the
    same time. *)
Example frozen_clock_same_timestamps :
  map cm_timestamp
    (messages
       (snd (TravelAssistantWorkflow.run_workflow
               (with_frozen_clock 7 env_ok) " hi " "s1" None empty_world)))
  = [7%nat; 7%nat].
Proof. vm_compute. reflexivity. Qed.

End Instances.

(** * Further properties *)

(** ** The fenced payload *)

Section Fence.

Lemma strip_prefix_app p rest : Py.strip_prefix p (p +:+ rest) = Some rest.
Proof.
  induction p as [|c p IH]; simpl; [destruct rest; reflexivity|].
  rewrite Ascii.eqb_refl. exact IH.
Qed.

Lemma find_after_no_backquote pre rest :
  no_backquote pre = true ->
  Py.find_after "```json" (pre +:+ "```json" +:+ rest) = Some rest.
Proof.
  induction pre as [|c pre IH]; intros H.
  - change ("" +:+ "```json" +:+ rest) with ("```json" +:+ rest).
    destruct rest; reflexivity.
  - simpl in H. apply andb_true_iff in H as [Hc H].
    change (String c pre +:+ "```json" +:+ rest)
      with (String c (pre +:+ "```json" +:+ rest)).
    cbn [Py.find_after Py.strip_prefix].
    change "`"%char with backquote.
    rewrite Ascii.eqb_sym. apply negb_true_iff in Hc. rewrite Hc.
    apply IH. exact H.
Qed.

Lemma find_after_none text :
  no_backquote text = true -> Py.find_after "```json" text = None.
Proof.
  induction text as [|c text IH]; intros H; [reflexivity|].
  simpl in H. apply andb_true_iff in H as [Hc H].
  cbn [Py.find_after Py.strip_prefix].
  change "`"%char with backquote.
  rewrite Ascii.eqb_sym. apply negb_true_iff in Hc. rewrite Hc.
  apply IH. exact H.
Qed.

(** [lstrip], one character at a time. *)
Lemma lstrip_skip s :
  Py.lstrip s = match Py.skip_space s with
                | Some r => Py.lstrip r
                | None => s
                end.
Proof.
  destruct s as [|a s1]; [reflexivity|].
  cbn [Py.lstrip Py.skip_space]. destruct (Py.is_space a); [reflexivity|].
  destruct s1 as [|b s2]; [reflexivity|].
  destruct (Py.is_space2 a b); [reflexivity|].
  destruct s2 as [|c s3]; [reflexivity|].
  destruct (Py.is_space3 a b c); reflexivity.
Qed.

(** The three ways a text starts with a white-space character. *)
Lemma skip_space_inv s r :
  Py.skip_space s = Some r ->
  (exists a, Py.is_space a = true /\ s = String a r) \/
  (exists a b,
      Py.is_space a = false /\ Py.is_space2 a b = true /\
      s = String a (String b r)) \/
  (exists a b c,
      Py.is_space a = false /\ Py.is_space2 a b = false /\
      Py.is_space3 a b c = true /\ s = String a (String b (String c r))).
Proof.
  destruct s as [|a s1]; [discriminate|]. cbn [Py.skip_space].
  destruct (Py.is_space a) eqn:Ha; [intros [= <-]; eauto|].
  destruct s1 as [|b s2]; [discriminate|].
  destruct (Py.is_space2 a b) eqn:Hb; [intros [= <-]; eauto 8|].
  destruct s2 as [|c s3]; [discriminate|].
  destruct (Py.is_space3 a b c) eqn:Hc; [intros [= <-]|discriminate].
  right. right. exists a, b, c. auto.
Qed.

Lemma skip_space_length s r :
  Py.skip_space s = Some r -> (String.length r < String.length s)%nat.
Proof.
  intros H.
  destruct (skip_space_inv s r H)
    as [(a & _ & ->) | [(a & b & _ & _ & ->) | (a & b & c & _ & _ & _ & ->)]];
    simpl; lia.
Qed.

Lemma skip_space_app s r t :
  Py.skip_space s = Some r -> Py.skip_space (s +:+ t) = Some (r +:+ t).
Proof.
  intros H.
  destruct (skip_space_inv s r H)
    as [(a & Ha & ->)
       | [(a & b & Ha & Hb & ->) | (a & b & c & Ha & Hb & Hc & ->)]];
    clear H; simpl; rewrite Ha, ?Hb, ?Hc; reflexivity.
Qed.

Lemma skip_space_no_backquote s r :
  Py.skip_space s = Some r -> no_backquote s = true -> no_backquote r = true.
Proof.
  intros H.
  destruct (skip_space_inv s r H)
    as [(a & _ & ->) | [(a & b & _ & _ & ->) | (a & b & c & _ & _ & _ & ->)]];
    simpl; intros Hb; repeat (apply andb_true_iff in Hb as [_ Hb]); exact Hb.
Qed.

(** A character of several bytes goes on with continuation bytes, and does
    not start with one. *)
Lemma is_space_starts a : Py.is_space a = true -> continuation a = false.
Proof.
  unfold Py.is_space, continuation. cbv zeta.
  generalize (nat_of_ascii a). intros n H.
  apply orb_true_iff in H as [H|H]; apply andb_true_iff in H as [H1 H2];
    apply Nat.leb_le in H1, H2; apply andb_false_iff; left;
    apply Nat.leb_gt; lia.
Qed.

Lemma is_space2_bytes a b :
  Py.is_space2 a b = true -> continuation a = false /\ continuation b = true.
Proof.
  unfold Py.is_space2, continuation. cbv zeta.
  generalize (nat_of_ascii a) (nat_of_ascii b). intros n m H.
  apply andb_true_iff in H as [Hn Hm]. apply Nat.eqb_eq in Hn. subst n.
  split; [reflexivity|].
  apply orb_true_iff in Hm as [Hm|Hm]; apply Nat.eqb_eq in Hm; subst m;
    reflexivity.
Qed.

Lemma is_space3_bytes a b c :
  Py.is_space3 a b c = true ->
  continuation a = false /\ continuation b = true /\ continuation c = true.
Proof.
  unfold Py.is_space3, continuation. cbv zeta.
  generalize (nat_of_ascii a) (nat_of_ascii b) (nat_of_ascii c).
  intros n m k H.
  repeat match type of H with
         | (_ || _) = true => apply orb_true_iff in H as [H|H]
         end;
    repeat match goal with
           | H : (_ && _) = true |- _ => apply andb_true_iff in H as [? ?]
           | H : (_ || _) = true |- _ => apply orb_true_iff in H as [?|?]
           | H : (_ =? _)%nat = true |- _ => apply Nat.eqb_eq in H; subst
           | H : (_ <=? _)%nat = true |- _ => apply Nat.leb_le in H
           end;
    repeat split; try reflexivity;
    apply andb_true_iff; split; apply Nat.leb_le; lia.
Qed.

Lemma skip_space_starts s r :
  Py.skip_space s = Some r -> starts_character s = true.
Proof.
  intros H.
  destruct (skip_space_inv s r H)
    as [(a & Ha & ->)
       | [(a & b & _ & Hb & ->) | (a & b & c & _ & _ & Hc & ->)]];
    simpl; apply negb_true_iff.
  - apply is_space_starts. exact Ha.
  - apply is_space2_bytes in Hb. tauto.
  - apply is_space3_bytes in Hc. tauto.
Qed.

(** A text that does not start with white space does not start with white
    space either when a text that starts with a character is put after
    it. *)
Lemma skip_space_none_app q t :
  q <> "" -> Py.skip_space q = None -> starts_character t = true ->
  Py.skip_space (q +:+ t) = None.
Proof.
  intros Hq Hn Ht.
  destruct (Py.skip_space (q +:+ t)) as [r|] eqn:Hk; [exfalso|reflexivity].
  destruct q as [|a [|b [|c q]]]; [congruence| | |].
  - destruct t as [|b [|c t]]; simpl in Hn, Hk, Ht;
      destruct (Py.is_space a); try discriminate;
      apply negb_true_iff in Ht.
    + destruct (Py.is_space2 a b) eqn:Hb; [|discriminate].
      apply is_space2_bytes in Hb. destruct Hb. congruence.
    + destruct (Py.is_space2 a b) eqn:Hb.
      * apply is_space2_bytes in Hb. destruct Hb. congruence.
      * destruct (Py.is_space3 a b c) eqn:Hc; [|discriminate].
        apply is_space3_bytes in Hc. destruct Hc as (_ & ? & _). congruence.
  - destruct t as [|c t]; simpl in Hn, Hk, Ht;
      destruct (Py.is_space a); try discriminate;
      destruct (Py.is_space2 a b); try discriminate.
    apply negb_true_iff in Ht.
    destruct (Py.is_space3 a b c) eqn:Hc; [|discriminate].
    apply is_space3_bytes in Hc. destruct Hc as (_ & _ & ?). congruence.
  - simpl in Hn, Hk. destruct (Py.is_space a); [discriminate|].
    destruct (Py.is_space2 a b); [discriminate|].
    destruct (Py.is_space3 a b c); discriminate.
Qed.

Lemma all_space_skip s :
  all_space s = match Py.skip_space s with
                | Some r => all_space r
                | None => String.eqb s ""
                end.
Proof.
  unfold all_space. rewrite lstrip_skip.
  destruct (Py.skip_space s); reflexivity.
Qed.

(** Induction on a text, a white-space character at a time. *)
Lemma skip_space_ind (P : string -> Prop) :
  (forall s, (forall r, Py.skip_space s = Some r -> P r) -> P s) ->
  forall s, P s.
Proof.
  intros Hstep s.
  remember (String.length s) as n eqn:Hn. revert s Hn.
  induction n as [n IH] using lt_wf_ind. intros s ->.
  apply Hstep. intros r Hr. apply (IH (String.length r)); [|reflexivity].
  apply skip_space_length. exact Hr.
Qed.

Lemma lstrip_all_space ws s :
  all_space ws = true -> Py.lstrip (ws +:+ s) = Py.lstrip s.
Proof.
  induction ws as [ws IH] using skip_space_ind. intros H.
  rewrite all_space_skip in H.
  destruct (Py.skip_space ws) as [r|] eqn:Hk.
  - rewrite (lstrip_skip (ws +:+ s)), (skip_space_app _ _ s Hk).
    apply IH; [reflexivity|exact H].
  - apply String.eqb_eq in H. subst ws. reflexivity.
Qed.

(** White space aside, what is put after a text stays after it. *)
Lemma lstrip_app p t :
  all_space p = false -> starts_character t = true ->
  Py.lstrip (p +:+ t) = Py.lstrip p +:+ t.
Proof.
  induction p as [p IH] using skip_space_ind. intros H Ht.
  rewrite all_space_skip in H.
  rewrite (lstrip_skip (p +:+ t)), (lstrip_skip p).
  destruct (Py.skip_space p) as [r|] eqn:Hk.
  - rewrite (skip_space_app _ _ t Hk). apply IH; [reflexivity|exact H|exact Ht].
  - apply String.eqb_neq in H.
    rewrite (skip_space_none_app p t H Hk Ht). reflexivity.
Qed.

Lemma lstrip_no_backquote s :
  no_backquote s = true -> no_backquote (Py.lstrip s) = true.
Proof.
  induction s as [s IH] using skip_space_ind. intros H.
  rewrite lstrip_skip. destruct (Py.skip_space s) as [r|] eqn:Hk; [|exact H].
  apply IH; [reflexivity|]. eapply skip_space_no_backquote; eassumption.
Qed.

Lemma all_space_starts ws : all_space ws = true -> starts_character ws = true.
Proof.
  intros H. rewrite all_space_skip in H.
  destruct (Py.skip_space ws) as [r|] eqn:Hk.
  - eapply skip_space_starts. exact Hk.
  - apply String.eqb_eq in H. subst ws. reflexivity.
Qed.

Lemma fence_starts ws t :
  all_space ws = true -> starts_character (ws +:+ "```" +:+ t) = true.
Proof.
  intros H. destruct ws as [|c ws]; [reflexivity|].
  apply all_space_starts in H. exact H.
Qed.

Lemma length_lstrip s : (String.length (Py.lstrip s) <= String.length s)%nat.
Proof.
  induction s as [s IH] using skip_space_ind.
  rewrite lstrip_skip. destruct (Py.skip_space s) as [r|] eqn:Hk; [|lia].
  specialize (IH r eq_refl). apply skip_space_length in Hk. lia.
Qed.

Lemma length_rstrip s : (String.length (Py.rstrip s) <= String.length s)%nat.
Proof.
  induction s as [|c s IH]; [simpl; lia|].
  cbn [Py.rstrip]. destruct (String.eqb (Py.lstrip (String c s)) "");
    simpl; lia.
Qed.

Lemma strip_fixed p : Py.strip p = p -> Py.lstrip p = p /\ Py.rstrip p = p.
Proof.
  unfold Py.strip. intros H.
  assert (Hl : Py.lstrip p = p).
  { rewrite lstrip_skip. destruct (Py.skip_space p) as [r|] eqn:Hk;
      [|reflexivity].
    pose proof (length_rstrip (Py.lstrip p)) as H1.
    rewrite H in H1. rewrite lstrip_skip, Hk in H1.
    pose proof (length_lstrip r) as H2.
    apply skip_space_length in Hk. lia. }
  rewrite Hl in H. auto.
Qed.

(** A text without backquote that is not all white space, followed by a
    text that starts with a character, does not start, after white space,
    with a fence. *)
Lemma no_fence_ahead p t :
  no_backquote p = true -> all_space p = false ->
  starts_character t = true ->
  Py.strip_prefix "```" (Py.lstrip (p +:+ t)) = None.
Proof.
  intros Hb Hp Ht. rewrite lstrip_app by assumption.
  apply lstrip_no_backquote in Hb. unfold all_space in Hp.
  destruct (Py.lstrip p) as [|c q]; [discriminate|].
  simpl in Hb. apply andb_true_iff in Hb as [Hc _].
  change (String c q +:+ t) with (String c (q +:+ t)).
  cbn [Py.strip_prefix]. change "`"%char with backquote.
  rewrite Ascii.eqb_sym. apply negb_true_iff in Hc. rewrite Hc. reflexivity.
Qed.

Lemma lazy_until_fence_payload p ws2 post :
  no_backquote p = true -> Py.rstrip p = p -> all_space ws2 = true ->
  DeepSeekClient.lazy_until_fence (p +:+ ws2 +:+ "```" +:+ post) = Some p.
Proof.
  induction p as [|c p IH]; intros Hb Hr Hw.
  - change ("" +:+ ws2 +:+ "```" +:+ post) with (ws2 +:+ "```" +:+ post).
    assert (H : Py.strip_prefix "```" (Py.lstrip (ws2 +:+ "```" +:+ post))
                = Some post).
    { rewrite lstrip_all_space by exact Hw.
      change (Py.lstrip ("```" +:+ post)) with ("```" +:+ post).
      apply strip_prefix_app. }
    revert H. generalize (ws2 +:+ "```" +:+ post). intros s H.
    destruct s; [discriminate|].
    cbn [DeepSeekClient.lazy_until_fence]. rewrite H. reflexivity.
  - assert (Hne : all_space (String c p) = false).
    { unfold all_space. cbn [Py.rstrip] in Hr.
      destruct (String.eqb (Py.lstrip (String c p)) ""); [discriminate|].
      reflexivity. }
    pose proof (no_fence_ahead (String c p) (ws2 +:+ "```" +:+ post) Hb Hne
                  (fence_starts ws2 post Hw)) as Hn.
    change (String c p +:+ ws2 +:+ "```" +:+ post)
      with (String c (p +:+ ws2 +:+ "```" +:+ post)) in *.
    cbn [DeepSeekClient.lazy_until_fence]. rewrite Hn.
    simpl in Hb. apply andb_true_iff in Hb as [_ Hb].
    cbn [Py.rstrip] in Hr. unfold all_space in Hne. rewrite Hne in Hr.
    injection Hr as Hr. rewrite IH by assumption. reflexivity.
Qed.

(** X1. A payload without backquote and without white space at its ends,
    put in a block fenced with three backquotes and the word json, with any
    white space around it inside the fence, any text without backquote
    before the block and any text after it, is what
    [_extract_json_from_markdown] returns. White space is what [str.strip]
    and the pattern take for it, the characters beyond ASCII included. *)
Theorem extract_fenced_round_trip pre ws1 p ws2 post :
  no_backquote pre = true -> all_space ws1 = true ->
  no_backquote p = true -> Py.strip p = p ->
  all_space ws2 = true ->
  DeepSeekClient._extract_json_from_markdown
    (pre +:+ "```json" +:+ ws1 +:+ p +:+ ws2 +:+ "```" +:+ post) = p.
Proof.
  intros Hpre Hw1 Hp Hs Hw2.
  destruct (strip_fixed p Hs) as [Hl Hr].
  unfold DeepSeekClient._extract_json_from_markdown.
  rewrite find_after_no_backquote by exact Hpre.
  rewrite lstrip_all_space by exact Hw1.
  destruct p as [|c p].
  - change ("" +:+ ws2 +:+ "```" +:+ post) with (ws2 +:+ "```" +:+ post).
    rewrite lstrip_all_space by exact Hw2.
    change (Py.lstrip ("```" +:+ post)) with ("```" +:+ post).
    change ("```" +:+ post) with ("" +:+ "" +:+ "```" +:+ post).
    rewrite (lazy_until_fence_payload "" "" post); reflexivity.
  - assert (Hne : all_space (String c p) = false).
    { unfold all_space. rewrite Hl. reflexivity. }
    rewrite lstrip_app, Hl by (exact Hne || apply fence_starts; exact Hw2).
    rewrite lazy_until_fence_payload by assumption. exact Hs.
Qed.

Lemma extract_fenced_round_trip_witness :
  DeepSeekClient._extract_json_from_markdown
    ("Sure: " +:+ "```json" +:+ (Py.newline +:+ Py.nbsp) +:+ "{a: 1}"
     +:+ (Py.ideographic_space +:+ Py.newline) +:+ "```"
     +:+ " Anything else?") = "{a: 1}".
Proof.
  apply (extract_fenced_round_trip "Sure: " (Py.newline +:+ Py.nbsp) "{a: 1}"
           (Py.ideographic_space +:+ Py.newline) " Anything else?");
    reflexivity.
Defined.

(** X2. A text without any backquote has no fenced block:
    [_extract_json_from_markdown] returns it as it is, white space
    included. *)
Theorem extract_without_backquote text :
  no_backquote text = true ->
  DeepSeekClient._extract_json_from_markdown text = text.
Proof.
  intros H. unfold DeepSeekClient._extract_json_from_markdown.
  rewrite find_after_none by exact H. reflexivity.
Qed.

Lemma extract_without_backquote_witness :
  DeepSeekClient._extract_json_from_markdown "  {a: 1} " = "  {a: 1} ".
Proof. apply (extract_without_backquote "  {a: 1} "). reflexivity. Defined.

End Fence.

(** ** The store *)

Section StoreFacts.
Context (env : Env).

Lemma insert_desc_perm r l :
  Permutation (DatabaseManager.insert_desc r l) (r :: l).
Proof.
  induction l as [|x l IH]; simpl; [reflexivity|].
  destruct (cm_timestamp x <=? cm_timestamp r)%nat; [reflexivity|].
  rewrite IH. apply perm_swap.
Qed.

Lemma order_by_timestamp_desc_perm l :
  Permutation (DatabaseManager.order_by_timestamp_desc l) l.
Proof.
  induction l as [|x l IH]; simpl; [reflexivity|].
  unfold DatabaseManager.order_by_timestamp_desc in *. simpl.
  rewrite insert_desc_perm, IH. reflexivity.
Qed.

Lemma insert_desc_sorted r l :
  StronglySorted not_older l ->
  StronglySorted not_older (DatabaseManager.insert_desc r l).
Proof.
  unfold not_older. induction l as [|x l IH]; intros Hs; simpl.
  - repeat constructor.
  - inversion Hs as [|? ? Hl Hx]; subst.
    destruct (Nat.leb_spec (cm_timestamp x) (cm_timestamp r)) as [Hle|Hlt].
    + constructor; [exact Hs|]. constructor; [exact Hle|].
      eapply Forall_impl; [exact Hx|]. simpl. intros y Hy. lia.
    + constructor; [apply IH; exact Hl|].
      rewrite (insert_desc_perm r l). constructor; [lia|exact Hx].
Qed.

Lemma order_by_timestamp_desc_sorted l :
  StronglySorted not_older (DatabaseManager.order_by_timestamp_desc l).
Proof.
  unfold DatabaseManager.order_by_timestamp_desc.
  induction l as [|x l IH]; simpl; [constructor|].
  apply insert_desc_sorted. exact IH.
Qed.

Lemma insert_desc_oldest r l :
  Forall (fun x => (cm_timestamp r < cm_timestamp x)%nat) l ->
  DatabaseManager.insert_desc r l = (l ++ [r])%list.
Proof.
  induction l as [|x l IH]; intros H; simpl; [reflexivity|].
  inversion H as [|? ? Hx Hl]; subst.
  destruct (Nat.leb_spec (cm_timestamp x) (cm_timestamp r)); [lia|].
  rewrite IH by exact Hl. reflexivity.
Qed.

(** On a log in the order of time, the most recent first is the reverse of
    the order of insertion. *)
Lemma order_by_timestamp_desc_rev l :
  StronglySorted (fun a b => (cm_timestamp a < cm_timestamp b)%nat) l ->
  DatabaseManager.order_by_timestamp_desc l = rev l.
Proof.
  unfold DatabaseManager.order_by_timestamp_desc.
  induction l as [|x l IH]; intros Hs; simpl; [reflexivity|].
  inversion Hs as [|? ? Hl Hx]; subst.
  rewrite IH by exact Hl. apply insert_desc_oldest.
  apply Forall_forall. intros y Hy.
  apply list_elem_of_In, in_rev, list_elem_of_In in Hy.
  rewrite Forall_forall in Hx. apply Hx. exact Hy.
Qed.

Lemma entries_of_sorted sid l :
  StronglySorted (fun a b => (cm_timestamp a < cm_timestamp b)%nat) l ->
  StronglySorted (fun a b => (cm_timestamp a < cm_timestamp b)%nat)
    (entries_of sid l).
Proof.
  unfold entries_of. induction l as [|x l IH]; intros Hs; [constructor|].
  inversion Hs as [|? ? Hl Hx]; subst.
  rewrite filter_cons. destruct (decide (cm_session_id x = sid)); [|auto].
  constructor; [auto|].
  apply Forall_forall. intros y Hy.
  apply list_elem_of_filter in Hy as [_ Hy].
  rewrite Forall_forall in Hx. apply Hx. exact Hy.
Qed.

(** X3. When [get_conversation_history] returns, it has written nothing, and
    its rows are the most recent entries of the session, the most recent
    first: together with the entries it left out, which come after them in
    that order, they are the entries of the session in the log; with a
    limit n above 0 it returns n rows, or all of them when there are fewer;
    with no limit, or the limit 0, it leaves none out. *)
Theorem history_most_recent_first db sid limit w rows w' :
  DatabaseManager.get_conversation_history env db sid limit w = (inr rows, w') ->
  untouched w w' /\
  exists older,
    Permutation (rows ++ older) (entries_of sid (messages w)) /\
    StronglySorted not_older (rows ++ older) /\
    match limit with
    | Some (S n) => length rows = Nat.min (S n) (length (rows ++ older))
    | Some O | None => older = []
    end.
Proof.
  unfold DatabaseManager.get_conversation_history, DatabaseManager.db_op.
  destruct (db_fault env (db_ops w)); [intros [=]|].
  fold (entries_of sid (messages (set_db_ops (S (db_ops w)) w))).
  simpl. intros [= <- <-]. split; [unfold untouched; simpl; tauto|].
  set (sorted := DatabaseManager.order_by_timestamp_desc
                   (entries_of sid (messages w))).
  assert (Hp : Permutation sorted (entries_of sid (messages w)))
    by apply order_by_timestamp_desc_perm.
  assert (Hs : StronglySorted not_older sorted)
    by apply order_by_timestamp_desc_sorted.
  destruct limit as [[|n]|].
  - exists []. rewrite app_nil_r. auto.
  - exists (drop (S n) sorted). rewrite take_drop. repeat split; try assumption.
    rewrite length_take. reflexivity.
  - exists []. rewrite app_nil_r. auto.
Qed.

(** *** What the store keeps true *)

Lemma preserves_ret (I : World -> Prop) {A} (a : A) : preserves I (ret a).
Proof. intros w H. exact H. Qed.

Lemma preserves_raise (I : World -> Prop) {A} e : preserves I (@raise World A e).
Proof. intros w H. exact H. Qed.

Lemma preserves_lift (I : World -> Prop) {A} (r : exn + A) : preserves I (lift r).
Proof. intros w H. exact H. Qed.

Lemma preserves_bind (I : World -> Prop) {A B} (m : M World A)
    (k : A -> M World B) :
  preserves I m -> (forall a, preserves I (k a)) -> preserves I (bind m k).
Proof.
  intros Hm Hk w H. unfold bind. specialize (Hm w H).
  destruct (m w) as [[e|a] w1]; simpl in *; [exact Hm|].
  apply Hk. exact Hm.
Qed.

Lemma preserves_try (I : World -> Prop) {A} (m : M World A)
    (h : exn -> M World A) :
  preserves I m -> (forall e, preserves I (h e)) -> preserves I (try_except m h).
Proof.
  intros Hm Hh w H. unfold try_except. specialize (Hm w H).
  destruct (m w) as [[e|a] w1]; simpl in *; [|exact Hm].
  apply Hh. exact Hm.
Qed.

Lemma next_id_above {A} (id : A -> nat) rows r :
  In r rows -> (id r < DatabaseManager.next_id id rows)%nat.
Proof.
  unfold DatabaseManager.next_id. induction rows as [|x rows IH]; simpl.
  - intros [].
  - intros [->|H]; [lia|]. specialize (IH H). lia.
Qed.

Lemma next_id_fresh {A} (id : A -> nat) rows :
  ~ In (DatabaseManager.next_id id rows) (map id rows).
Proof.
  intros H. apply in_map_iff in H as (r & Hr & Hin).
  pose proof (next_id_above id rows r Hin). lia.
Qed.

Lemma NoDup_snoc {A} (l : list A) x : NoDup l -> ~ In x l -> NoDup (l ++ [x]).
Proof.
  intros Hl Hx. apply NoDup_app. repeat split.
  - exact Hl.
  - intros y Hy Hy'. apply list_elem_of_In in Hy.
    apply list_elem_of_singleton in Hy'. subst. contradiction.
  - apply NoDup_singleton.
Qed.

Lemma utcnow_consistent :
  preserves store_consistent (DatabaseManager.utcnow env).
Proof. intros w H. exact H. Qed.

Lemma db_op_consistent {A} (body : M World A) :
  preserves store_consistent body ->
  preserves store_consistent (DatabaseManager.db_op env body).
Proof.
  intros Hb w H. unfold DatabaseManager.db_op.
  destruct (db_fault env (db_ops w)); [exact H|]. apply Hb. exact H.
Qed.

Lemma create_message_consistent db m :
  preserves store_consistent (DatabaseManager.create_message env db m).
Proof.
  apply db_op_consistent. intros w (Hm & Hi & Hs).
  unfold bind, DatabaseManager.utcnow. simpl.
  split; [|split]; try assumption; simpl.
  rewrite map_app. simpl. apply NoDup_snoc; [exact Hm|]. apply next_id_fresh.
Qed.

Lemma get_conversation_history_consistent db sid limit :
  preserves store_consistent
    (DatabaseManager.get_conversation_history env db sid limit).
Proof. apply db_op_consistent. intros w H. exact H. Qed.

Lemma get_db_consistent : preserves store_consistent (DatabaseManager.get_db env).
Proof. apply db_op_consistent. apply preserves_ret. Qed.

Lemma close_consistent db : preserves store_consistent (DatabaseManager.close env db).
Proof. apply db_op_consistent. apply preserves_ret. Qed.

Lemma map_replace_session {B} (f : ConversationSession -> B) sid s' l s :
  find_session sid l = Some s -> f s' = f s ->
  map f (DatabaseManager.replace_session sid s' l) = map f l.
Proof.
  unfold find_session. induction l as [|x l IH]; simpl; [discriminate|].
  destruct (String.eqb (cs_session_id x) sid); simpl.
  - intros [= ->] ->. reflexivity.
  - intros H1 H2. rewrite IH by assumption. reflexivity.
Qed.

Lemma find_session_none sid l :
  find_session sid l = None -> ~ In sid (map cs_session_id l).
Proof.
  unfold find_session. intros H Hin. apply in_map_iff in Hin as (s & Hs & Hin).
  pose proof (find_none _ _ H s Hin) as Hn. simpl in Hn.
  rewrite Hs, String.eqb_refl in Hn. discriminate.
Qed.

Lemma create_or_update_session_consistent db sid uid ctx :
  preserves store_consistent
    (DatabaseManager.create_or_update_session env db sid uid ctx).
Proof.
  apply db_op_consistent. intros w (Hm & Hi & Hs).
  fold (find_session sid (sessions w)).
  destruct (find_session sid (sessions w)) as [s|] eqn:Hf;
    unfold bind, DatabaseManager.utcnow; simpl;
    (split; [|split]); simpl; try assumption.
  - rewrite (map_replace_session cs_id sid _ _ s Hf) by reflexivity. exact Hi.
  - rewrite (map_replace_session cs_session_id sid _ _ s Hf) by reflexivity.
    exact Hs.
  - rewrite map_app. simpl. apply NoDup_snoc; [exact Hi|]. apply next_id_fresh.
  - rewrite map_app. simpl. apply NoDup_snoc; [exact Hs|].
    apply find_session_none. exact Hf.
Qed.

Lemma make_request_consistent messages t :
  preserves store_consistent (DeepSeekClient._make_request env messages t).
Proof.
  intros w H. rewrite make_request_world. exact H.
Qed.

Lemma api_call_with_consistent {A} c (answer : nat -> exn + A) :
  preserves store_consistent (MockExternalAPIs.api_call_with c answer).
Proof. intros w H. exact H. Qed.

(** Goes through a computation built from the operations above. *)
Ltac keeps :=
  repeat first
    [ apply preserves_ret | apply preserves_raise | apply preserves_lift
    | apply get_db_consistent | apply close_consistent
    | apply get_conversation_history_consistent
    | apply create_message_consistent
    | apply create_or_update_session_consistent
    | apply utcnow_consistent
    | apply make_request_consistent | apply api_call_with_consistent
    | apply preserves_bind; [|intros ?]
    | apply preserves_try; [|intros ?]
    | match goal with
      | |- preserves _ (if ?b then _ else _) => destruct b
      | |- preserves _ (match ?x with _ => _ end) => destruct x
      end ].

Lemma preprocess_input_consistent st :
  preserves store_consistent (TravelAssistantWorkflow.preprocess_input env st).
Proof. unfold TravelAssistantWorkflow.preprocess_input. cbv zeta. keeps. Qed.

Lemma extract_node_consistent st :
  preserves store_consistent
    (TravelAssistantWorkflow.extract_intent_and_entities env st).
Proof.
  unfold TravelAssistantWorkflow.extract_intent_and_entities,
    DeepSeekClient.extract_intent_and_entities. cbv zeta. keeps.
Qed.

Lemma dispatch_consistent st :
  preserves store_consistent (TravelAssistantWorkflow.dispatch env st).
Proof.
  unfold TravelAssistantWorkflow.dispatch. rewrite conditional_edges_route.
  destruct (ws_intent st) as [[]|]; simpl;
    unfold TravelAssistantWorkflow.search_flights,
      TravelAssistantWorkflow.search_hotels,
      TravelAssistantWorkflow.create_booking,
      TravelAssistantWorkflow.handle_general_inquiry,
      TravelAssistantWorkflow.dispatch_failed,
      MockExternalAPIs.search_flights, MockExternalAPIs.search_hotels,
      MockExternalAPIs.create_booking; cbv zeta; keeps.
Qed.

Lemma generate_node_consistent st :
  preserves store_consistent (TravelAssistantWorkflow.generate_response env st).
Proof.
  unfold TravelAssistantWorkflow.generate_response,
    DeepSeekClient.generate_response. cbv zeta. keeps.
Qed.

Lemma store_node_consistent st :
  preserves store_consistent (TravelAssistantWorkflow.store_conversation env st).
Proof.
  unfold TravelAssistantWorkflow.store_conversation,
    TravelAssistantWorkflow.store_body. keeps.
Qed.

Lemma run_workflow_consistent input sid uid :
  preserves store_consistent
    (TravelAssistantWorkflow.run_workflow env input sid uid).
Proof.
  unfold TravelAssistantWorkflow.run_workflow,
    TravelAssistantWorkflow.graph_ainvoke,
    TravelAssistantWorkflow.graph_until_store,
    TravelAssistantWorkflow.graph_until_route,
    TravelAssistantWorkflow.route_request,
    TravelAssistantWorkflow.AssistantResponse_new.
  repeat first
    [ apply preprocess_input_consistent | apply extract_node_consistent
    | apply dispatch_consistent | apply generate_node_consistent
    | apply store_node_consistent | apply utcnow_consistent
    | apply preserves_ret | apply preserves_lift
    | apply preserves_bind; [|intros ?]
    | apply preserves_try; [|intros ?] ].
Qed.

(** X4. A turn keeps the keys of the store consistent, whatever fails on
    the way: the primary keys of the log entries and of the session rows
    stay unique, and no session identifier gets a second row. *)
Theorem run_workflow_keeps_store_consistent input sid uid w :
  store_consistent w ->
  store_consistent
    (snd (TravelAssistantWorkflow.run_workflow env input sid uid w)).
Proof.
  intros H. destruct H as (Hm & Hi & Hs).
  apply (run_workflow_consistent input sid uid w).
  split; [exact Hm|]. split; [exact Hi|exact Hs].
Qed.

(** *** The session rows *)

Lemma find_session_replace_other sid sid' s' l :
  sid' <> sid -> cs_session_id s' = sid ->
  find_session sid' (DatabaseManager.replace_session sid s' l)
  = find_session sid' l.
Proof.
  unfold find_session. intros Hne Hs'. induction l as [|x l IH]; simpl;
    [reflexivity|].
  destruct (String.eqb_spec (cs_session_id x) sid) as [Hx|Hx]; simpl.
  - rewrite Hs', Hx. destruct (String.eqb_spec sid sid'); [congruence|].
    reflexivity.
  - destruct (String.eqb (cs_session_id x) sid'); [reflexivity|exact IH].
Qed.

Lemma find_session_append_other sid sid' s l :
  sid' <> sid -> cs_session_id s = sid ->
  find_session sid' (l ++ [s]) = find_session sid' l.
Proof.
  unfold find_session. intros Hne Hs. induction l as [|x l IH]; simpl.
  - rewrite Hs. destruct (String.eqb_spec sid sid'); [congruence|reflexivity].
  - destruct (String.eqb (cs_session_id x) sid'); [reflexivity|exact IH].
Qed.

(** X5. When [create_or_update_session] returns, the session has its row
    and the rows of the other sessions are as they were. For a session that
    had a row, only the last activity moves, to the time the call reads on
    the clock (and the context, when a non-empty one is given): the primary
    key, the creation time and the user identifier stay, whatever user
    identifier the call was given, and no row is added. For a new session
    one row is added, with the user identifier and the context of the call,
    its two times being read on the clock during the call. The log is not
    touched. *)
Theorem upsert_session_row db sid uid ctx w s w' :
  DatabaseManager.create_or_update_session env db sid uid ctx w = (inr s, w') ->
  messages w' = messages w /\
  cs_session_id s = sid /\
  find_session sid (sessions w') = Some s /\
  (forall sid', sid' <> sid ->
                find_session sid' (sessions w') = find_session sid' (sessions w)) /\
  match find_session sid (sessions w) with
  | Some old =>
      cs_id s = cs_id old /\ cs_user_id s = cs_user_id old /\
      cs_created_at s = cs_created_at old /\
      cs_last_activity s = utcnow_at env (clock w) /\
      cs_context s = (if DatabaseManager.truthy_dict ctx then ctx
                      else cs_context old) /\
      length (sessions w') = length (sessions w)
  | None =>
      cs_user_id s = uid /\ cs_context s = ctx /\
      (exists i j,
          (clock w <= i < clock w')%nat /\ (clock w <= j < clock w')%nat /\
          cs_created_at s = utcnow_at env i /\
          cs_last_activity s = utcnow_at env j) /\
      length (sessions w') = S (length (sessions w))
  end.
Proof.
  unfold DatabaseManager.create_or_update_session, DatabaseManager.db_op,
    DatabaseManager.utcnow, bind.
  destruct (db_fault env (db_ops w)); [intros [=]|].
  simpl. fold (find_session sid (sessions w)).
  destruct (find_session sid (sessions w)) as [old|] eqn:Hf;
    intros [= <- <-]; simpl.
  - pose proof (find_session_sid _ _ _ Hf) as Hsid.
    split; [reflexivity|]. split; [exact Hsid|]. split.
    { eapply find_session_replace; [exact Hf|exact Hsid]. }
    split.
    { intros sid' Hne.
      apply (find_session_replace_other sid sid'); [exact Hne|exact Hsid]. }
    rewrite length_replace_session. tauto.
  - split; [reflexivity|]. split; [reflexivity|]. split.
    { apply find_session_new; [exact Hf|reflexivity]. }
    split.
    { intros sid' Hne.
      apply (find_session_append_other sid sid'); [exact Hne|reflexivity]. }
    rewrite length_app. simpl. repeat split; try lia.
    exists (clock w), (S (clock w)). repeat split; lia.
Qed.

(** *** The history a turn starts with *)

Lemma preprocess_input_history st w :
  exists st' w',
    TravelAssistantWorkflow.preprocess_input env st w = (inr st', w') /\
    ws_user_input st' = Py.strip (ws_user_input st) /\
    (length (ws_conversation_history st') <= 10)%nat /\
    (db_fault env (db_ops w) = None ->
     db_fault env (S (db_ops w)) = None ->
     db_fault env (S (S (db_ops w))) = None ->
     ws_conversation_history st'
     = map history_line
         (rev (take 10 (DatabaseManager.order_by_timestamp_desc
                          (entries_of (ws_session_id st) (messages w)))))) /\
    (db_fault env (db_ops w) <> None \/
     db_fault env (S (db_ops w)) <> None \/
     db_fault env (S (S (db_ops w))) <> None ->
     ws_conversation_history st' = []).
Proof.
  unfold TravelAssistantWorkflow.preprocess_input, bind, try_except,
    DatabaseManager.get_db, DatabaseManager.get_conversation_history,
    DatabaseManager.close, DatabaseManager.db_op, ret.
  simpl. fold (entries_of (ws_session_id st) (messages w)).
  destruct (db_fault env (db_ops w)) eqn:H0; simpl.
  { do 2 eexists. split; [reflexivity|]. simpl.
    repeat split; try lia; try reflexivity. intros [=]. }
  destruct (db_fault env (S (db_ops w))) eqn:H1; simpl.
  { do 2 eexists. split; [reflexivity|]. simpl.
    repeat split; try lia; try reflexivity. intros _ [=]. }
  destruct (db_fault env (S (S (db_ops w)))) eqn:H2; simpl.
  { do 2 eexists. split; [reflexivity|]. simpl.
    repeat split; try lia; try reflexivity. intros _ _ [=]. }
  do 2 eexists. split; [reflexivity|]. simpl.
  split; [reflexivity|]. split.
  { rewrite length_map, length_rev, length_take. lia. }
  split; [reflexivity|]. intros [H|[H|H]]; congruence.
Qed.

Lemma rev_take_rev {A} n (l : list A) : rev (take n (rev l)) = last_n n l.
Proof. unfold last_n. rewrite firstn_rev, rev_involutive. reflexivity. Qed.

(** X6. [preprocess_input] always returns, with the input stripped and a
    history of ten lines at most. When the store answers and the entries of
    the session are in the log in the order of their times, no two of them
    at the same time, the history is the last ten entries of the session,
    oldest first, each as its role, a colon and its content; when one of the
    three store operations fails, the history is empty. *)
Theorem history_is_last_ten st w :
  exists st' w',
    TravelAssistantWorkflow.preprocess_input env st w = (inr st', w') /\
    ws_user_input st' = Py.strip (ws_user_input st) /\
    (length (ws_conversation_history st') <= 10)%nat /\
    (db_fault env (db_ops w) = None ->
     db_fault env (S (db_ops w)) = None ->
     db_fault env (S (S (db_ops w))) = None ->
     time_ordered (entries_of (ws_session_id st) (messages w)) ->
     ws_conversation_history st'
     = map history_line
         (last_n 10 (entries_of (ws_session_id st) (messages w)))) /\
    (db_fault env (db_ops w) <> None \/
     db_fault env (S (db_ops w)) <> None \/
     db_fault env (S (S (db_ops w))) <> None ->
     ws_conversation_history st' = []).
Proof.
  destruct (preprocess_input_history st w)
    as (st' & w' & Hrun & Hin & Hlen & Hok & Hfail).
  exists st', w'. repeat split; try assumption.
  intros H0 H1 H2 Hs. rewrite (Hok H0 H1 H2).
  rewrite order_by_timestamp_desc_rev by exact Hs.
  rewrite rev_take_rev. reflexivity.
Qed.

(** *** What a turn writes *)

Lemma create_message_row db m w r w1 :
  DatabaseManager.create_message env db m w = (r, w1) ->
  match r with
  | inl _ => messages w1 = messages w
  | inr row =>
      messages w1 = (messages w ++ [row])%list /\
      entry_with (mc_session_id m) (mc_user_id m) (mc_message_type m)
        (mc_content m) row /\
      cm_extra_metadata row = mc_metadata m /\
      cm_timestamp row = utcnow_at env (clock w)
  end.
Proof.
  unfold DatabaseManager.create_message, DatabaseManager.db_op,
    DatabaseManager.utcnow, bind, entry_with.
  destruct (db_fault env (db_ops w)); intros [= <- <-]; simpl; tauto.
Qed.

Lemma create_or_update_session_messages db sid uid ctx w r w1 :
  DatabaseManager.create_or_update_session env db sid uid ctx w = (r, w1) ->
  messages w1 = messages w.
Proof.
  intros H. apply create_or_update_session_inv in H. tauto.
Qed.

(** The entries the store step adds carry the identifiers, the input and
    the reply of the turn state. *)
Lemma store_body_entries st w :
  exists added,
    messages (snd (TravelAssistantWorkflow.store_body env st w))
    = (messages w ++ added)%list /\
    turn_entries (ws_session_id st) (ws_user_id st) (ws_user_input st)
      (ws_response_message st) added.
Proof.
  unfold TravelAssistantWorkflow.store_body, bind, lift, MessageCreate_new,
    res_bind.
  destruct (DatabaseManager.get_db env w) as [[e|db] w1] eqn:H1;
    apply get_db_inv in H1; destruct H1 as (Hm1 & _); simpl.
  { exists []. rewrite app_nil_r. split; [exact Hm1|exact I]. }
  destruct (DatabaseManager.create_message env db _ w1) as [[e|u] w2] eqn:H2;
    apply create_message_row in H2; simpl in *.
  { exists []. rewrite app_nil_r. split; [congruence|exact I]. }
  destruct H2 as (Hm2 & Hu & _).
  destruct (validate_str "content" (ws_response_message st)) as [e|c] eqn:Hc;
    simpl.
  { exists [u]. split; [congruence|exact Hu]. }
  apply validate_str_inr in Hc.
  destruct (DatabaseManager.create_message env db _ w2) as [[e|a] w3] eqn:H3;
    apply create_message_row in H3; simpl in *.
  { exists [u]. split; [congruence|exact Hu]. }
  destruct H3 as (Hm3 & Ha & _).
  assert (Hlog : messages w3 = (messages w ++ [u; a])%list).
  { rewrite Hm3, Hm2, Hm1, <- app_assoc. reflexivity. }
  assert (Hturn : turn_entries (ws_session_id st) (ws_user_id st)
                    (ws_user_input st) (ws_response_message st) [u; a]).
  { split; [exact Hu|]. exists c. split; [exact Hc|exact Ha]. }
  destruct (DatabaseManager.create_or_update_session env db _ _ _ w3)
    as [[e|s] w4] eqn:H4;
    apply create_or_update_session_messages in H4; simpl.
  { exists [u; a]. split; [congruence|exact Hturn]. }
  destruct (DatabaseManager.close env db w4) as [[e|[]] w5] eqn:H5;
    apply close_inv in H5; destruct H5 as (Hm5 & _); simpl;
    exists [u; a]; (split; [congruence|exact Hturn]).
Qed.

(** The input the store step sees is the input of the call, stripped. *)
Lemma graph_until_store_input input sid uid w s5 w5 :
  TravelAssistantWorkflow.graph_until_store env
    (TravelAssistantWorkflow.initial_state input sid uid) w = (inr s5, w5) ->
  ws_user_input s5 = Py.strip input.
Proof.
  intros H5.
  destruct (graph_until_store_inv env input sid uid w)
    as (s3 & w3 & s4 & w4 & s5' & w5' & Hroute & _ & _ & H5' & Hd & Hg & _).
  rewrite H5 in H5'. injection H5' as <- <-.
  destruct (graph_until_route_inv env input sid uid w)
    as (s1 & w1 & ee & w3' & Hpre & _ & _ & Hroute' & _).
  rewrite Hroute in Hroute'. injection Hroute' as -> <-.
  destruct (post_inv _ _ _
              (preprocess_input_post env
                 (TravelAssistantWorkflow.initial_state input sid uid) w))
    as (s1' & w1' & Hpre' & _ & _ & _ & _ & Hin & _).
  rewrite Hpre in Hpre'. injection Hpre' as <- <-.
  destruct Hd as (_ & _ & _ & _ & Hi4 & _).
  destruct Hg as (_ & Hi5 & _).
  rewrite Hi5, Hi4. simpl. exact Hin.
Qed.

Lemma stored_turn input sid uid w :
  exists resp w' added,
    TravelAssistantWorkflow.run_workflow env input sid uid w = (inr resp, w') /\
    messages w' = (messages w ++ added)%list /\
    turn_entries sid uid (Py.strip input) (JStr (message resp)) added.
Proof.
  destruct (graph_ainvoke_inv env input sid uid w)
    as (s5 & w5 & s6 & H5 & H6 & (Hm5 & _) & Hsid & Huid & _ & Hmsg & _).
  destruct (run_workflow_inv env input sid uid w)
    as (s6' & w6 & resp & w' & H6' & Hrun & (Hm & _) & _ & Hresp).
  rewrite H6 in H6'. injection H6' as <- <-.
  destruct (store_body_entries s5 w5) as (added & Hadd & Hturn).
  pose proof (graph_until_store_input input sid uid w s5 w5 H5) as Hin.
  rewrite Hsid, Huid, Hin in Hturn. rewrite Hm5 in Hadd.
  exists resp, w', added. split; [exact Hrun|]. split; [congruence|].
  destruct added as [|u [|a [|x added]]]; simpl in *; try assumption.
  destruct Hturn as (Hu & reply & Hreply & Ha). split; [exact Hu|].
  exists reply. split; [|exact Ha].
  rewrite Hmsg, Hreply in Hresp. destruct Hresp as [-> _]. reflexivity.
Qed.

(** X7. What a turn adds to the log is what was said in it. The log after
    the call is the log before it followed by nothing, by the user entry,
    or by the user entry and the assistant entry, in this order; an entry
    carries the session and user identifiers of the call, the user entry
    has the stripped input as content, and the assistant entry has the
    message of the reply. *)
Theorem stored_entries_match_turn input sid uid w :
  exists resp w',
    TravelAssistantWorkflow.run_workflow env input sid uid w = (inr resp, w') /\
    (messages w' = messages w \/
     (exists u,
         messages w' = (messages w ++ [u])%list /\
         entry_with sid uid "user" (Py.strip input) u) \/
     (exists u a,
         messages w' = (messages w ++ [u; a])%list /\
         entry_with sid uid "user" (Py.strip input) u /\
         entry_with sid uid "assistant" (message resp) a)).
Proof.
  destruct (stored_turn input sid uid w)
    as (resp & w' & added & Hrun & Hadd & Hturn).
  exists resp, w'. split; [exact Hrun|].
  destruct added as [|u [|a [|x added]]]; simpl in Hturn.
  - left. rewrite Hadd, app_nil_r. reflexivity.
  - right. left. exists u. split; [exact Hadd|exact Hturn].
  - right. right. exists u, a. split; [exact Hadd|].
    destruct Hturn as (Hu & reply & [= <-] & Ha). split; [exact Hu|exact Ha].
  - contradiction.
Qed.

Lemma entries_of_app sid l k :
  entries_of sid (l ++ k) = (entries_of sid l ++ entries_of sid k)%list.
Proof. unfold entries_of. apply filter_app. Qed.

(** X8. A turn remembers the one before it. When a turn has written both
    its entries, and the entries of the session are then in the log in the
    order of their times, no two of them at the same time, the next turn of
    the session, if the store answers its three operations, starts with a
    history whose last two lines are the user line with the stripped input
    of that turn and the assistant line with the message of its reply, after
    eight older lines at most. *)
Theorem next_turn_remembers input sid uid w resp w1 u a st :
  TravelAssistantWorkflow.run_workflow env input sid uid w = (inr resp, w1) ->
  messages w1 = (messages w ++ [u; a])%list ->
  time_ordered (entries_of sid (messages w1)) ->
  ws_session_id st = sid ->
  db_fault env (db_ops w1) = None ->
  db_fault env (S (db_ops w1)) = None ->
  db_fault env (S (S (db_ops w1))) = None ->
  exists st' w2 earlier,
    TravelAssistantWorkflow.preprocess_input env st w1 = (inr st', w2) /\
    ws_conversation_history st'
    = (earlier ++ ["user: " +:+ Py.strip input;
                   "assistant: " +:+ message resp])%list /\
    (length earlier <= 8)%nat.
Proof.
  intros Hrun Hlog Hs Hsid H0 H1 H2.
  destruct (stored_turn input sid uid w)
    as (resp' & w1' & added & Hrun' & Hadd & Hturn).
  rewrite Hrun in Hrun'. injection Hrun' as <- <-.
  rewrite Hlog in Hadd. apply app_inv_head in Hadd. subst added.
  destruct Hturn
    as ((Hus & _ & Hut & Huc) & reply & [= <-] & (Has & _ & Hat & Hac)).
  destruct (preprocess_input_history st w1)
    as (st' & w2 & Hpre & _ & _ & Hok & _).
  exists st', w2,
    (map history_line
       (drop (length (entries_of sid (messages w)) + 2 - 10)
          (entries_of sid (messages w)))).
  split; [exact Hpre|].
  rewrite (Hok H0 H1 H2), Hsid.
  rewrite order_by_timestamp_desc_rev by exact Hs.
  rewrite rev_take_rev. unfold last_n.
  rewrite Hlog, entries_of_app.
  assert (Hua : entries_of sid [u; a] = [u; a]).
  { unfold entries_of. rewrite !filter_cons, filter_nil.
    destruct (decide (cm_session_id u = sid)); [|contradiction].
    destruct (decide (cm_session_id a = sid)); [|contradiction].
    reflexivity. }
  rewrite Hua, length_app. simpl length.
  rewrite drop_app_le by lia. rewrite map_app. split.
  - f_equal. unfold history_line. simpl. rewrite Hut, Huc, Hat, Hac.
    reflexivity.
  - rewrite length_map, length_drop. lia.
Qed.

(** *** Housekeeping *)

Lemma NoDup_map_filter {A B} (f : A -> B) (P : A -> Prop)
    `{forall x, Decision (P x)} (l : list A) :
  NoDup (map f l) -> NoDup (map f (filter P l)).
Proof.
  induction l as [|x l IH]; simpl; [auto|].
  rewrite NoDup_cons. intros [Hx Hl]. rewrite filter_cons.
  destruct (decide (P x)); [|auto]. simpl. apply NoDup_cons. split; [|auto].
  intros Hin. apply Hx. apply list_elem_of_In in Hin.
  apply list_elem_of_In, in_map_iff.
  apply in_map_iff in Hin as (y & Hy & Hin). exists y. split; [exact Hy|].
  apply list_elem_of_In. apply list_elem_of_In in Hin.
  apply list_elem_of_filter in Hin. tauto.
Qed.

(** On a log in the order of time, the entries at or after a cutoff are
    an end of the log. *)
Lemma recent_is_suffix cutoff l :
  time_sorted l ->
  exists k,
    filter (fun r => ~ Z.of_nat (cm_timestamp r) < cutoff) l = drop k l.
Proof.
  unfold time_sorted.
  induction l as [|x l IH]; intros Hs; [exists 0%nat; reflexivity|].
  inversion Hs as [|? ? Hl Hx]; subst. rewrite filter_cons.
  destruct (decide (~ Z.of_nat (cm_timestamp x) < cutoff)) as [Hk|Hk].
  - exists 0%nat. simpl. f_equal. clear IH Hs Hl.
    induction l as [|y l IH]; [reflexivity|].
    inversion Hx as [|? ? Hy Hl]; subst. rewrite filter_cons.
    destruct (decide (~ Z.of_nat (cm_timestamp y) < cutoff)); [|lia].
    f_equal. apply IH. exact Hl.
  - destruct (IH Hl) as [k Hk']. exists (S k). exact Hk'.
Qed.

Lemma hours_before_inv hour datetime_max now hours :
  let t := Z.of_nat now - hours * Z.of_nat hour in
  match Housekeeping.hours_before hour datetime_max now hours with
  | inl e =>
      exn_kind_of e = OverflowError /\ (t < 0 \/ Z.of_nat datetime_max < t)
  | inr t' => t' = t /\ 0 <= t <= Z.of_nat datetime_max
  end.
Proof.
  unfold Housekeeping.hours_before. cbv zeta.
  destruct (Z.ltb_spec (Z.of_nat now - hours * Z.of_nat hour) 0);
    destruct (Z.ltb_spec (Z.of_nat datetime_max)
                (Z.of_nat now - hours * Z.of_nat hour)); simpl;
    split; try reflexivity; lia.
Qed.

(** X9. [cleanup_old_sessions] computes its cutoff first, the time it
    reads on the clock less the hours given, and raises [OverflowError],
    before any operation on the store, when the cutoff is not a time a
    [datetime] can hold. It deletes under one commit: whenever it raises,
    both tables are as they were. When it returns, the cutoff is such a
    time; an entry is kept if and only if it is not older than the cutoff,
    and so is a session row, by its last activity; the keys of the store
    stay consistent; and when the log was in the order of time, what is
    left of it is an end of the log, the entries deleted being the first
    ones. *)
Theorem cleanup_deletes_the_oldest hour datetime_max db hours w r w' :
  Housekeeping.cleanup_old_sessions env hour datetime_max db hours w = (r, w') ->
  let cutoff := Z.of_nat (utcnow_at env (clock w)) - hours * Z.of_nat hour in
  match r with
  | inl e =>
      messages w' = messages w /\ sessions w' = sessions w /\
      (cutoff < 0 \/ Z.of_nat datetime_max < cutoff ->
       exn_kind_of e = OverflowError /\ db_ops w' = db_ops w)
  | inr _ =>
      0 <= cutoff <= Z.of_nat datetime_max /\
      (forall x, x ∈ messages w' <->
                 x ∈ messages w /\ cutoff <= Z.of_nat (cm_timestamp x)) /\
      (forall s, s ∈ sessions w' <->
                 s ∈ sessions w /\ cutoff <= Z.of_nat (cs_last_activity s)) /\
      (store_consistent w -> store_consistent w') /\
      (time_sorted (messages w) -> exists k, messages w' = drop k (messages w))
  end.
Proof.
  unfold Housekeeping.cleanup_old_sessions, bind, DatabaseManager.utcnow,
    DatabaseManager.db_op, lift.
  pose proof (hours_before_inv hour datetime_max (utcnow_at env (clock w))
                hours) as Hc.
  cbv zeta in Hc.
  destruct (Housekeeping.hours_before hour datetime_max
              (utcnow_at env (clock w)) hours) as [e|t].
  { intros [= <- <-]. simpl. tauto. }
  destruct Hc as [-> Hrange]. simpl.
  destruct (db_fault env (db_ops w)); intros [= <- <-]; simpl.
  { repeat split; lia. }
  split; [exact Hrange|]. split; [|split; [|split]].
  - intros x. rewrite list_elem_of_filter. split; intros [H1 H2]; split;
      try assumption; lia.
  - intros s. rewrite list_elem_of_filter. split; intros [H1 H2]; split;
      try assumption; lia.
  - intros (Hm & Hi & Hs). split; [|split]; simpl.
    + apply NoDup_map_filter. exact Hm.
    + apply NoDup_map_filter. exact Hi.
    + apply NoDup_map_filter. exact Hs.
  - apply recent_is_suffix.
Qed.

(** X10. The cleanup task never raises. The log it leaves is the log as it
    was, when the cutoff could not be computed or a store operation failed
    before the commit, or the entries not older than 24 hours before the
    time the task read on the clock. *)
Theorem cleanup_task_never_raises hour datetime_max w :
  exists w',
    Housekeeping.cleanup_task env hour datetime_max w = (inr tt, w') /\
    (messages w' = messages w /\ sessions w' = sessions w \/
     messages w'
     = filter (fun x => ~ Z.of_nat (cm_timestamp x)
                         < Z.of_nat (utcnow_at env (clock w))
                           - 24 * Z.of_nat hour)
         (messages w) /\
     sessions w'
     = filter (fun s => ~ Z.of_nat (cs_last_activity s)
                         < Z.of_nat (utcnow_at env (clock w))
                           - 24 * Z.of_nat hour)
         (sessions w)).
Proof.
  unfold Housekeeping.cleanup_task, Housekeeping.cleanup_old_sessions,
    try_except, bind, ret, lift, DatabaseManager.get_db, DatabaseManager.close,
    DatabaseManager.utcnow, DatabaseManager.db_op.
  simpl.
  destruct (db_fault env (db_ops w)); simpl; [eauto|].
  pose proof (hours_before_inv hour datetime_max (utcnow_at env (clock w)) 24)
    as Hc.
  cbv zeta in Hc.
  destruct (Housekeeping.hours_before hour datetime_max
              (utcnow_at env (clock w)) 24) as [e|t]; simpl; [eauto|].
  destruct Hc as [-> _].
  destruct (db_fault env (S (db_ops w))); simpl; [eauto|].
  destruct (db_fault env (S (S (db_ops w)))); simpl; eauto.
Qed.
End StoreFacts.

Section StoreInstances.
Import Scenario.

Lemma empty_world_consistent : store_consistent empty_world.
Proof.
  repeat split; simpl; try apply NoDup_nil_2; constructor.
Qed.

Lemma world_after_hello_consistent : store_consistent world_after_hello.
Proof.
  apply (run_workflow_consistent env_ok " hi " "s1" None empty_world).
  apply empty_world_consistent.
Qed.

Lemma history_most_recent_first_witness :
  exists rows w',
    DatabaseManager.get_conversation_history env_ok
      DatabaseManager.SessionLocal "s1" (Some 1%nat) world_after_hello
    = (inr rows, w') /\
    untouched world_after_hello w' /\
    map cm_content rows = ["Hello!"].
Proof.
  match eval vm_compute in
        (DatabaseManager.get_conversation_history env_ok
           DatabaseManager.SessionLocal "s1" (Some 1%nat) world_after_hello)
  with
  | (inr ?rows, ?w') =>
      exists rows, w';
      assert (H : DatabaseManager.get_conversation_history env_ok
                    DatabaseManager.SessionLocal "s1" (Some 1%nat)
                    world_after_hello = (inr rows, w'))
        by (vm_compute; reflexivity)
  end.
  split; [exact H|]. split; [|reflexivity].
  exact (proj1 (history_most_recent_first env_ok _ _ _ _ _ _ H)).
Defined.

Lemma run_workflow_keeps_store_consistent_witness :
  store_consistent empty_world /\
  store_consistent
    (snd (TravelAssistantWorkflow.run_workflow env_assistant_insert_fails
            "hi" "s3" None empty_world)).
Proof.
  split; [apply empty_world_consistent|].
  apply (run_workflow_keeps_store_consistent env_assistant_insert_fails "hi"
           "s3" None empty_world).
  apply empty_world_consistent.
Defined.

Lemma upsert_session_row_witness :
  exists s w',
    DatabaseManager.create_or_update_session env_ok
      DatabaseManager.SessionLocal "s1" (Some "somebody else") None
      world_after_hello = (inr s, w') /\
    cs_user_id s = None /\ length (sessions w') = 1%nat.
Proof.
  match eval vm_compute in
        (DatabaseManager.create_or_update_session env_ok
           DatabaseManager.SessionLocal "s1" (Some "somebody else") None
           world_after_hello)
  with
  | (inr ?s, ?w') =>
      exists s, w';
      assert (H : DatabaseManager.create_or_update_session env_ok
                    DatabaseManager.SessionLocal "s1" (Some "somebody else")
                    None world_after_hello = (inr s, w'))
        by (vm_compute; reflexivity)
  end.
  split; [exact H|].
  pose proof (upsert_session_row env_ok _ _ _ _ _ _ _ H) as (_ & _ & _ & _ & Hold).
  split; reflexivity.
Defined.

(** After the first turn of session s1 under a clock that moves between
    two readings, its two entries are in the order of their times. *)
Lemma world_after_hello_ordered :
  time_ordered (entries_of "s1" (messages world_after_hello)).
Proof.
  unfold time_ordered.
  match eval vm_compute in (entries_of "s1" (messages world_after_hello)) with
  | ?l =>
      assert (E : entries_of "s1" (messages world_after_hello) = l)
        by (vm_compute; reflexivity)
  end.
  rewrite E. repeat (constructor; simpl; try lia).
Qed.

Lemma history_is_last_ten_witness :
  exists st' w',
    TravelAssistantWorkflow.preprocess_input env_ok
      (TravelAssistantWorkflow.initial_state "and now?" "s1" None)
      world_after_hello = (inr st', w') /\
    ws_conversation_history st' = ["user: hi"; "assistant: Hello!"].
Proof.
  destruct (history_is_last_ten env_ok
              (TravelAssistantWorkflow.initial_state "and now?" "s1" None)
              world_after_hello)
    as (st' & w' & Hrun & _ & _ & Hok & _).
  exists st', w'. split; [exact Hrun|].
  rewrite (Hok eq_refl eq_refl eq_refl world_after_hello_ordered).
  reflexivity.
Defined.

Lemma next_turn_remembers_witness :
  exists st' w2 earlier,
    TravelAssistantWorkflow.preprocess_input env_ok
      (TravelAssistantWorkflow.initial_state "and now?" "s1" None)
      world_after_hello = (inr st', w2) /\
    ws_conversation_history st'
    = (earlier ++ ["user: " +:+ Py.strip " hi "; "assistant: " +:+ "Hello!"])%list /\
    (length earlier <= 8)%nat.
Proof.
  match eval vm_compute in
        (TravelAssistantWorkflow.run_workflow env_ok " hi " "s1" None
           empty_world)
  with
  | (inr ?resp, ?w1) =>
      match eval vm_compute in (messages w1) with
      | [?u; ?a] =>
          assert (Hrun : TravelAssistantWorkflow.run_workflow env_ok " hi "
                           "s1" None empty_world = (inr resp, w1))
            by (vm_compute; reflexivity);
          assert (Hw : world_after_hello = w1)
            by (unfold world_after_hello; rewrite Hrun; reflexivity);
          pose proof (next_turn_remembers env_ok " hi " "s1" None empty_world
                        resp w1 u a
                        (TravelAssistantWorkflow.initial_state "and now?"
                           "s1" None) Hrun) as H
      end
  end.
  rewrite Hw. apply H; try reflexivity.
  rewrite <- Hw. exact world_after_hello_ordered.
Defined.

Lemma cleanup_deletes_the_oldest_witness :
  exists w',
    Housekeeping.cleanup_old_sessions env_ok 60 1000
      DatabaseManager.SessionLocal 0 world_after_hello = (inr tt, w') /\
    (forall x, x ∈ messages w' <->
               x ∈ messages world_after_hello /\
               Z.of_nat (utcnow_at env_ok (clock world_after_hello))
               - 0 * Z.of_nat 60 <= Z.of_nat (cm_timestamp x)).
Proof.
  match eval vm_compute in
        (Housekeeping.cleanup_old_sessions env_ok 60 1000
           DatabaseManager.SessionLocal 0 world_after_hello)
  with
  | (inr tt, ?w') =>
      exists w';
      assert (H : Housekeeping.cleanup_old_sessions env_ok 60 1000
                    DatabaseManager.SessionLocal 0 world_after_hello
                  = (inr tt, w'))
        by (vm_compute; reflexivity)
  end.
  split; [exact H|].
  pose proof (cleanup_deletes_the_oldest env_ok 60 1000 _ 0 _ _ _ H)
    as (_ & Hkept & _).
  exact Hkept.
Defined.

End StoreInstances.

(** ** The workflow *)

Section WorkflowFacts.
Context (env : Env).

(** A dispatch branch calls one collaborator at most, and nothing else. *)
Lemma dispatch_api_log st w :
  let w' := snd (TravelAssistantWorkflow.dispatch env st w) in
  llm_log w' = llm_log w /\
  (api_log w' = api_log w \/ exists c, api_log w' = (api_log w ++ [c])%list).
Proof.
  unfold TravelAssistantWorkflow.dispatch. rewrite conditional_edges_route.
  destruct (ws_intent st) as [[]|]; simpl; unfold_branches.
  - destruct (TravelAssistantWorkflow.flight_request_of env _); simpl; [auto|].
    destruct (flights_found env _); simpl; eauto.
  - destruct (TravelAssistantWorkflow.hotel_request_of env _); simpl; [auto|].
    destruct (hotels_found env _); simpl; eauto.
  - destruct (booking_made env _); simpl; eauto.
  - auto.
  - auto.
  - auto.
Qed.

(** The two requests of a turn, and its one call at most. *)
Lemma run_workflow_logs input sid uid w :
  exists resp w' h i ents res,
    TravelAssistantWorkflow.run_workflow env input sid uid w = (inr resp, w') /\
    (length h <= 10)%nat /\
    llm_log w'
    = (llm_log w
       ++ [(DeepSeekClient.extract_messages env (Py.strip input) h, 0.3%float);
           (DeepSeekClient.generate_messages env (Py.strip input)
              (IntentType_value i) ents res h, 0.8%float)])%list /\
    (api_log w' = api_log w \/ exists c, api_log w' = (api_log w ++ [c])%list).
Proof.
  destruct (graph_until_route_inv env input sid uid w)
    as (s1 & w1 & ee & w3 & Hpre & Hl1 & Hee & Hroute & _ & Ha3 & _).
  destruct (preprocess_input_history env
              (TravelAssistantWorkflow.initial_state input sid uid) w)
    as (s1' & w1' & Hpre' & Hin & Hlen & _).
  rewrite Hpre in Hpre'. injection Hpre' as <- <-. simpl in Hin.
  destruct (client_extract_total env (ws_user_input s1)
              (ws_conversation_history s1) w1) as [ee' Hee'].
  rewrite Hee in Hee'. injection Hee' as <- Hw3.
  destruct (graph_until_store_inv env input sid uid w)
    as (s3 & w3' & s4 & w4 & s5 & w5 & Hroute' & Hdis & Hgen & H5 & Hd & Hg & _).
  rewrite Hroute in Hroute'. injection Hroute' as <- <-.
  pose proof (dispatch_api_log
                (set_confidence (ee_confidence ee)
                   (set_entities (ee_entities ee)
                      (set_intent (Some (ee_intent ee)) s1))) w3) as Hlog4.
  rewrite Hdis in Hlog4. simpl in Hlog4. destruct Hlog4 as [Hl4 Ha4].
  destruct Hd as (_ & _ & _ & _ & Hi4 & Hh4 & Hint4 & He4 & _).
  simpl in Hi4, Hh4, Hint4, He4.
  destruct (generate_node_client env s4 w4 (ee_intent ee) Hint4)
    as (rd & w5' & Hc & Hn).
  rewrite Hgen in Hn. injection Hn as _ <-.
  destruct (client_generate_total env (ws_user_input s4) (ee_intent ee)
              (ws_entities s4) (ws_api_results s4)
              (ws_conversation_history s4) w4) as [rd' Hrd'].
  rewrite Hc in Hrd'. injection Hrd' as _ Hw5.
  destruct (graph_ainvoke_inv env input sid uid w)
    as (s5' & w5'' & s6 & H5' & H6 & _).
  rewrite H5 in H5'. injection H5' as <- <-.
  destruct (run_workflow_inv env input sid uid w)
    as (s6' & w6 & resp & w' & H6' & Hrun & (_ & _ & Hl & Ha) & _).
  rewrite H6 in H6'. injection H6' as <- <-.
  pose proof (store_body_spec env s5 w5) as (Hl6 & Ha6 & _).
  exists resp, w', (ws_conversation_history s1), (ee_intent ee),
    (ws_entities s4), (ws_api_results s4).
  split; [exact Hrun|]. split; [exact Hlen|]. split.
  - rewrite Hl, Hl6, Hw5. simpl. rewrite Hl4, Hw3. simpl.
    rewrite Hl1, <- app_assoc, Hi4, Hh4, Hin. reflexivity.
  - rewrite Ha, Ha6, Hw5. simpl. rewrite Ha3 in Ha4. exact Ha4.
Qed.

(** X11. Every turn asks the completion service exactly twice, first for
    the extraction, at temperature 0.3, and then for the reply, at
    temperature 0.8, both prompts being built from the stripped input and
    from the same history of ten lines at most; and it calls one search or
    booking collaborator at most. *)
Theorem turn_call_budget input sid uid w :
  exists resp w' h i ents res,
    TravelAssistantWorkflow.run_workflow env input sid uid w = (inr resp, w') /\
    (length h <= 10)%nat /\
    llm_log w'
    = (llm_log w
       ++ [(DeepSeekClient.extract_messages env (Py.strip input) h, 0.3%float);
           (DeepSeekClient.generate_messages env (Py.strip input)
              (IntentType_value i) ents res h, 0.8%float)])%list /\
    (length (api_log w') <= S (length (api_log w)))%nat.
Proof.
  destruct (run_workflow_logs input sid uid w)
    as (resp & w' & h & i & ents & res & Hrun & Hlen & Hl & Ha).
  exists resp, w', h, i, ents, res. repeat split; try assumption.
  destruct Ha as [-> | [c ->]]; [lia|]. rewrite length_app. simpl. lia.
Qed.

(** When the collaborator of the branch taken returns, the branch has called
    it once and keeps what it found. *)
Lemma dispatch_collaborator_answers st w found c :
  collaborator_answers env st w found c ->
  TravelAssistantWorkflow.dispatch env st w
  = (inr (set_api_results (Some found) st),
     set_api_log (api_log w ++ [c])%list w).
Proof.
  intros H. unfold TravelAssistantWorkflow.dispatch.
  rewrite conditional_edges_route.
  destruct H as [r fl Hi Hr He -> | r ho Hi Hr He -> | b Hi He ->];
    rewrite Hi; simpl; unfold_branches; rewrite ?Hr, He; reflexivity.
Qed.

(** The general branch calls nothing. *)
Lemma dispatch_general st w :
  TravelAssistantWorkflow.route_condition st = "general" ->
  TravelAssistantWorkflow.dispatch env st w
  = (inr (set_api_results (Some []) st), w).
Proof.
  unfold TravelAssistantWorkflow.dispatch. rewrite conditional_edges_route.
  unfold TravelAssistantWorkflow.route_condition.
  destruct (ws_intent st) as [[]|]; simpl; try discriminate; reflexivity.
Qed.

(** From the routing point to the reply, in a turn whose dispatch branch
    sets no error: the generation request carries the results of the branch,
    and the caller gets them, unless the reply is the apology of the
    workflow. *)
Lemma turn_after_dispatch input sid uid w s3 w3 found w4 :
  TravelAssistantWorkflow.graph_until_route env
    (TravelAssistantWorkflow.initial_state input sid uid) w = (inr s3, w3) ->
  TravelAssistantWorkflow.dispatch env s3 w3
  = (inr (set_api_results (Some found) s3), w4) ->
  exists i s5 w5 resp w',
    ws_intent s3 = Some i /\
    TravelAssistantWorkflow.graph_until_store env
      (TravelAssistantWorkflow.initial_state input sid uid) w = (inr s5, w5) /\
    ws_api_results s5 = Some found /\ ws_error s5 = None /\
    w5 = asked (DeepSeekClient.generate_messages env (ws_user_input s3)
                  (IntentType_value i) (ws_entities s3) (Some found)
                  (ws_conversation_history s3)) 0.8%float w4 /\
    TravelAssistantWorkflow.run_workflow env input sid uid w = (inr resp, w') /\
    api_log w' = api_log w4 /\
    (results resp = Some found \/ message resp = run_apology).
Proof.
  intros Hroute Hdis.
  destruct (graph_until_route_inv env input sid uid w)
    as (s1 & w1 & ee & w3' & _ & _ & _ & Hroute' & _ & _ & _ & _ & Herr).
  rewrite Hroute in Hroute'. injection Hroute' as Hs3 <-.
  assert (Hi3 : ws_intent s3 = Some (ee_intent ee)) by (subst s3; reflexivity).
  assert (He3 : ws_error s3 = None) by (subst s3; exact Herr).
  clear Hs3.
  destruct (graph_until_store_inv env input sid uid w)
    as (s3' & w3' & s4 & w4' & s5 & w5 & Hroute' & Hdis' & Hgen & H5 & _).
  rewrite Hroute in Hroute'. injection Hroute' as <- <-.
  rewrite Hdis in Hdis'. injection Hdis' as <- <-.
  destruct (generate_node_client env (set_api_results (Some found) s3) w4
              (ee_intent ee) Hi3) as (rd & w5' & Hc & Hn).
  rewrite Hgen in Hn. injection Hn as -> <-.
  destruct (client_generate_total env (ws_user_input s3) (ee_intent ee)
              (ws_entities s3) (Some found) (ws_conversation_history s3) w4)
    as [rd' Hrd'].
  pose proof (eq_trans (eq_sym Hc) Hrd') as Heq. injection Heq as _ Hw5.
  clear Hc Hrd'.
  destruct (run_workflow_store env input sid uid w)
    as (s5' & w5' & resp & w' & H5' & Hrun & _ & _ & Hres & _).
  rewrite H5 in H5'. injection H5' as <- <-.
  destruct (graph_ainvoke_inv env input sid uid w)
    as (s5' & w5' & s6 & H5' & H6 & _).
  rewrite H5 in H5'. injection H5' as <- <-.
  destruct (run_workflow_inv env input sid uid w)
    as (s6' & w6 & resp' & w'' & H6' & Hrun' & (_ & _ & _ & Ha) & _).
  rewrite Hrun in Hrun'. injection Hrun' as <- <-.
  rewrite H6 in H6'. injection H6' as _ <-.
  pose proof (store_body_spec env
                (set_ui_elements (DeepSeekClient.rd_ui_elements rd)
                   (set_response_message (DeepSeekClient.rd_message rd)
                      (set_api_results (Some found) s3))) w5) as (_ & Ha6 & _).
  exists (ee_intent ee). do 4 eexists.
  split; [exact Hi3|]. split; [exact H5|]. split; [reflexivity|].
  split; [exact He3|]. split; [exact Hw5|]. split; [exact Hrun|].
  split; [|exact Hres].
  rewrite Ha, Ha6, Hw5. reflexivity.
Qed.

(** X12. When the collaborator of the branch taken returns, the branch has
    called it once, keeps what it found and sets no error; the generation
    request is built from these results, and the caller gets them, unless
    the reply is the apology of the workflow. No other collaborator is
    called in the turn. *)
Theorem collaborator_results_reach_the_caller input sid uid w s3 w3 found c :
  TravelAssistantWorkflow.graph_until_route env
    (TravelAssistantWorkflow.initial_state input sid uid) w = (inr s3, w3) ->
  collaborator_answers env s3 w3 found c ->
  exists i s5 w5 resp w',
    ws_intent s3 = Some i /\
    TravelAssistantWorkflow.graph_until_store env
      (TravelAssistantWorkflow.initial_state input sid uid) w = (inr s5, w5) /\
    ws_api_results s5 = Some found /\ ws_error s5 = None /\
    llm_log w5
    = (llm_log w3
       ++ [(DeepSeekClient.generate_messages env (ws_user_input s3)
              (IntentType_value i) (ws_entities s3) (Some found)
              (ws_conversation_history s3), 0.8%float)])%list /\
    TravelAssistantWorkflow.run_workflow env input sid uid w = (inr resp, w') /\
    api_log w' = (api_log w ++ [c])%list /\
    (results resp = Some found \/ message resp = run_apology).
Proof.
  intros Hroute Hans.
  pose proof (dispatch_collaborator_answers _ _ _ _ Hans) as Hdis.
  destruct (turn_after_dispatch _ _ _ _ _ _ _ _ Hroute Hdis)
    as (i & s5 & w5 & resp & w' & Hi & H5 & Hres5 & Herr & Hw5 & Hrun & Ha
        & Hres).
  destruct (graph_until_route_inv env input sid uid w)
    as (s1 & w1 & ee & w3' & _ & _ & _ & Hroute' & _ & Ha3 & _).
  rewrite Hroute in Hroute'. injection Hroute' as _ <-.
  exists i, s5, w5, resp, w'. repeat split; try assumption.
  - rewrite Hw5. reflexivity.
  - rewrite Ha. simpl. rewrite Ha3. reflexivity.
Qed.

(** X13. A turn routed to the general branch, which is every turn whose
    extracted intent is a general inquiry or a greeting, calls no search or
    booking collaborator: the results are the empty list, no error is set,
    and the generation request is built without results. *)
Theorem general_branch_calls_nothing input sid uid w s3 w3 :
  TravelAssistantWorkflow.graph_until_route env
    (TravelAssistantWorkflow.initial_state input sid uid) w = (inr s3, w3) ->
  TravelAssistantWorkflow.route_condition s3 = "general" ->
  exists i s5 w5 resp w',
    (i = GENERAL_INQUIRY \/ i = GREETING) /\ ws_intent s3 = Some i /\
    TravelAssistantWorkflow.graph_until_store env
      (TravelAssistantWorkflow.initial_state input sid uid) w = (inr s5, w5) /\
    ws_api_results s5 = Some [] /\ ws_error s5 = None /\
    llm_log w5
    = (llm_log w3
       ++ [(DeepSeekClient.generate_messages env (ws_user_input s3)
              (IntentType_value i) (ws_entities s3) (Some [])
              (ws_conversation_history s3), 0.8%float)])%list /\
    TravelAssistantWorkflow.run_workflow env input sid uid w = (inr resp, w') /\
    api_log w' = api_log w /\
    (results resp = Some [] \/ message resp = run_apology).
Proof.
  intros Hroute Hgeneral.
  pose proof (dispatch_general s3 w3 Hgeneral) as Hdis.
  destruct (turn_after_dispatch _ _ _ _ _ _ _ _ Hroute Hdis)
    as (i & s5 & w5 & resp & w' & Hi & H5 & Hres5 & Herr & Hw5 & Hrun & Ha
        & Hres).
  destruct (graph_until_route_inv env input sid uid w)
    as (s1 & w1 & ee & w3' & _ & _ & _ & Hroute' & _ & Ha3 & _).
  rewrite Hroute in Hroute'. injection Hroute' as _ <-.
  exists i, s5, w5, resp, w'. repeat split; try assumption.
  - unfold TravelAssistantWorkflow.route_condition in Hgeneral.
    rewrite Hi in Hgeneral. destruct i; try discriminate; auto.
  - rewrite Hw5. reflexivity.
  - rewrite Ha. exact Ha3.
Qed.

(** X14. The chat endpoint never answers with an internal server error:
    whatever the completion service, the collaborators and the store do, it
    returns the reply of the workflow, with the session identifier of the
    request. *)
Theorem chat_never_fails request w :
  exists response w',
    chat_with_assistant env request w = (inr response, w') /\
    session_id response = tr_session_id request.
Proof.
  unfold chat_with_assistant.
  destruct (run_workflow_inv env (tr_message request) (tr_session_id request)
              (tr_user_id request) w)
    as (s6 & w6 & resp & w' & _ & -> & _ & Hsid & _).
  eauto.
Qed.
End WorkflowFacts.

Section WorkflowInstances.
Import Scenario.

Lemma collaborator_results_reach_the_caller_witness :
  let c :=
    CallSearchFlights
      {| fs_origin := ""; fs_destination := ""; fs_departure_date := "";
         fs_return_date := None; fs_passengers := 1;
         fs_class_type := "economy" |} in
  exists s3 w3 resp w',
    TravelAssistantWorkflow.graph_until_route env_one_flight
      (TravelAssistantWorkflow.initial_state "a flight" "s1" None) empty_world
    = (inr s3, w3) /\
    collaborator_answers env_one_flight s3 w3 [FlightDict one_flight] c /\
    TravelAssistantWorkflow.run_workflow env_one_flight "a flight" "s1" None
      empty_world = (inr resp, w') /\
    api_log w' = [c] /\
    (results resp = Some [FlightDict one_flight] \/ message resp = run_apology).
Proof.
  intros c.
  match eval vm_compute in
        (TravelAssistantWorkflow.graph_until_route env_one_flight
           (TravelAssistantWorkflow.initial_state "a flight" "s1" None)
           empty_world) with
  | (inr ?s3, ?w3) =>
      exists s3, w3;
      assert (Hroute :
        TravelAssistantWorkflow.graph_until_route env_one_flight
          (TravelAssistantWorkflow.initial_state "a flight" "s1" None)
          empty_world = (inr s3, w3)) by (vm_compute; reflexivity);
      assert (Hans : collaborator_answers env_one_flight s3 w3
                       [FlightDict one_flight] c)
        by (eapply flights_answer; vm_compute; reflexivity)
  end.
  destruct (collaborator_results_reach_the_caller env_one_flight "a flight"
              "s1" None empty_world _ _ _ _ Hroute Hans)
    as (i & s5 & w5 & resp & w' & _ & _ & _ & _ & _ & Hrun & Ha & Hres).
  exists resp, w'. split; [exact Hroute|]. split; [exact Hans|].
  split; [exact Hrun|]. split; [exact Ha|exact Hres].
Defined.

Lemma general_branch_calls_nothing_witness :
  exists s3 w3 resp w',
    TravelAssistantWorkflow.graph_until_route env_ok
      (TravelAssistantWorkflow.initial_state "hello" "s1" None) empty_world
    = (inr s3, w3) /\
    TravelAssistantWorkflow.route_condition s3 = "general" /\
    TravelAssistantWorkflow.run_workflow env_ok "hello" "s1" None empty_world
    = (inr resp, w') /\
    api_log w' = [].
Proof.
  match eval vm_compute in
        (TravelAssistantWorkflow.graph_until_route env_ok
           (TravelAssistantWorkflow.initial_state "hello" "s1" None)
           empty_world) with
  | (inr ?s3, ?w3) =>
      exists s3, w3;
      assert (Hroute :
        TravelAssistantWorkflow.graph_until_route env_ok
          (TravelAssistantWorkflow.initial_state "hello" "s1" None)
          empty_world = (inr s3, w3)) by (vm_compute; reflexivity);
      assert (Hgeneral : TravelAssistantWorkflow.route_condition s3 = "general")
        by (vm_compute; reflexivity)
  end.
  destruct (general_branch_calls_nothing env_ok "hello" "s1" None empty_world
              _ _ Hroute Hgeneral)
    as (i & s5 & w5 & resp & w' & _ & _ & _ & _ & _ & _ & Hrun & Ha & _).
  exists resp, w'. split; [exact Hroute|]. split; [exact Hgeneral|].
  split; [exact Hrun|exact Ha].
Defined.
End WorkflowInstances.

(** ** The client *)

Section ClientFacts.
Context (env : Env).

Lemma UIElement_round_trip u : UIElement_new (UIElement_dict u) = inr u.
Proof. destruct u as [ty tx ac [d|]]; reflexivity. Qed.

Lemma build_ui_elements_built l us :
  DeepSeekClient.build_ui_elements l = inr us <-> elements_built l us.
Proof.
  unfold elements_built. revert us. induction l as [|x l IH]; intros us; simpl.
  - split; [intros [= <-]; constructor|intros H; inversion H; reflexivity].
  - split.
    + destruct (UIElement_new x) as [e|u] eqn:Hx; simpl; [discriminate|].
      destruct (DeepSeekClient.build_ui_elements l) as [e|us'] eqn:Hl; simpl;
        [discriminate|].
      intros [= <-]. constructor; [exact Hx|]. apply IH. reflexivity.
    + intros H. inversion H as [|x' u l' us' Hx Hl]; subst.
      rewrite Hx. simpl. apply IH in Hl. rewrite Hl. reflexivity.
Qed.

Lemma build_ui_elements_bad l x e :
  In x l -> UIElement_new x = inl e ->
  exists e', DeepSeekClient.build_ui_elements l = inl e'.
Proof.
  induction l as [|y l IH]; simpl; [tauto|].
  intros [->|Hin] Hx.
  - rewrite Hx. simpl. eauto.
  - destruct (UIElement_new y); simpl; [eauto|].
    destruct (IH Hin Hx) as [e' ->]. simpl. eauto.
Qed.

(** X15. The UI elements of a reply survive the store: [UIElement], called
    on the dicts that [store_conversation] writes in the metadata of the
    assistant entry, gives the elements back, in order. *)
Theorem ui_elements_round_trip us :
  DeepSeekClient.build_ui_elements (map UIElement_dict us) = inr us.
Proof.
  apply build_ui_elements_built. unfold elements_built.
  induction us as [|u us IH]; simpl; constructor; [|exact IH].
  apply UIElement_round_trip.
Qed.

(** X16. One unacceptable UI element discards the whole reply: when the
    payload of the generation request is an object whose ui_elements list
    has an element that [UIElement] refuses, the client returns its apology
    and no element, whatever the message and the other elements are. *)
Theorem one_bad_element_discards_the_reply input i ents res hist w text m l x e :
  llm_content env (length (llm_log w)) = inr text ->
  json_loads env (DeepSeekClient._extract_json_from_markdown text)
  = inr (JObj m) ->
  m !! "ui_elements" = Some (JArr l) ->
  In x l -> UIElement_new x = inl e ->
  fst (DeepSeekClient.generate_response env input (Some i) ents res hist w)
  = inr {| DeepSeekClient.rd_message := JStr client_apology;
           DeepSeekClient.rd_ui_elements := [] |}.
Proof.
  intros He Hp Hl Hin Hx.
  destruct (build_ui_elements_bad l x e Hin Hx) as [e' Hbad].
  apply client_generate_fallback.
  eapply generation_bad_ui_element; eassumption.
Qed.

(** X17. What the extraction returns is either its fallback or read out of
    the payload: then the content was not blank, the payload parsed to an
    object, the intent is the member of the enumeration named under the key
    intent, the confidence is the value under the key confidence, or 0.0
    when there is none, and the entities are the object under the key
    entities, or empty when there is none. In both cases the confidence is
    a number from 0 to 1. *)
Theorem extraction_is_fallback_or_payload input hist w :
  exists ee,
    fst (DeepSeekClient.extract_intent_and_entities env input hist w) = inr ee /\
    PrimFloat.leb 0 (ee_confidence ee) = true /\
    PrimFloat.leb (ee_confidence ee) 1 = true /\
    (ee = {| ee_intent := GENERAL_INQUIRY; ee_confidence := 0.5%float;
             ee_entities := ∅ |} \/
     exists text m,
       llm_content env (length (llm_log w)) = inr text /\
       Py.blank text = false /\
       json_loads env (DeepSeekClient._extract_json_from_markdown text)
       = inr (JObj m) /\
       m !! "intent" = Some (JStr (IntentType_value (ee_intent ee))) /\
       DeepSeekClient.validate_float env "confidence"
         (dict_get m "confidence" (JFloat 0%float)) = inr (ee_confidence ee) /\
       dict_get m "entities" (JObj ∅) = JObj (ee_entities ee)).
Proof.
  unfold DeepSeekClient.extract_intent_and_entities, try_except, bind,
    DeepSeekClient._make_request.
  destruct (llm_content env _) as [e|text] eqn:He.
  { rewrite extraction_fallback_value. eexists. simpl. eauto. }
  destruct (Py.blank text) eqn:Hb.
  { rewrite extraction_fallback_value. eexists. simpl. eauto. }
  cbv beta iota. rewrite Hb. unfold lift at 1.
  destruct (json_loads env _) as [e|parsed] eqn:Hp.
  { rewrite extraction_fallback_value. eexists. simpl. eauto. }
  unfold lift at 1.
  destruct (DeepSeekClient.getitem parsed "intent") as [e|iv] eqn:Hg.
  { rewrite extraction_fallback_value. eexists. simpl. eauto. }
  unfold lift at 1.
  destruct (IntentType_call iv) as [e|i] eqn:Hc.
  { rewrite extraction_fallback_value. eexists. simpl. eauto. }
  apply IntentType_call_inr in Hc. subst iv.
  destruct parsed as [| | | | | |m]; unfold raise, lift;
    try (rewrite extraction_fallback_value; eexists; simpl; eauto; fail).
  unfold DeepSeekClient.getitem in Hg.
  destruct (m !! "intent") as [v|] eqn:Hi; [|discriminate].
  injection Hg as ->.
  unfold DeepSeekClient.ExtractedEntities_new, res_bind.
  destruct (DeepSeekClient.validate_float env "confidence" _) as [e|f] eqn:Hf.
  { rewrite extraction_fallback_value. eexists. simpl. eauto. }
  unfold DeepSeekClient.validate_float_range.
  destruct (PrimFloat.leb f 1) eqn:H1; simpl.
  2:{ rewrite extraction_fallback_value. eexists. simpl. eauto. }
  destruct (PrimFloat.leb 0 f) eqn:H0; simpl.
  2:{ rewrite extraction_fallback_value. eexists. simpl. eauto. }
  destruct (dict_get m "entities" (JObj ∅)) as [| | | | | |ents] eqn:Hents;
    simpl;
    try (rewrite extraction_fallback_value; eexists; simpl; eauto; fail).
  eexists. simpl. split; [reflexivity|]. split; [exact H0|].
  split; [exact H1|]. right. exists text, m. auto 10.
Qed.

(** X18. A well-formed payload is returned as it is: when the content is
    not blank and its payload parses to an object with an intent of the
    enumeration, a confidence, given or defaulted, that is a number from 0
    to 1, and entities, given or defaulted, that are an object, the
    extraction returns that intent, that confidence and those entities. *)
Theorem well_formed_extraction_is_returned input hist w text m i f ents :
  llm_content env (length (llm_log w)) = inr text ->
  Py.blank text = false ->
  json_loads env (DeepSeekClient._extract_json_from_markdown text)
  = inr (JObj m) ->
  m !! "intent" = Some (JStr (IntentType_value i)) ->
  DeepSeekClient.validate_float env "confidence"
    (dict_get m "confidence" (JFloat 0%float)) = inr f ->
  PrimFloat.leb 0 f = true -> PrimFloat.leb f 1 = true ->
  dict_get m "entities" (JObj ∅) = JObj ents ->
  fst (DeepSeekClient.extract_intent_and_entities env input hist w)
  = inr {| ee_intent := i; ee_confidence := f; ee_entities := ents |}.
Proof.
  intros He Hb Hp Hi Hf H0 H1 Hents.
  unfold DeepSeekClient.extract_intent_and_entities, try_except, bind,
    DeepSeekClient._make_request.
  rewrite He, Hb. cbv beta iota. rewrite Hb, Hp. unfold lift at 1 2.
  unfold DeepSeekClient.getitem. rewrite Hi. unfold lift at 1.
  assert (Hc : IntentType_call (JStr (IntentType_value i)) = inr i)
    by (destruct i; reflexivity).
  rewrite Hc. unfold lift, DeepSeekClient.ExtractedEntities_new, res_bind.
  rewrite Hf. unfold DeepSeekClient.validate_float_range. rewrite H1, H0, Hents.
  reflexivity.
Qed.

(** X19. What the generation returns is either the apology of the client
    with no UI element, or read out of the payload: then the payload parsed
    to an object, the message is the value under the key message, or the
    empty string when there is none, and the UI elements are built from the
    list under the key ui_elements, one for one, or none when the key is
    missing or holds no list. *)
Theorem reply_is_apology_or_payload input i ents res hist w :
  exists rd,
    fst (DeepSeekClient.generate_response env input (Some i) ents res hist w)
    = inr rd /\
    (rd = {| DeepSeekClient.rd_message := JStr client_apology;
             DeepSeekClient.rd_ui_elements := [] |} \/
     exists text m,
       llm_content env (length (llm_log w)) = inr text /\
       Py.blank text = false /\
       json_loads env (DeepSeekClient._extract_json_from_markdown text)
       = inr (JObj m) /\
       DeepSeekClient.rd_message rd = dict_get m "message" (JStr "") /\
       match m !! "ui_elements" with
       | Some (JArr l) => elements_built l (DeepSeekClient.rd_ui_elements rd)
       | _ => DeepSeekClient.rd_ui_elements rd = []
       end).
Proof.
  destruct (client_generate_cases env input i ents res hist w)
    as (rd & Hrd & Hcases).
  exists rd. split; [exact Hrd|].
  destruct Hcases as [-> | (text & m & He & Hb & Hp & Hm & Hu)]; [auto|].
  right. exists text, m. repeat split; try assumption.
  destruct (m !! "ui_elements") as [[| | | | |l|]|]; try congruence.
  apply build_ui_elements_built. exact Hu.
Qed.
End ClientFacts.

Section ClientInstances.
Import Scenario.

Lemma one_bad_element_discards_the_reply_witness :
  let m : gmap string json :=
    <["message" := JStr "Here you are"]>
      {["ui_elements" := JArr [JStr "button"]]} in
  let env := make_env [("{}", JObj m)] [inr "{}"] [] [] in
  fst (DeepSeekClient.generate_response env "hello" (Some GREETING) ∅ None []
         empty_world)
  = inr {| DeepSeekClient.rd_message := JStr client_apology;
           DeepSeekClient.rd_ui_elements := [] |}.
Proof.
  intros m env.
  apply (one_bad_element_discards_the_reply env "hello" GREETING ∅ None []
           empty_world "{}" m [JStr "button"] (JStr "button")
           (Raise TypeError "argument must be a mapping")).
  - reflexivity.
  - reflexivity.
  - reflexivity.
  - left. reflexivity.
  - reflexivity.
Defined.

Lemma well_formed_extraction_is_returned_witness :
  fst (DeepSeekClient.extract_intent_and_entities env_flights_down "a flight" []
         empty_world)
  = inr {| ee_intent := SEARCH_FLIGHT; ee_confidence := 0%float;
           ee_entities := ∅ |}.
Proof.
  apply (well_formed_extraction_is_returned env_flights_down "a flight" []
           empty_world (intent_text "search_flight")
           {["intent" := JStr "search_flight"]}).
  - reflexivity.
  - vm_compute. reflexivity.
  - vm_compute. reflexivity.
  - reflexivity.
  - reflexivity.
  - reflexivity.
  - reflexivity.
  - reflexivity.
Defined.
End ClientInstances.

(** ** The TripXplo client *)

Section TripXploFacts.
Import TripXplo.
Context (EMAIL PASSWORD : option string).
Context (http : nat -> exn + json).

(** What a call of [get_token] does: with a token in the cache nothing is
    sent; without, the login request is sent, and the cache holds the token
    afterwards or nothing. *)
Lemma get_token_cases s :
  (truthy (_token_cache s) = true /\
   get_token EMAIL PASSWORD http s = (inr (_token_cache s), s)) \/
  (truthy (_token_cache s) = false /\
   ((exists t,
        truthy t = true /\
        get_token EMAIL PASSWORD http s = (inr t, {| _token_cache := t; sent := sent s ++ [login_request EMAIL PASSWORD] |}))
    \/
    (exists e,
        get_token EMAIL PASSWORD http s
        = (inl e, {| _token_cache := JNull; sent := sent s ++ [login_request EMAIL PASSWORD] |})))).
Proof.
  unfold get_token.
  destruct (truthy (_token_cache s)) eqn:Hc; [left; auto|right].
  split; [reflexivity|].
  unfold try_except, bind, send, lift, ret, raise, set_token_cache.
  destruct (http (length (sent s))) as [e|data]; simpl; [right; eauto|].
  destruct (py_get data "accessToken" JNull) as [e|access]; simpl;
    [right; eauto|].
  destruct (truthy access) eqn:Ha; simpl.
  - rewrite Ha. simpl. left. eauto.
  - destruct (py_get data "jwt" JNull) as [e|token]; simpl; [right; eauto|].
    destruct (truthy token) eqn:Ht; simpl; [left; eauto|right; eauto].
Qed.

(** X20. The token is fetched once: a call of [get_token] that returns a
    token returns a truthy one and leaves it in the cache, the next call
    returns the same token and sends nothing; a call that raises leaves the
    cache empty, so that the next one logs in again. In both cases one
    request at most was sent, the login. *)
Theorem token_is_fetched_once s :
  match get_token EMAIL PASSWORD http s with
  | (inr t, s') =>
      truthy t = true /\ _token_cache s' = t /\
      get_token EMAIL PASSWORD http s' = (inr t, s') /\
      (sent_since s s' [] \/ sent_since s s' [login_request EMAIL PASSWORD])
  | (inl e, s') =>
      _token_cache s' = JNull /\ sent_since s s' [login_request EMAIL PASSWORD] /\
      sent_since s' (snd (get_token EMAIL PASSWORD http s')) [login_request EMAIL PASSWORD]
  end.
Proof.
  unfold sent_since.
  destruct (get_token_cases s) as [[Hc ->] | [Hc [(t & Ht & ->) | [e ->]]]].
  - repeat split; try assumption.
    + destruct (get_token_cases s) as [[_ H] | [Hc' _]]; [exact H|congruence].
    + left. rewrite app_nil_r. reflexivity.
  - simpl. repeat split; try assumption; [|right; reflexivity].
    match goal with
    | |- get_token EMAIL PASSWORD http ?s' = _ =>
        destruct (get_token_cases s') as [[_ H] | [Hc' _]];
        [exact H|simpl in Hc'; congruence]
    end.
  - simpl. repeat split.
    match goal with
    | |- context [get_token EMAIL PASSWORD http ?s'] =>
        destruct (get_token_cases s')
          as [[Hc' _] | [_ [(t & _ & ->) | [e' ->]]]];
        [simpl in Hc'; discriminate|reflexivity|reflexivity]
    end.
Qed.

(** A call of [get_token] that returns leaves its token in the cache. *)
Lemma get_token_cached s t s1 :
  get_token EMAIL PASSWORD http s = (inr t, s1) -> _token_cache s1 = t.
Proof.
  intros H.
  destruct (get_token_cases s) as [[_ Hc] | [_ [(t' & _ & Hc) | [e Hc]]]];
    rewrite Hc in H; [| |discriminate]; injection H as <- <-; reflexivity.
Qed.

(** After [get_token], a guarded request: it returns whatever happens, with
    the value of the body when the service answers and the body returns,
    and with the default of the handler otherwise. *)
Lemma guarded_request (body : json -> M State json) (dflt : json) r s :
  (forall v s1, snd (body v s1) = s1) ->
  let s2 := {| _token_cache := _token_cache s; sent := sent s ++ [r] |} in
  exists v,
    try_except (do b <- send http r; body b) (fun _ => ret dflt) s
    = (inr v, s2) /\
    match http (length (sent s)) with
    | inl _ => v = dflt
    | inr b =>
        match fst (body b s2) with
        | inl _ => v = dflt
        | inr v' => v = v'
        end
    end.
Proof.
  intros Hbody s2. unfold try_except, bind, send, ret. fold s2.
  destruct (http (length (sent s))) as [e|b] eqn:Hh.
  { exists dflt. split; reflexivity. }
  specialize (Hbody b s2).
  destruct (body b s2) as [[e|v] s1] eqn:Hb; simpl in Hbody; subst s1.
  - exists dflt. split; reflexivity.
  - exists v. split; reflexivity.
Qed.

Lemma bind_run {A B} (m : M State A) (k : A -> M State B) s :
  bind m k s
  = match m s with
    | (inl e, s') => (inl e, s')
    | (inr a, s') => k a s'
    end.
Proof. reflexivity. Qed.

Lemma sized_empty_list : sized (JArr []).
Proof. exists 0%nat. reflexivity. Qed.

(** A value is returned once [len] has accepted it. *)
Lemma checked_value (r : exn + json) (s : State) :
  fst ((do x <- lift r; do _ <- lift (py_len x); ret x) s)
  = match r with
    | inl e => inl e
    | inr x =>
        match py_len x with
        | inl e => inl e
        | inr _ => inr x
        end
    end.
Proof.
  unfold bind, lift, ret. destruct r as [e|x]; simpl; [reflexivity|].
  destruct (py_len x); reflexivity.
Qed.

Lemma checked_is_sized (r : exn + json) v (s : State) :
  fst ((do x <- lift r; do _ <- lift (py_len x); ret x) s) = inr v -> sized v.
Proof.
  rewrite checked_value. destruct r as [e|x]; [discriminate|].
  destruct (py_len x) as [e|n] eqn:Hn; [discriminate|].
  intros [= <-]. exists n. exact Hn.
Qed.

(** What [get_packages] does after [get_token]. *)
Lemma get_packages_cases search limit offset s :
  match get_token EMAIL PASSWORD http s with
  | (inl e, s1) =>
      get_packages EMAIL PASSWORD http search limit offset s = (inl e, s1)
  | (inr t, s1) =>
      exists v s' params,
        get_packages EMAIL PASSWORD http search limit offset s = (inr v, s') /\
        sized v /\ _token_cache s' = t /\
        sent_since s1 s'
          [authorized "GET" (API_BASE +:+ "/admin/package") t (Some params)
             None] /\
        params !! "limit" = Some (JInt limit) /\
        params !! "offset" = Some (JInt offset) /\
        params !! "search" = (if String.eqb search "" then None
                              else Some (JStr search)) /\
        (v = JArr [] \/
         exists body result,
           http (length (sent s1)) = inr body /\
           py_get body "result" (JObj ∅) = inr result /\
           py_get result "docs" (JArr []) = inr v) /\
        (forall body result docs,
            http (length (sent s1)) = inr body ->
            py_get body "result" (JObj ∅) = inr result ->
            py_get result "docs" (JArr []) = inr docs ->
            sized docs -> v = docs)
  end.
Proof.
  unfold get_packages. rewrite bind_run.
  destruct (get_token EMAIL PASSWORD http s) as [[e|t] s1] eqn:Ht; [reflexivity|].
  pose proof (get_token_cached s t s1 Ht) as Hcache.
  cbv beta zeta.
  match goal with
  | |- context [try_except (bind (send http ?r) ?body) _ s1] =>
      destruct (guarded_request body (JArr []) r s1) as (v & Hv & Hcase)
  end.
  { intros v s2. unfold bind, lift, ret.
    destruct (py_get v "result" _) as [e|x]; simpl; [reflexivity|].
    destruct (py_get x "docs" _) as [e|y]; simpl; [reflexivity|].
    destruct (py_len y); reflexivity. }
  cbv beta in Hv. rewrite Hv. do 3 eexists. split; [reflexivity|].
  assert (Hval :
    match http (length (sent s1)) with
    | inl _ => v = JArr []
    | inr body =>
        match py_get body "result" (JObj ∅) with
        | inl _ => v = JArr []
        | inr result =>
            match py_get result "docs" (JArr []) with
            | inl _ => v = JArr []
            | inr docs =>
                match py_len docs with
                | inl _ => v = JArr []
                | inr _ => v = docs
                end
            end
        end
    end).
  { destruct (http (length (sent s1))) as [e|body]; [exact Hcase|].
    unfold bind at 1, lift at 1 in Hcase.
    destruct (py_get body "result" (JObj ∅)) as [e|result]; [exact Hcase|].
    rewrite checked_value in Hcase.
    destruct (py_get result "docs" (JArr [])) as [e|docs]; [exact Hcase|].
    destruct (py_len docs); exact Hcase. }
  clear Hcase Hv.
  split; [|split; [exact Hcache|split; [reflexivity|]]].
  - destruct (http (length (sent s1))) as [e|body];
      [subst v; apply sized_empty_list|].
    destruct (py_get body "result" (JObj ∅)) as [e|result];
      [subst v; apply sized_empty_list|].
    destruct (py_get result "docs" (JArr [])) as [e|docs];
      [subst v; apply sized_empty_list|].
    destruct (py_len docs) as [e|n] eqn:Hn; subst v;
      [apply sized_empty_list|exists n; exact Hn].
  - unfold search_params.
    split; [destruct (String.eqb search ""); reflexivity|].
    split; [destruct (String.eqb search ""); reflexivity|].
    split; [destruct (String.eqb search ""); reflexivity|].
    split.
    + destruct (http (length (sent s1))) as [e|body]; [auto|].
      destruct (py_get body "result" (JObj ∅)) as [e|result] eqn:Hr; [auto|].
      destruct (py_get result "docs" (JArr [])) as [e|docs] eqn:Hd; [auto|].
      destruct (py_len docs); [auto|]. subst v. right. eauto.
    + intros body result docs Hb Hr Hd [n Hn].
      rewrite Hb, Hr, Hd, Hn in Hval. exact Hval.
Qed.

(** X21. [get_packages] raises only when the login does, with the error of
    the login and without a second request. With a token, cached or just
    fetched, it sends one request that carries this token, with the limit
    and the offset, and the search text when there is one. What it returns
    always has a length: it is the empty list, or what the answer of the
    service has under docs in its result; and it is that value whenever the
    answer has one that has a length. *)
Theorem get_packages_raises_only_at_login search limit offset s :
  match get_token EMAIL PASSWORD http s with
  | (inl e, s1) =>
      get_packages EMAIL PASSWORD http search limit offset s = (inl e, s1)
  | (inr t, s1) =>
      exists v s' params,
        get_packages EMAIL PASSWORD http search limit offset s = (inr v, s') /\
        sized v /\ _token_cache s' = t /\
        sent_since s1 s'
          [authorized "GET" (API_BASE +:+ "/admin/package") t (Some params)
             None] /\
        params !! "limit" = Some (JInt limit) /\
        params !! "offset" = Some (JInt offset) /\
        params !! "search" = (if String.eqb search "" then None
                              else Some (JStr search)) /\
        (v = JArr [] \/
         exists body result,
           http (length (sent s1)) = inr body /\
           py_get body "result" (JObj ∅) = inr result /\
           py_get result "docs" (JArr []) = inr v) /\
        (forall body result docs,
            http (length (sent s1)) = inr body ->
            py_get body "result" (JObj ∅) = inr result ->
            py_get result "docs" (JArr []) = inr docs ->
            sized docs -> v = docs)
  end.
Proof. apply get_packages_cases. Qed.

(** The details of a package cost one request after the token. *)
Lemma get_package_details_cases package_id s :
  match get_token EMAIL PASSWORD http s with
  | (inl e, s1) =>
      get_package_details EMAIL PASSWORD http package_id s = (inl e, s1)
  | (inr t, s1) =>
      exists v,
        get_package_details EMAIL PASSWORD http package_id s
        = (inr v,
           {| _token_cache := _token_cache s1;
              sent := sent s1
                      ++ [authorized "GET"
                            (API_BASE +:+ "/admin/package/" +:+ package_id) t
                            None None] |})
  end.
Proof.
  unfold get_package_details. rewrite bind_run.
  destruct (get_token EMAIL PASSWORD http s) as [[e|t] s1] eqn:Ht; [reflexivity|].
  cbv beta zeta.
  match goal with
  | |- context [try_except (bind (send http ?r) ?body) _ s1] =>
      destruct (guarded_request body (JObj ∅) r s1) as (v & Hv & _)
  end.
  { intros v s2. unfold lift. reflexivity. }
  cbv beta in Hv. rewrite Hv. eauto.
Qed.

(** The three lists read from the details of a package never raise. *)
Lemma get_available_returns key package_id s :
  exists v s',
    get_available EMAIL PASSWORD http key package_id s = (inr v, s') /\
    sized v /\
    (forall e s1, get_token EMAIL PASSWORD http s = (inl e, s1) -> v = JArr [] /\ s' = s1).
Proof.
  unfold get_available, try_except, bind at 1.
  pose proof (get_package_details_cases package_id s) as Hd.
  destruct (get_token EMAIL PASSWORD http s) as [[e|t] s1] eqn:Ht.
  - rewrite Hd. unfold ret. do 2 eexists. split; [reflexivity|].
    split; [apply sized_empty_list|]. intros e' s1' [= <- <-]. auto.
  - destruct Hd as [d ->].
    match goal with
    | |- context [(do x <- lift ?r; _) ?s2] =>
        pose proof (checked_is_sized r) as Hs;
        destruct ((do x <- lift r; do _ <- lift (py_len x); ret x) s2)
          as [[e|v] s'] eqn:Hb
    end.
    + unfold ret. do 2 eexists. split; [reflexivity|].
      split; [apply sized_empty_list|]. discriminate.
    + do 2 eexists. split; [reflexivity|]. split; [|discriminate].
      eapply Hs. rewrite Hb. reflexivity.
Qed.

(** X22. The hotels, vehicles and activities of a package never fail:
    whatever the login and the service do, the three functions return, with
    something that has a length, the empty list when the login failed; and
    their routes never answer with an internal server error. *)
Theorem package_lists_never_fail package_id s :
  (exists v s',
      get_available_hotels EMAIL PASSWORD http package_id s = (inr v, s') /\
      package_hotels EMAIL PASSWORD http package_id s = (inr v, s') /\
      sized v /\
      (forall e s1, get_token EMAIL PASSWORD http s = (inl e, s1) -> v = JArr [])) /\
  (exists v s',
      get_available_vehicles EMAIL PASSWORD http package_id s = (inr v, s') /\
      package_vehicles EMAIL PASSWORD http package_id s = (inr v, s') /\
      sized v /\
      (forall e s1, get_token EMAIL PASSWORD http s = (inl e, s1) -> v = JArr [])) /\
  (exists v s',
      get_available_activities EMAIL PASSWORD http package_id s = (inr v, s') /\
      package_activities EMAIL PASSWORD http package_id s = (inr v, s') /\
      sized v /\
      (forall e s1, get_token EMAIL PASSWORD http s = (inl e, s1) -> v = JArr [])).
Proof.
  unfold package_hotels, package_vehicles, package_activities, route,
    get_available_hotels, get_available_vehicles, get_available_activities.
  split; [|split].
  - destruct (get_available_returns "hotel" package_id s)
      as (v & s' & -> & Hs & Hl).
    exists v, s'. repeat split; try assumption.
    intros e s1 H. apply (Hl e s1 H).
  - destruct (get_available_returns "availableVehicle" package_id s)
      as (v & s' & -> & Hs & Hl).
    exists v, s'. repeat split; try assumption.
    intros e s1 H. apply (Hl e s1 H).
  - destruct (get_available_returns "activity" package_id s)
      as (v & s' & -> & Hs & Hl).
    exists v, s'. repeat split; try assumption.
    intros e s1 H. apply (Hl e s1 H).
Qed.

(** X23. The packages route answers with an internal server error exactly
    when the login fails. *)
Theorem list_packages_fails_with_login search limit offset s :
  (exists e s1, get_token EMAIL PASSWORD http s = (inl e, s1)) <->
  (exists s1,
      list_packages EMAIL PASSWORD http search limit offset s
      = (inl {| status_code := 500; detail := "Failed to fetch packages" |},
         s1)).
Proof.
  unfold list_packages, route.
  pose proof (get_packages_cases search limit offset s) as H.
  destruct (get_token EMAIL PASSWORD http s) as [[e|t] s1].
  - rewrite H. split; eauto.
  - destruct H as (v & s' & params & -> & _).
    split; [intros (e & s2 & [=])|intros (s2 & [=])].
Qed.
End TripXploFacts.
